(** * An OpenAI-compatible front end for Ollama: model and properties

    Shallow embedding of [scripts/ollama-api.py].  The handlers and the two
    streaming generators are written in a small monad that carries what the
    Python code reads from its surroundings (the random source behind
    [uuid.uuid4], the clock behind [time.time], the replies of the Ollama
    backend), what it yields and what it raises.

    Conventions.
    - A Python [str] is a Rocq [string] holding its UTF-8 encoding.
    - A Python [int] is a [Z]; a Python [float] is an element of the carrier
      of the class [PyFloat], whose operations are those of the interpreter.
    - A Python [dict] is an association list in insertion order, without
      duplicate keys.
    - [json.loads] and [json.dumps] belong to the interpreter's library and
      are taken through the class [PyJson]. *)

From Stdlib Require Import ZArith List String Ascii Bool Lia SpecFloat.
Import ListNotations.

Set Warnings "-register-all".

Open Scope string_scope.
Open Scope list_scope.
Open Scope Z_scope.

Infix "+++" := String.append (right associativity, at level 60).

(** The line feed of [\n] and the double quote. *)
Definition LF : string := String "010"%char "".
Definition DQ : string := String "034"%char "".

(* ================================================================== *)
(** * Python values *)
(* ================================================================== *)

(** Floating-point numbers of the interpreter (IEEE binary64). *)
Class PyFloat := {
  pyfloat : Type;
  (** [bool(x)]: [x != 0.0]. *)
  float_bool : pyfloat -> bool;
  (** [x + y]. *)
  float_add : pyfloat -> pyfloat -> pyfloat;
  (** [float(n)]; [None] is [OverflowError]. *)
  float_of_int : Z -> option pyfloat
}.

Section Values.
Context {FL : PyFloat}.

(** What [json.loads] builds and what the handlers build from it. *)
Inductive value : Type :=
| JNull
| JBool (b : bool)
| JInt (n : Z)
| JFloat (x : pyfloat)
| JStr (s : string)
| JList (l : list value)
| JDict (d : list (string * value)).

Definition type_name (v : value) : string :=
  match v with
  | JNull => "NoneType"
  | JBool _ => "bool"
  | JInt _ => "int"
  | JFloat _ => "float"
  | JStr _ => "str"
  | JList _ => "list"
  | JDict _ => "dict"
  end.

(** ** Dictionaries *)

Fixpoint dict_get (k : string) (d : list (string * value)) : option value :=
  match d with
  | [] => None
  | (k', v) :: r => if String.eqb k k' then Some v else dict_get k r
  end.

(** [d[k] = v]: an existing key keeps its place, a new key goes last. *)
Fixpoint dict_set (k : string) (v : value) (d : list (string * value))
  : list (string * value) :=
  match d with
  | [] => [(k, v)]
  | (k', v') :: r =>
      if String.eqb k k' then (k', v) :: r else (k', v') :: dict_set k v r
  end.

Definition dict_mem (k : string) (d : list (string * value)) : bool :=
  match dict_get k d with Some _ => true | None => false end.

(** ** Exceptions *)

Inductive exn : Type :=
| KeyError (key : string)
| TypeError (msg : string)
| AttributeError (msg : string)
| OverflowError (msg : string)
| RuntimeError (msg : string)
| JSONDecodeError (msg : string)
| TransportError (class msg : string)  (* raised by httpx: ConnectError, ReadTimeout, ... *)
| HTTPException (status_code : Z) (detail : string).

(** [repr] of a string free of quotes, backslashes and unprintable
    characters, which all the keys the program subscripts with are. *)
Definition repr_str (s : string) : string := "'" +++ s +++ "'".

Fixpoint decimal_digits (fuel : nat) (n : Z) (acc : string) : string :=
  match fuel with
  | O => acc
  | S fuel' =>
      let acc' := String (ascii_of_nat (48 + Z.to_nat (n mod 10))) acc in
      if n / 10 =? 0 then acc' else decimal_digits fuel' (n / 10) acc'
  end.

(** [str(n)] of an integer. *)
Definition str_int (n : Z) : string :=
  if n <? 0
  then "-" +++ decimal_digits (S (Z.to_nat (Z.log2 (- n)))) (- n) ""
  else decimal_digits (S (Z.to_nat (Z.log2 n))) n "".

(** [str(e)] (the messages of the interpreter are those of CPython 3.11
    and 3.12; the one of [RuntimeError] is httpx's). *)
Definition exn_str (e : exn) : string :=
  match e with
  | KeyError k => repr_str k
  | TypeError m => m
  | AttributeError m => m
  | OverflowError m => m
  | RuntimeError m => m
  | JSONDecodeError m => m
  | TransportError _ m => m
  | HTTPException c d => str_int c +++ ": " +++ d
  end.

(** Membership in the class [Exception]: all of the above. *)
Definition is_Exception (e : exn) : bool := true.

Definition is_JSONDecodeError (e : exn) : bool :=
  match e with JSONDecodeError _ => true | _ => false end.

(** ** Operations of the interpreter used by the program *)

(** [bool(v)]. *)
Definition py_bool (v : value) : bool :=
  match v with
  | JNull => false
  | JBool b => b
  | JInt n => negb (n =? 0)
  | JFloat x => float_bool x
  | JStr s => negb (String.eqb s "")
  | JList l => match l with [] => false | _ => true end
  | JDict d => match d with [] => false | _ => true end
  end.

(** [v[k]] for a string [k]. *)
Definition py_getitem (v : value) (k : string) : exn + value :=
  match v with
  | JDict d =>
      match dict_get k d with
      | Some x => inr x
      | None => inl (KeyError k)
      end
  | JList _ => inl (TypeError "list indices must be integers or slices, not str")
  | JStr _ => inl (TypeError "string indices must be integers, not 'str'")
  | _ => inl (TypeError ("'" +++ type_name v +++ "' object is not subscriptable"))
  end.

(** [v.get(k, default)]. *)
Definition py_get (v : value) (k : string) (default : value) : exn + value :=
  match v with
  | JDict d =>
      match dict_get k d with
      | Some x => inr x
      | None => inr default
      end
  | _ => inl (AttributeError
                ("'" +++ type_name v +++ "' object has no attribute 'get'"))
  end.

Definition is_str (k : string) (v : value) : bool :=
  match v with JStr s => String.eqb s k | _ => false end.

Definition is_substring (k s : string) : bool :=
  match String.index 0 k s with Some _ => true | None => false end.

(** [k in v] for a string [k]. *)
Definition py_contains (k : string) (v : value) : exn + bool :=
  match v with
  | JDict d => inr (dict_mem k d)
  | JList l => inr (existsb (is_str k) l)
  | JStr s => inr (is_substring k s)
  | _ => inl (TypeError
                ("argument of type '" +++ type_name v +++ "' is not iterable"))
  end.

(** A byte that continues a UTF-8 sequence: [10xxxxxx]. *)
Definition utf8_continuation (c : ascii) : bool :=
  let n := nat_of_ascii c in (128 <=? n)%nat && (n <? 192)%nat.

(** The characters of a [str], each with its continuation bytes. *)
Fixpoint utf8_chars (s : string) (cur : option string) : list string :=
  match s with
  | EmptyString => match cur with Some c => [c] | None => [] end
  | String a r =>
      if utf8_continuation a
      then utf8_chars r (Some (match cur with
                               | Some c => c +++ String a ""
                               | None => String a ""
                               end))
      else match cur with
           | Some c => c :: utf8_chars r (Some (String a ""))
           | None => utf8_chars r (Some (String a ""))
           end
  end.

(** The elements [for x in v] goes through. *)
Definition py_iter (v : value) : exn + list value :=
  match v with
  | JList l => inr l
  | JDict d => inr (map (fun kv => JStr (fst kv)) d)
  | JStr s => inr (map JStr (utf8_chars s None))
  | _ => inl (TypeError ("'" +++ type_name v +++ "' object is not iterable"))
  end.

Definition unsupported_add (a b : value) : exn :=
  TypeError ("unsupported operand type(s) for +: '" +++ type_name a
             +++ "' and '" +++ type_name b +++ "'").

Definition float_plus_int (n : Z) (k : pyfloat -> pyfloat) : exn + value :=
  match float_of_int n with
  | Some y => inr (JFloat (k y))
  | None => inl (OverflowError "int too large to convert to float")
  end.

(** [a + b]. A [bool] counts as the integer 0 or 1. *)
Definition py_add (a b : value) : exn + value :=
  let as_int (v : value) : option Z :=
    match v with
    | JBool c => Some (if c then 1 else 0)
    | JInt n => Some n
    | _ => None
    end in
  match a, b with
  | JStr s, JStr t => inr (JStr (s +++ t))
  | JStr _, _ => inl (TypeError ("can only concatenate str (not " +++ DQ
                                 +++ type_name b +++ DQ +++ ") to str"))
  | JList l, JList m => inr (JList (l ++ m))
  | JList _, _ => inl (TypeError ("can only concatenate list (not " +++ DQ
                                  +++ type_name b +++ DQ +++ ") to list"))
  | JFloat x, JFloat y => inr (JFloat (float_add x y))
  | JFloat x, _ =>
      match as_int b with
      | Some n => float_plus_int n (fun y => float_add x y)
      | None => inl (unsupported_add a b)
      end
  | _, JFloat y =>
      match as_int a with
      | Some n => float_plus_int n (fun x => float_add x y)
      | None => inl (unsupported_add a b)
      end
  | _, _ =>
      match as_int a, as_int b with
      | Some n, Some m => inr (JInt (n + m))
      | _, _ => inl (unsupported_add a b)
      end
  end.

End Values.

(** The [json] module: [json_loads s] is [None] when [json.loads(s)] raises
    [JSONDecodeError]; [json_dumps v] is [json.dumps(v)], which does not
    raise on what [json.loads] builds.  The limits of the interpreter (the
    depth of recursion, the number of digits of an [int]) are left out. *)
Class PyJson {FL : PyFloat} := {
  json_loads : string -> option value;
  json_dumps : value -> string;
  (** The empty text is no JSON document. *)
  json_loads_empty : json_loads "" = None
}.

(* ================================================================== *)
(** * The surroundings of the program *)
(* ================================================================== *)

Section World.
Context {FL : PyFloat}.

(** A response of the backend as httpx hands it over: its status, what
    [response.json()] returns or raises, and what [response.aiter_lines()]
    delivers, possibly ended by an exception of the transport. *)
Record response : Type := {
  status_code_of : Z;
  json_of : exn + value;
  lines_of : list string;
  lines_end : option exn
}.

(** The outcome of one request to the backend. *)
Inductive reply : Type :=
| Unreachable (e : exn)
| Replied (r : response).

(** A request as it leaves the program. *)
Record sent_request : Type := {
  sent_method : string;
  sent_url : string;
  sent_json : option value
}.

Record world : Type := {
  (** [os.getenv("OLLAMA_HOST", "http://localhost:11434")], read at start. *)
  OLLAMA_HOST : string;
  (** The 128 random bits behind the k-th call of [uuid.uuid4()]. *)
  entropy : nat -> Z;
  (** [int(time.time())] at the k-th reading of the clock. *)
  clock : nat -> Z;
  (** What the backend does with the k-th request it is sent. *)
  backend : nat -> reply;
  uuid_calls : nat;
  clock_reads : nat;
  (** The requests sent so far, oldest first. *)
  sent : list sent_request
}.

(** ** The monad of the program: state, yielded frames, exceptions *)

Record run (A : Type) : Type := Run {
  yielded : list string;
  result : exn + A;
  after : world
}.
Arguments Run {A}.
Arguments yielded {A}.
Arguments result {A}.
Arguments after {A}.

Definition prog (A : Type) : Type := world -> run A.

Definition ret {A} (a : A) : prog A :=
  fun w => Run [] (inr a) w.

Definition raise {A} (e : exn) : prog A :=
  fun w => Run [] (inl e) w.

Definition bind {A B} (m : prog A) (k : A -> prog B) : prog B :=
  fun w =>
    match m w with
    | Run ys (inl e) w' => Run ys (inl e) w'
    | Run ys (inr a) w' =>
        match k a w' with
        | Run ys' r w'' => Run (ys ++ ys') r w''
        end
    end.

(** [yield s]. *)
Definition yield (s : string) : prog unit :=
  fun w => Run [s] (inr tt) w.

(** An operation of the interpreter that returns or raises. *)
Definition lift {A} (x : exn + A) : prog A :=
  match x with
  | inl e => raise e
  | inr a => ret a
  end.

(** [try: m  except C as e: handler e], where [catches] decides membership
    in [C].  What [m] yielded before raising stays yielded. *)
Definition try_except {A} (m : prog A) (catches : exn -> bool)
    (handler : exn -> prog A) : prog A :=
  fun w =>
    match m w with
    | Run ys (inl e) w' =>
        if catches e
        then match handler e w' with
             | Run ys' r w'' => Run (ys ++ ys') r w''
             end
        else Run ys (inl e) w'
    | Run ys (inr a) w' => Run ys (inr a) w'
    end.

End World.

Arguments Run {FL A}.
Arguments yielded {FL A}.
Arguments result {FL A}.
Arguments after {FL A}.

Declare Scope prog_scope.
Delimit Scope prog_scope with prog.
Notation "x <- m ;; k" := (bind m (fun x => k))
  (at level 100, m at next level, right associativity) : prog_scope.
Notation "m ;; k" := (bind m (fun _ => k))
  (at level 100, right associativity) : prog_scope.
Open Scope prog_scope.

Section Effects.
Context {FL : PyFloat}.

(** [for x in xs: body x]. *)
Fixpoint for_each {A} (xs : list A) (body : A -> prog unit) : prog unit :=
  match xs with
  | [] => ret tt
  | x :: r => body x ;; for_each r body
  end.

(** ** uuid *)

Definition hex_digit (d : Z) : ascii :=
  if d <? 10 then ascii_of_nat (48 + Z.to_nat d)
  else ascii_of_nat (87 + Z.to_nat d).

(** The [width] low hexadecimal digits of [n], most significant first. *)
Fixpoint hex_digits (width : nat) (n : Z) : list ascii :=
  match width with
  | O => []
  | S k => hex_digits k (n / 16) ++ [hex_digit (n mod 16)]
  end.

(** [uuid.UUID(bytes=..., version=4).int]: the variant bits are set to
    RFC 4122 and the version nibble to 4. *)
Definition uuid4_int (random : Z) : Z :=
  let i0 := random mod 2 ^ 128 in
  let i1 := Z.land i0 (Z.lnot (Z.shiftl 49152 48)) in
  let i2 := Z.lor i1 (Z.shiftl 32768 48) in
  let i3 := Z.land i2 (Z.lnot (Z.shiftl 61440 64)) in
  Z.lor i3 (Z.shiftl 4 76).

(** The world after one more call of [uuid.uuid4()]. *)
Definition drawn (w : world) : world :=
  {| OLLAMA_HOST := OLLAMA_HOST w; entropy := entropy w; clock := clock w;
     backend := backend w; uuid_calls := S (uuid_calls w);
     clock_reads := clock_reads w; sent := sent w |}.

(** [uuid.uuid4().hex]: 32 lower-case hexadecimal digits. *)
Definition uuid4_hex : prog (list ascii) :=
  fun w =>
    Run [] (inr (hex_digits 32 (uuid4_int (entropy w (uuid_calls w))))) (drawn w).

(** [s[:n]]. *)
Definition slice_to (n : nat) (s : list ascii) : string :=
  string_of_list_ascii (firstn n s).

(** ** time *)

(** The world after one more reading of the clock. *)
Definition ticked (w : world) : world :=
  {| OLLAMA_HOST := OLLAMA_HOST w; entropy := entropy w; clock := clock w;
     backend := backend w; uuid_calls := uuid_calls w;
     clock_reads := S (clock_reads w); sent := sent w |}.

(** [int(time.time())]. *)
Definition int_time : prog Z :=
  fun w => Run [] (inr (clock w (clock_reads w))) (ticked w).

(** ** httpx *)

Definition ollama_host : prog string :=
  fun w => Run [] (inr (OLLAMA_HOST w)) w.

(** The world after one more request to the backend. *)
Definition logged (request : sent_request) (w : world) : world :=
  {| OLLAMA_HOST := OLLAMA_HOST w; entropy := entropy w; clock := clock w;
     backend := backend w; uuid_calls := uuid_calls w;
     clock_reads := clock_reads w; sent := sent w ++ [request] |}.

(** An [httpx.AsyncClient], as far as the program can tell one from
    another: open inside its [async with], closed once that is left. *)
Record AsyncClient : Type := {
  is_closed : bool
}.

(** The client inside [async with httpx.AsyncClient(...) as client]. *)
Definition open_client : AsyncClient := {| is_closed := false |}.

(** The same client after the [async with] is left. *)
Definition aclose (client : AsyncClient) : AsyncClient := {| is_closed := true |}.

(** Sends one request and hands over the response, or raises.  A closed
    client refuses to send. *)
Definition client_request (client : AsyncClient) (method url : string)
    (body : option value) : prog response :=
  fun w =>
    if is_closed client
    then Run [] (inl (RuntimeError
                        "Cannot send a request, as the client has been closed."))
           w
    else
      let w' := logged {| sent_method := method; sent_url := url;
                          sent_json := body |} w in
      match backend w (List.length (sent w)) with
      | Unreachable e => Run [] (inl e) w'
      | Replied r => Run [] (inr r) w'
      end.

(** [client.get(url)]. *)
Definition client_get (client : AsyncClient) (url : string) : prog response :=
  client_request client "GET" url None.

(** [client.post(url, json=body)]. *)
Definition client_post (client : AsyncClient) (url : string) (body : value)
  : prog response :=
  client_request client "POST" url (Some body).

(** [client.stream("POST", url, json=body)]. *)
Definition client_stream (client : AsyncClient) (method url : string)
    (body : value) : prog response :=
  client_request client method url (Some body).

End Effects.

(* ================================================================== *)
(** * The program *)
(* ================================================================== *)

Section Program.
Context {FL : PyFloat} {JS : PyJson}.

(** [[f x for x in xs]]. *)
Fixpoint comprehension {A B} (f : A -> prog B) (xs : list A) : prog (list B) :=
  match xs with
  | [] => ret []
  | x :: r => y <- f x ;; ys <- comprehension f r ;; ret (y :: ys)
  end.

(** ** Request models *)

Record Message : Type := {
  role : string;
  content : string
}.

Record ChatCompletionRequest : Type := {
  chat_model : string;
  chat_messages : list Message;
  chat_temperature : pyfloat;
  chat_max_tokens : option Z;
  chat_stream : bool
}.

Record CompletionRequest : Type := {
  cmpl_model : string;
  cmpl_prompt : string;
  cmpl_temperature : pyfloat;
  cmpl_max_tokens : option Z;
  cmpl_stream : bool
}.

(** Truth value of an [Optional[int]]. *)
Definition optional_int_bool (o : option Z) : bool :=
  match o with
  | Some n => negb (n =? 0)
  | None => false
  end.

(** What a handler returns: a body for the JSON encoder of the framework,
    or a [StreamingResponse] over a generator that has not run yet. *)
Inductive handler_return : Type :=
| Body (v : value)
| StreamingResponse (generator : prog unit) (media_type : string).

(** [f"data: {payload}\n\n"]. *)
Definition sse (payload : string) : string :=
  "data: " +++ payload +++ LF +++ LF.

Definition DONE_frame : string := "data: [DONE]" +++ LF +++ LF.

(** ** GET / *)

Definition root : prog value :=
  ret (JDict [("message", JStr "Ollama OpenAI-Compatible API");
              ("status", JStr "running")]).

(** ** GET /health *)

Definition health : prog value :=
  try_except
    (host <- ollama_host ;;
     response <- client_get open_client (host +++ "/api/tags") ;;
     if status_code_of response =? 200
     then ret (JDict [("status", JStr "healthy"); ("ollama", JStr "connected")])
     else (* the function ends without a [return] *) ret JNull)
    is_Exception
    (fun e => raise (HTTPException 503 ("Ollama not available: " +++ exn_str e))).

(** ** GET /v1/models *)

Definition model_entry (model : value) : prog value :=
  name <- lift (py_getitem model "name") ;;
  created <- int_time ;;
  ret (JDict [("id", name); ("object", JStr "model");
              ("created", JInt created); ("owned_by", JStr "ollama")]).

Definition list_models : prog value :=
  try_except
    (host <- ollama_host ;;
     response <- client_get open_client (host +++ "/api/tags") ;;
     if status_code_of response =? 200
     then
       body <- lift (json_of response) ;;
       ollama_models <- lift (py_get body "models" (JList [])) ;;
       items <- lift (py_iter ollama_models) ;;
       models <- comprehension model_entry items ;;
       ret (JDict [("object", JStr "list"); ("data", JList models)])
     else (* the function ends without a [return] *) ret JNull)
    is_Exception
    (fun e => raise (HTTPException 500 (exn_str e))).

(** ** The request translator *)

(** [request[outer][inner] = x] on the dictionaries the handlers build. *)
Definition setitem_nested (request : value) (outer inner : string) (x : value)
  : value :=
  match request with
  | JDict d =>
      match dict_get outer d with
      | Some (JDict o) => JDict (dict_set outer (JDict (dict_set inner x o)) d)
      | _ => request
      end
  | _ => request
  end.

Definition with_num_predict (ollama_request : value) (max_tokens : option Z)
  : value :=
  if optional_int_bool max_tokens
  then match max_tokens with
       | Some n => setitem_nested ollama_request "options" "num_predict" (JInt n)
       | None => ollama_request
       end
  else ollama_request.

Definition chat_ollama_request (request : ChatCompletionRequest) : value :=
  let ollama_messages :=
    map (fun msg => JDict [("role", JStr (role msg));
                           ("content", JStr (content msg))])
        (chat_messages request) in
  let ollama_request :=
    JDict [("model", JStr (chat_model request));
           ("messages", JList ollama_messages);
           ("stream", JBool (chat_stream request));
           ("options", JDict [("temperature", JFloat (chat_temperature request))])] in
  with_num_predict ollama_request (chat_max_tokens request).

Definition completion_ollama_request (request : CompletionRequest) : value :=
  let ollama_request :=
    JDict [("model", JStr (cmpl_model request));
           ("prompt", JStr (cmpl_prompt request));
           ("stream", JBool (cmpl_stream request));
           ("options", JDict [("temperature", JFloat (cmpl_temperature request))])] in
  with_num_predict ollama_request (cmpl_max_tokens request).

(** ** Streaming chat completions *)

Definition chat_content_chunk (request_id : string) (created : Z)
    (model content : value) : value :=
  JDict [("id", JStr request_id);
         ("object", JStr "chat.completion.chunk");
         ("created", JInt created);
         ("model", model);
         ("choices", JList [JDict [("index", JInt 0);
                                   ("delta", JDict [("content", content)]);
                                   ("finish_reason", JNull)]])].

Definition chat_final_chunk (request_id : string) (created : Z) (model : value)
  : value :=
  JDict [("id", JStr request_id);
         ("object", JStr "chat.completion.chunk");
         ("created", JInt created);
         ("model", model);
         ("choices", JList [JDict [("index", JInt 0);
                                   ("delta", JDict []);
                                   ("finish_reason", JStr "stop")]])].

(** [json.loads(line)] as a step of the program.  The message of the
    exception is left empty: the only handler of the program that can
    catch it, the [except] of the two streams, does not read it. *)
Definition loads (line : string) : prog value :=
  match json_loads line with
  | Some v => ret v
  | None => raise (JSONDecodeError "")
  end.

(** The body of the [try] of [stream_chat_response]. *)
Definition chat_chunk (request_id : string) (ollama_request : value)
    (line : string) : prog unit :=
  ollama_chunk <- loads line ;;
  has_message <- lift (py_contains "message" ollama_chunk) ;;
  if has_message : bool then
    message <- lift (py_getitem ollama_chunk "message") ;;
    content <- lift (py_get message "content" (JStr "")) ;;
    (if py_bool content then
       created <- int_time ;;
       model <- lift (py_getitem ollama_request "model") ;;
       yield (sse (json_dumps (chat_content_chunk request_id created model content)))
     else ret tt) ;;
    done <- lift (py_get ollama_chunk "done" (JBool false)) ;;
    if py_bool done then
      created <- int_time ;;
      model <- lift (py_getitem ollama_request "model") ;;
      yield (sse (json_dumps (chat_final_chunk request_id created model))) ;;
      yield DONE_frame
    else ret tt
  else ret tt.

(** The body of the [async for] of [stream_chat_response]. *)
Definition chat_line (request_id : string) (ollama_request : value)
    (line : string) : prog unit :=
  if negb (String.eqb line "")
  then try_except (chat_chunk request_id ollama_request line)
         is_JSONDecodeError (fun _ => (* continue *) ret tt)
  else ret tt.

(** What follows the last line of a streamed response. *)
Definition end_of_lines (response : response) : prog unit :=
  match lines_end response with
  | Some e => raise e
  | None => ret tt
  end.

Definition stream_chat_response (client : AsyncClient) (ollama_request : value)
  : prog unit :=
  hex <- uuid4_hex ;;
  let request_id := "chatcmpl-" +++ slice_to 8 hex in
  host <- ollama_host ;;
  response <- client_stream client "POST" (host +++ "/api/chat") ollama_request ;;
  for_each (lines_of response) (chat_line request_id ollama_request) ;;
  end_of_lines response.

(** ** POST /v1/chat/completions *)

(** The handler returns from inside its [async with]: the generator it
    hands to [StreamingResponse] holds the handler's client and starts
    after the client is closed. *)
Definition chat_completions (request : ChatCompletionRequest)
  : prog handler_return :=
  let ollama_request := chat_ollama_request request in
  let client := open_client in
  try_except
    (if chat_stream request
     then ret (StreamingResponse
                 (stream_chat_response (aclose client) ollama_request)
                 "text/event-stream")
     else
       host <- ollama_host ;;
       response <- client_post client (host +++ "/api/chat") ollama_request ;;
       ollama_response <- lift (json_of response) ;;
       hex <- uuid4_hex ;;
       created <- int_time ;;
       message <- lift (py_getitem ollama_response "message") ;;
       text <- lift (py_getitem message "content") ;;
       prompt_tokens <- lift (py_get ollama_response "prompt_eval_count" (JInt 0)) ;;
       completion_tokens <- lift (py_get ollama_response "eval_count" (JInt 0)) ;;
       p <- lift (py_get ollama_response "prompt_eval_count" (JInt 0)) ;;
       c <- lift (py_get ollama_response "eval_count" (JInt 0)) ;;
       total_tokens <- lift (py_add p c) ;;
       ret (Body (JDict
         [("id", JStr ("chatcmpl-" +++ slice_to 8 hex));
          ("object", JStr "chat.completion");
          ("created", JInt created);
          ("model", JStr (chat_model request));
          ("choices", JList [JDict [("index", JInt 0);
                                    ("message", JDict [("role", JStr "assistant");
                                                       ("content", text)]);
                                    ("finish_reason", JStr "stop")]]);
          ("usage", JDict [("prompt_tokens", prompt_tokens);
                           ("completion_tokens", completion_tokens);
                           ("total_tokens", total_tokens)])])))
    is_Exception
    (fun e => raise (HTTPException 500 (exn_str e))).

(** ** Streaming completions *)

Definition completion_text_chunk (request_id : string) (created : Z)
    (model text : value) : value :=
  JDict [("id", JStr request_id);
         ("object", JStr "text_completion");
         ("created", JInt created);
         ("model", model);
         ("choices", JList [JDict [("text", text);
                                   ("index", JInt 0);
                                   ("finish_reason", JNull)]])].

(** The body of the [try] of [stream_completion_response]. *)
Definition completion_chunk (request_id : string) (ollama_request : value)
    (line : string) : prog unit :=
  ollama_chunk <- loads line ;;
  text <- lift (py_get ollama_chunk "response" (JStr "")) ;;
  (if py_bool text then
     created <- int_time ;;
     model <- lift (py_getitem ollama_request "model") ;;
     yield (sse (json_dumps (completion_text_chunk request_id created model text)))
   else ret tt) ;;
  done <- lift (py_get ollama_chunk "done" (JBool false)) ;;
  if py_bool done then yield DONE_frame else ret tt.

(** The body of the [async for] of [stream_completion_response]. *)
Definition completion_line (request_id : string) (ollama_request : value)
    (line : string) : prog unit :=
  if negb (String.eqb line "")
  then try_except (completion_chunk request_id ollama_request line)
         is_JSONDecodeError (fun _ => (* continue *) ret tt)
  else ret tt.

Definition stream_completion_response (client : AsyncClient)
    (ollama_request : value) : prog unit :=
  hex <- uuid4_hex ;;
  let request_id := "cmpl-" +++ slice_to 8 hex in
  host <- ollama_host ;;
  response <- client_stream client "POST" (host +++ "/api/generate")
                ollama_request ;;
  for_each (lines_of response) (completion_line request_id ollama_request) ;;
  end_of_lines response.

(** ** POST /v1/completions *)

(** As for chat, the generator starts after the client is closed. *)
Definition completions (request : CompletionRequest) : prog handler_return :=
  let ollama_request := completion_ollama_request request in
  let client := open_client in
  try_except
    (if cmpl_stream request
     then ret (StreamingResponse
                 (stream_completion_response (aclose client) ollama_request)
                 "text/event-stream")
     else
       host <- ollama_host ;;
       response <- client_post client (host +++ "/api/generate") ollama_request ;;
       ollama_response <- lift (json_of response) ;;
       hex <- uuid4_hex ;;
       created <- int_time ;;
       text <- lift (py_getitem ollama_response "response") ;;
       prompt_tokens <- lift (py_get ollama_response "prompt_eval_count" (JInt 0)) ;;
       completion_tokens <- lift (py_get ollama_response "eval_count" (JInt 0)) ;;
       p <- lift (py_get ollama_response "prompt_eval_count" (JInt 0)) ;;
       c <- lift (py_get ollama_response "eval_count" (JInt 0)) ;;
       total_tokens <- lift (py_add p c) ;;
       ret (Body (JDict
         [("id", JStr ("cmpl-" +++ slice_to 8 hex));
          ("object", JStr "text_completion");
          ("created", JInt created);
          ("model", JStr (cmpl_model request));
          ("choices", JList [JDict [("text", text);
                                    ("index", JInt 0);
                                    ("finish_reason", JStr "stop")]]);
          ("usage", JDict [("prompt_tokens", prompt_tokens);
                           ("completion_tokens", completion_tokens);
                           ("total_tokens", total_tokens)])])))
    is_Exception
    (fun e => raise (HTTPException 500 (exn_str e))).

(** ** What the caller sees *)

(** The status of the HTTP answer the framework makes of a handler's run:
    200 for a returned body, the status of a raised [HTTPException], and
    500 for any other exception. *)
Definition http_status {A} (r : run A) : Z :=
  match result r with
  | inr _ => 200
  | inl (HTTPException c _) => c
  | inl _ => 500
  end.

End Program.

(* ================================================================== *)
(** * The vocabulary of the statements *)
(* ================================================================== *)

Section Vocabulary.
Context {FL : PyFloat} {JS : PyJson}.

(** The frames each line produces in turn, every line starting where the
    one before it stopped; a line that raises ends the stream. *)
Fixpoint frames_per_line (body : string -> prog unit) (lines : list string)
    (w : world) : list (list string) :=
  match lines with
  | [] => []
  | line :: rest =>
      let r := body line w in
      yielded r ::
      match result r with
      | inr _ => frames_per_line body rest (after r)
      | inl _ => []
      end
  end.

(** The lines a stream gets to: all of them up to the first that raises. *)
Fixpoint consumed (body : string -> prog unit) (lines : list string)
    (w : world) : list string :=
  match lines with
  | [] => []
  | line :: rest =>
      let r := body line w in
      line ::
      match result r with
      | inr _ => consumed body rest (after r)
      | inl _ => []
      end
  end.

(** [d.get(k, default)] on a dictionary. *)
Definition get_or (k : string) (default : value) (d : list (string * value))
  : value :=
  match dict_get k d with
  | Some x => x
  | None => default
  end.

(** The request id a stream mints in [w]. *)
Definition minted (prefix : string) (w : world) : string :=
  prefix +++ slice_to 8 (hex_digits 32 (uuid4_int (entropy w (uuid_calls w)))).

(** The world once the id is minted and the request is sent. *)
Definition opened (path : string) (body : value) (w : world) : world :=
  after (client_stream open_client "POST" (OLLAMA_HOST w +++ path) body
           (after (uuid4_hex w))).

(** Every frame the program yields satisfies [P], whatever the world. *)
Definition emits {A} (P : string -> Prop) (m : prog A) : Prop :=
  forall w, Forall P (yielded (m w)).

(** The program draws no UUID. *)
Definition mints_nothing {A} (m : prog A) : Prop :=
  forall w, uuid_calls (after (m w)) = uuid_calls w.

(** A frame of a stream whose request id is [request_id]: the sentinel, or
    a JSON chunk that carries the id. *)
Definition frame_of (request_id : string) (frame : string) : Prop :=
  frame = DONE_frame \/
  exists chunk, frame = sse (json_dumps chunk) /\
                py_getitem chunk "id" = inr (JStr request_id).

Definition is_hex_digit (c : ascii) : bool :=
  existsb (Ascii.eqb c) (list_ascii_of_string "0123456789abcdef").

(** Eight lower-case hexadecimal digits. *)
Definition hex_token (s : string) : Prop :=
  String.length s = 8%nat /\
  forallb is_hex_digit (list_ascii_of_string s) = true.

Inductive step : Type :=
| Key (k : string)
| Index (i : nat).

(** [v[s1][s2]...], when every subscript is there. *)
Fixpoint at_path (v : value) (path : list step) : option value :=
  match path with
  | [] => Some v
  | Key k :: rest =>
      match v with
      | JDict d =>
          match dict_get k d with
          | Some x => at_path x rest
          | None => None
          end
      | _ => None
      end
  | Index i :: rest =>
      match v with
      | JList l =>
          match nth_error l i with
          | Some x => at_path x rest
          | None => None
          end
      | _ => None
      end
  end.

(** A counter of the backend: absent, it counts as 0. *)
Definition counter (k : string) (d : list (string * value)) : option Z :=
  match dict_get k d with
  | None => Some 0
  | Some (JInt n) => Some n
  | Some _ => None
  end.

(** The request a non-streaming handler sends. *)
Definition post_of (w : world) (path : string) (body : value) : sent_request :=
  {| sent_method := "POST"; sent_url := OLLAMA_HOST w +++ path;
     sent_json := Some body |}.

(** The body of a chat completion, from what was read of the answer. *)
Definition chat_body (w : world) (model : string)
    (text prompt_tokens completion_tokens total_tokens : value) : value :=
  JDict
    [("id", JStr (minted "chatcmpl-" w));
     ("object", JStr "chat.completion");
     ("created", JInt (clock w (clock_reads w)));
     ("model", JStr model);
     ("choices", JList [JDict [("index", JInt 0);
                               ("message", JDict [("role", JStr "assistant");
                                                  ("content", text)]);
                               ("finish_reason", JStr "stop")]]);
     ("usage", JDict [("prompt_tokens", prompt_tokens);
                      ("completion_tokens", completion_tokens);
                      ("total_tokens", total_tokens)])].

(** The body of a text completion, from what was read of the answer. *)
Definition completion_body (w : world) (model : string)
    (text prompt_tokens completion_tokens total_tokens : value) : value :=
  JDict
    [("id", JStr (minted "cmpl-" w));
     ("object", JStr "text_completion");
     ("created", JInt (clock w (clock_reads w)));
     ("model", JStr model);
     ("choices", JList [JDict [("text", text);
                               ("index", JInt 0);
                               ("finish_reason", JStr "stop")]]);
     ("usage", JDict [("prompt_tokens", prompt_tokens);
                      ("completion_tokens", completion_tokens);
                      ("total_tokens", total_tokens)])].

(** The translation of the answer [v] of the backend to a chat request. *)
Definition chat_translation (w : world) (model : string) (v : value)
  : prog handler_return :=
  message <- lift (py_getitem v "message") ;;
  text <- lift (py_getitem message "content") ;;
  prompt_tokens <- lift (py_get v "prompt_eval_count" (JInt 0)) ;;
  completion_tokens <- lift (py_get v "eval_count" (JInt 0)) ;;
  p <- lift (py_get v "prompt_eval_count" (JInt 0)) ;;
  c <- lift (py_get v "eval_count" (JInt 0)) ;;
  total_tokens <- lift (py_add p c) ;;
  ret (Body (chat_body w model text prompt_tokens completion_tokens total_tokens)).

Definition completion_translation (w : world) (model : string) (v : value)
  : prog handler_return :=
  text <- lift (py_getitem v "response") ;;
  prompt_tokens <- lift (py_get v "prompt_eval_count" (JInt 0)) ;;
  completion_tokens <- lift (py_get v "eval_count" (JInt 0)) ;;
  p <- lift (py_get v "prompt_eval_count" (JInt 0)) ;;
  c <- lift (py_get v "eval_count" (JInt 0)) ;;
  total_tokens <- lift (py_add p c) ;;
  ret (Body (completion_body w model text prompt_tokens completion_tokens
               total_tokens)).

Definition as_500 (e : exn) : prog handler_return :=
  raise (HTTPException 500 (exn_str e)).

(** The world of a non-streaming handler once the answer is in, the id is
    minted and the clock is read. *)
Definition answered (request : sent_request) (w : world) : world :=
  ticked (drawn (logged request w)).

Definition get_of (w : world) (path : string) : sent_request :=
  {| sent_method := "GET"; sent_url := OLLAMA_HOST w +++ path; sent_json := None |}.

(** The entry made of a model named [name] when the clock reads [created]. *)
Definition entry_of (name : value) (created : Z) : value :=
  JDict [("id", name); ("object", JStr "model");
         ("created", JInt created); ("owned_by", JStr "ollama")].

(** The world after [n] more readings of the clock. *)
Fixpoint ticked_by (n : nat) (w : world) : world :=
  match n with
  | O => w
  | S k => ticked_by k (ticked w)
  end.

(** The entries of the models named [names], the clock read once for each
    from its [k]-th reading on. *)
Fixpoint entries_of (clock : nat -> Z) (k : nat) (names : list value)
  : list value :=
  match names with
  | [] => []
  | name :: rest => entry_of name (clock k) :: entries_of clock (S k) rest
  end.

(** The program yields nothing and leaves the world as it is. *)
Definition silent {A} (m : prog A) : Prop :=
  forall w, yielded (m w) = [] /\ after (m w) = w.

(** The program leaves the requests sent so far as they are. *)
Definition sends_nothing {A} (m : prog A) : Prop :=
  forall w, sent (after (m w)) = sent w.

(** The request a stream sends. *)
Definition stream_post_of (w : world) (path : string) (body : value)
  : sent_request :=
  {| sent_method := "POST"; sent_url := OLLAMA_HOST w +++ path;
     sent_json := Some body |}.

(** What httpx raises when a closed client is asked to send. *)
Definition client_closed_error : exn :=
  RuntimeError "Cannot send a request, as the client has been closed.".

(** A JSON value that is neither a container nor a string. *)
Definition is_scalar (v : value) : bool :=
  match v with
  | JNull | JBool _ | JInt _ | JFloat _ => true
  | JStr _ | JList _ | JDict _ => false
  end.

Definition is_object (v : value) : bool :=
  match v with
  | JDict _ => true
  | _ => false
  end.

(** [at_path] on what a handler returned, if it returned. *)
Definition at_path_result (out : exn + value) (path : list step) : option value :=
  match out with
  | inr v => at_path v path
  | inl _ => None
  end.

End Vocabulary.

(* ================================================================== *)
(** * A runtime to evaluate the program with *)
(* ================================================================== *)

(** The properties below hold for every [PyFloat] and [PyJson].  To run the
    program on concrete inputs, this part gives one runtime: its floats are
    the binary64 numbers of the standard library's [SpecFloat], and its
    reader and writer follow [json.loads] and [json.dumps] on the texts
    whose strings hold no lone surrogate (a text with one is refused). *)
Module Reference.

(** *** Floating-point numbers *)

Definition binary64 (m e : Z) (negative : bool) : spec_float :=
  binary_normalize 53 1024 (if negative then - m else m) e negative.

#[local] Instance float64 : PyFloat := {|
  pyfloat := spec_float;
  float_bool := fun x => match x with S754_zero _ => false | _ => true end;
  float_add := SFadd 53 1024;
  float_of_int := fun n => match binary64 n 0 false with
                           | S754_infinity _ => None
                           | x => Some x
                           end
|}.

(** [float(text)] for the decimal [m * 10 ^ e10] with [m] not negative:
    the nearest double, ties to even. *)
Definition float_of_decimal (negative : bool) (m e10 : Z) : spec_float :=
  if m =? 0 then S754_zero negative
  else if 0 <=? e10 then binary64 (m * 10 ^ e10) 0 negative
  else
    let den := 10 ^ (- e10) in
    let s := Z.max 0 (66 + Z.log2 den - Z.log2 m) in
    let num := m * 2 ^ s in
    let sticky := if num mod den =? 0 then 0 else 1 in
    binary64 (2 * (num / den) + sticky) (- (s + 1)) negative.

Definition spec_float_eqb (x y : spec_float) : bool :=
  match x, y with
  | S754_zero a, S754_zero b => Bool.eqb a b
  | S754_infinity a, S754_infinity b => Bool.eqb a b
  | S754_nan, S754_nan => true
  | S754_finite a m e, S754_finite b n f =>
      Bool.eqb a b && Pos.eqb m n && (e =? f)
  | _, _ => false
  end.

(** [num / den >= 10 ^ t]. *)
Definition at_least_pow10 (num den t : Z) : bool :=
  if 0 <=? t then den * 10 ^ t <=? num else den <=? num * 10 ^ (- t).

(** The [t] with [10 ^ t <= num / den < 10 ^ (t + 1)]. *)
Definition decimal_exponent (num den : Z) : Z :=
  let guess := ((Z.log2 num - Z.log2 den) * 30103) / 100000 in
  if at_least_pow10 num den (guess + 1) then guess + 1
  else if at_least_pow10 num den guess then guess
  else guess - 1.

(** The shortest decimal [digits * 10 ^ e10] that reads back as the double
    [x = num / den], and the nearest to it among the shortest: tried with
    [p] digits, then with one more, up to 17. *)
Fixpoint shortest (fuel : nat) (x : spec_float) (num den t p : Z) : Z * Z :=
  let e10 := t - p + 1 in
  let a := if 0 <=? e10 then num else num * 10 ^ (- e10) in
  let b := if 0 <=? e10 then den * 10 ^ e10 else den in
  let lo := a / b in
  let hi := lo + 1 in
  let lo_ok := spec_float_eqb (float_of_decimal false lo e10) x in
  let hi_ok := spec_float_eqb (float_of_decimal false hi e10) x in
  let lo_nearer :=
    match 2 * a ?= (2 * lo + 1) * b with
    | Lt => true
    | Eq => Z.even lo
    | Gt => false
    end in
  match fuel with
  | O => (if lo_nearer then lo else hi, e10)
  | S fuel' =>
      if lo_ok && hi_ok then (if lo_nearer then lo else hi, e10)
      else if lo_ok then (lo, e10)
      else if hi_ok then (hi, e10)
      else shortest fuel' x num den t (p + 1)
  end.

Fixpoint strip_zeros (fuel : nat) (digits e10 : Z) : Z * Z :=
  match fuel with
  | O => (digits, e10)
  | S fuel' =>
      if digits mod 10 =? 0 then strip_zeros fuel' (digits / 10) (e10 + 1)
      else (digits, e10)
  end.

Fixpoint zeros (n : nat) : string :=
  match n with
  | O => ""
  | S k => "0" +++ zeros k
  end.

(** [repr] of a positive finite double from its shortest digits: with an
    exponent when the decimal point falls beyond 16 digits or before
    [0.0001]. *)
Definition format_repr (digits e10 : Z) : string :=
  let ds := str_int digits in
  let n := Z.of_nat (String.length ds) in
  let decpt := n + e10 in
  if (16 <? decpt) || (decpt <? -3) then
    let mantissa :=
      match ds with
      | String c EmptyString => ds
      | String c r => String c ("." +++ r)
      | EmptyString => ds
      end in
    let e := decpt - 1 in
    mantissa +++ "e" +++ (if e <? 0 then "-" else "+")
    +++ (if Z.abs e <? 10 then "0" else "") +++ str_int (Z.abs e)
  else if decpt <=? 0 then "0." +++ zeros (Z.to_nat (- decpt)) +++ ds
  else if n <=? decpt then ds +++ zeros (Z.to_nat (decpt - n)) +++ ".0"
  else substring 0 (Z.to_nat decpt) ds +++ "."
       +++ substring (Z.to_nat decpt) (Z.to_nat (n - decpt)) ds.

(** What [json.dumps] writes for a float. *)
Definition write_float (x : spec_float) : string :=
  match x with
  | S754_nan => "NaN"
  | S754_infinity false => "Infinity"
  | S754_infinity true => "-Infinity"
  | S754_zero false => "0.0"
  | S754_zero true => "-0.0"
  | S754_finite s m e =>
      let num := if 0 <=? e then Zpos m * 2 ^ e else Zpos m in
      let den := if 0 <=? e then 1 else 2 ^ (- e) in
      let t := decimal_exponent num den in
      let '(digits, e10) := shortest 17 (S754_finite false m e) num den t 1 in
      let '(digits', e10') := strip_zeros 20 digits e10 in
      (if s then "-" else "") +++ format_repr digits' e10'
  end.

(** *** Writing JSON, as [json.dumps] with its default arguments *)

Definition hex4 (n : Z) : string := string_of_list_ascii (hex_digits 4 n).

(** [\uXXXX] for a code point, as a surrogate pair above the basic plane. *)
Definition escape_code_point (cp : Z) : string :=
  if cp <? 65536 then "\u" +++ hex4 cp
  else let v := cp - 65536 in
       "\u" +++ hex4 (55296 + v / 1024) +++ "\u" +++ hex4 (56320 + v mod 1024).

Definition byte (c : ascii) : Z := Z.of_nat (nat_of_ascii c).

(** Reads the UTF-8 bytes of [s] and escapes what is not printable ASCII.
    [pending] counts the continuation bytes still expected for [cp]. *)
Fixpoint escape_chars (s : string) (pending : nat) (cp : Z) : string :=
  match s with
  | EmptyString => ""
  | String c r =>
      let b := byte c in
      match pending with
      | S (S k) => escape_chars r (S k) (cp * 64 + b mod 64)
      | S O => escape_code_point (cp * 64 + b mod 64) +++ escape_chars r O 0
      | O =>
          if b =? 34 then "\" +++ DQ +++ escape_chars r O 0
          else if b =? 92 then "\\" +++ escape_chars r O 0
          else if b =? 10 then "\n" +++ escape_chars r O 0
          else if b =? 13 then "\r" +++ escape_chars r O 0
          else if b =? 9 then "\t" +++ escape_chars r O 0
          else if b =? 12 then "\f" +++ escape_chars r O 0
          else if b =? 8 then "\b" +++ escape_chars r O 0
          else if (b <? 32) || (b =? 127) then
            escape_code_point b +++ escape_chars r O 0
          else if b <? 128 then String c (escape_chars r O 0)
          else if b <? 224 then escape_chars r 1%nat (b mod 32)
          else if b <? 240 then escape_chars r 2%nat (b mod 16)
          else escape_chars r 3%nat (b mod 8)
      end
  end.

Definition write_str (s : string) : string := DQ +++ escape_chars s O 0 +++ DQ.

Fixpoint write_json (v : value) : string :=
  match v with
  | JNull => "null"
  | JBool true => "true"
  | JBool false => "false"
  | JInt n => str_int n
  | JFloat x => write_float x
  | JStr s => write_str s
  | JList l =>
      "[" +++
      (fix items (l : list value) : string :=
         match l with
         | [] => ""
         | [x] => write_json x
         | x :: r => write_json x +++ ", " +++ items r
         end) l
      +++ "]"
  | JDict d =>
      "{" +++
      (fix members (d : list (string * value)) : string :=
         match d with
         | [] => ""
         | [(k, x)] => write_str k +++ ": " +++ write_json x
         | (k, x) :: r => write_str k +++ ": " +++ write_json x +++ ", " +++ members r
         end) d
      +++ "}"
  end.

(** *** Reading JSON, as [json.loads] *)

Definition is_ws (c : ascii) : bool :=
  let b := byte c in (b =? 32) || (b =? 9) || (b =? 10) || (b =? 13).

Fixpoint skip_ws (s : string) : string :=
  match s with
  | String c r => if is_ws c then skip_ws r else s
  | EmptyString => s
  end.

Definition is_digit (c : ascii) : bool :=
  let b := byte c in (48 <=? b) && (b <=? 57).

Definition hex_value (c : ascii) : option Z :=
  let b := byte c in
  if (48 <=? b) && (b <=? 57) then Some (b - 48)
  else if (97 <=? b) && (b <=? 102) then Some (b - 87)
  else if (65 <=? b) && (b <=? 70) then Some (b - 55)
  else None.

(** Four hexadecimal digits. *)
Definition read_hex4 (s : string) : option (Z * string) :=
  match s with
  | String a (String b (String c (String d r))) =>
      match hex_value a, hex_value b, hex_value c, hex_value d with
      | Some x, Some y, Some z, Some t => Some (((x * 16 + y) * 16 + z) * 16 + t, r)
      | _, _, _, _ => None
      end
  | _ => None
  end.

Definition chr (n : Z) : string := String (ascii_of_nat (Z.to_nat n)) "".

(** The UTF-8 encoding of a code point. *)
Definition utf8_encode (cp : Z) : string :=
  if cp <? 128 then chr cp
  else if cp <? 2048 then chr (192 + cp / 64) +++ chr (128 + cp mod 64)
  else if cp <? 65536 then
    chr (224 + cp / 4096) +++ chr (128 + (cp / 64) mod 64) +++ chr (128 + cp mod 64)
  else chr (240 + cp / 262144) +++ chr (128 + (cp / 4096) mod 64)
       +++ chr (128 + (cp / 64) mod 64) +++ chr (128 + cp mod 64).

(** The rest of a string literal after its opening quote. *)
Fixpoint read_string (s : string) (k : string -> string) (after_escape : nat)
  : option (string * string) :=
  match s with
  | EmptyString => None
  | String c r =>
      let b := byte c in
      match after_escape with
      | S skip => read_string r k skip
      | O =>
          if b =? 34 then Some (k "", r)
          else if b <? 32 then None
          else if b =? 92 then
            match r with
            | String e r' =>
                let lit (x : Z) := read_string r (fun t => k (chr x +++ t)) 1 in
                let be := byte e in
                if be =? 34 then lit 34
                else if be =? 92 then lit 92
                else if be =? 47 then lit 47
                else if be =? 98 then lit 8
                else if be =? 102 then lit 12
                else if be =? 110 then lit 10
                else if be =? 114 then lit 13
                else if be =? 116 then lit 9
                else if be =? 117 then
                  match read_hex4 r' with
                  | Some (hi, r'') =>
                      if (55296 <=? hi) && (hi <? 56320) then
                        match r'' with
                        | String "\" (String "u" r3) =>
                            match read_hex4 r3 with
                            | Some (lo, _) =>
                                if (56320 <=? lo) && (lo <? 57344) then
                                  read_string r
                                    (fun t => k (utf8_encode
                                       (65536 + (hi - 55296) * 1024 + (lo - 56320)) +++ t))
                                    11
                                else None
                            | None => None
                            end
                        | _ => None
                        end
                      else if (56320 <=? hi) && (hi <? 57344) then None
                      else read_string r (fun t => k (utf8_encode hi +++ t)) 5
                  | None => None
                  end
                else None
            | EmptyString => None
            end
          else read_string r (fun t => k (String c t)) O
      end
  end.

(** The digits at the head of [s]: their number so far [acc], how many
    were read after [count], and what follows them. *)
Fixpoint read_digits (s : string) (acc count : Z) : Z * Z * string :=
  match s with
  | String c r =>
      if is_digit c then read_digits r (acc * 10 + (byte c - 48)) (count + 1)
      else (acc, count, s)
  | EmptyString => (acc, count, s)
  end.

Definition starts_with_digit (s : string) : bool :=
  match s with
  | String d _ => is_digit d
  | EmptyString => false
  end.

(** The fraction [.ddd] at the head of [s], if there is one, added to the
    digits [m] read so far. *)
Definition read_fraction (m : Z) (s : string) : option (Z * Z * string) :=
  match s with
  | String "." r => if starts_with_digit r then Some (read_digits r m 0) else None
  | _ => None
  end.

(** The exponent [e+dd] at the head of [s], if there is one. *)
Definition read_exponent (s : string) : option (Z * string) :=
  match s with
  | String e r =>
      if (byte e =? 101) || (byte e =? 69) then
        let signed (negative : bool) (r : string) :=
          if starts_with_digit r
          then let '(n, _, r') := read_digits r 0 0 in
               Some (if negative then - n else n, r')
          else None in
        match r with
        | String "+" r' => signed false r'
        | String "-" r' => signed true r'
        | _ => signed false r
        end
      else None
  | EmptyString => None
  end.

(** A number: an optional minus sign, then 0 or a digit from 1 to 9 and
    any digits, then an optional fraction and an optional exponent.  It is
    an [int] unless it has a fraction or an exponent. *)
Definition read_number (s : string) : option (value * string) :=
  let '(negative, s1) :=
    match s with
    | String "-" r => (true, r)
    | _ => (false, s)
    end in
  let int_part :=
    match s1 with
    | String "0" r => Some (0, r)
    | String c r =>
        if is_digit c then let '(n, _, r') := read_digits s1 0 0 in Some (n, r')
        else None
    | EmptyString => None
    end in
  match int_part with
  | None => None
  | Some (n, s2) =>
      let '(m, places, s3, has_fraction) :=
        match read_fraction n s2 with
        | Some (m, places, s3) => (m, places, s3, true)
        | None => (n, 0, s2, false)
        end in
      match read_exponent s3 with
      | Some (e, s4) => Some (JFloat (float_of_decimal negative m (e - places)), s4)
      | None =>
          if has_fraction
          then Some (JFloat (float_of_decimal negative m (- places)), s3)
          else Some (JInt (if negative then - n else n), s3)
      end
  end.

Definition expect (word : string) (v : value) (s : string)
  : option (value * string) :=
  if String.prefix word s
  then Some (v, substring (String.length word) (String.length s - String.length word) s)
  else None.

(** A value, the elements of an array after its bracket, the members of an
    object after its brace.  Each call that uses [fuel] has read a
    character, so the length of the text is fuel enough. *)
Fixpoint read_value (fuel : nat) (s : string) : option (value * string) :=
  match fuel with
  | O => None
  | S fuel' =>
      match s with
      | String c r =>
          let b := byte c in
          if b =? 123 then
            match skip_ws r with
            | String "}" r' => Some (JDict [], r')
            | r' => read_members fuel' r' []
            end
          else if b =? 91 then
            match skip_ws r with
            | String "]" r' => Some (JList [], r')
            | r' => read_elements fuel' r' []
            end
          else if b =? 34 then
            match read_string r (fun t => t) O with
            | Some (str, r') => Some (JStr str, r')
            | None => None
            end
          else if b =? 110 then expect "null" JNull s
          else if b =? 116 then expect "true" (JBool true) s
          else if b =? 102 then expect "false" (JBool false) s
          else
            match read_number s with
            | Some found => Some found
            | None =>
                if b =? 78 then expect "NaN" (JFloat S754_nan) s
                else if b =? 73 then expect "Infinity" (JFloat (S754_infinity false)) s
                else if b =? 45 then expect "-Infinity" (JFloat (S754_infinity true)) s
                else None
            end
      | EmptyString => None
      end
  end
with read_elements (fuel : nat) (s : string) (acc : list value)
  : option (value * string) :=
  match fuel with
  | O => None
  | S fuel' =>
      match read_value fuel' s with
      | Some (v, r) =>
          match skip_ws r with
          | String "," r' => read_elements fuel' (skip_ws r') (acc ++ [v])
          | String "]" r' => Some (JList (acc ++ [v]), r')
          | _ => None
          end
      | None => None
      end
  end
with read_members (fuel : nat) (s : string) (acc : list (string * value))
  : option (value * string) :=
  match fuel with
  | O => None
  | S fuel' =>
      match s with
      | String q r =>
          if byte q =? 34 then
            match read_string r (fun t => t) O with
            | Some (key, r1) =>
                match skip_ws r1 with
                | String ":" r2 =>
                    match read_value fuel' (skip_ws r2) with
                    | Some (v, r3) =>
                        match skip_ws r3 with
                        | String "," r4 =>
                            read_members fuel' (skip_ws r4) (dict_set key v acc)
                        | String "}" r4 => Some (JDict (dict_set key v acc), r4)
                        | _ => None
                        end
                    | None => None
                    end
                | _ => None
                end
            | None => None
            end
          else None
      | EmptyString => None
      end
  end.

Definition read_json (s : string) : option value :=
  match read_value (2 * S (String.length s)) (skip_ws s) with
  | Some (v, r) => match skip_ws r with
                   | EmptyString => Some v
                   | _ => None
                   end
  | None => None
  end.

#[local] Instance json : PyJson := {|
  json_loads := read_json;
  json_dumps := write_json;
  json_loads_empty := eq_refl
|}.

(** A world: the backend answers every request with [r]; the clock
    advances by one second at each reading from [t0]. *)
Definition world_of (r : reply) (t0 : Z) : world := {|
  OLLAMA_HOST := "http://localhost:11434";
  entropy := fun k => 3735928559 * 2 ^ 96 + Z.of_nat k;
  clock := fun k => t0 + Z.of_nat k;
  backend := fun _ => r;
  uuid_calls := O;
  clock_reads := O;
  sent := []
|}.

Definition lines (ls : list string) : reply :=
  Replied {| status_code_of := 200; json_of := inl (JSONDecodeError "Extra data");
             lines_of := ls; lines_end := None |}.

Definition answer (status : Z) (body : value) : reply :=
  Replied {| status_code_of := status; json_of := inr body;
             lines_of := []; lines_end := None |}.

(** *** Inputs *)

(** [s] between double quotes. *)
Definition quoted (s : string) : string := DQ +++ s +++ DQ.

(** The two lines of the specification's example, a line that is no JSON,
    and a chunk that is done but carries no message. *)
Definition hi_line : string :=
  "{" +++ quoted "message" +++ ":{" +++ quoted "content" +++ ":"
  +++ quoted "Hi" +++ "}}".

Definition done_line : string :=
  "{" +++ quoted "done" +++ ":true," +++ quoted "message" +++ ":{"
  +++ quoted "content" +++ ":" +++ quoted "" +++ "}}".

Definition noise_line : string := "not-json".

Definition bare_done_line : string := "{" +++ quoted "done" +++ ":true}".

(** A chat request with the defaults of the model: temperature 0.7, no
    [max_tokens], no streaming. *)
Definition hello_request : ChatCompletionRequest := {|
  chat_model := "qwen2.5:7b";
  chat_messages := [{| role := "user"; content := "Hello" |}];
  chat_temperature := float_of_decimal false 7 (-1);
  chat_max_tokens := None;
  chat_stream := false
|}.

Definition hello_stream : value :=
  chat_ollama_request
    {| chat_model := "qwen2.5:7b";
       chat_messages := [{| role := "user"; content := "Hello" |}];
       chat_temperature := float_of_decimal false 7 (-1);
       chat_max_tokens := Some 64;
       chat_stream := true |}.

(** The answer of the specification's example. *)
Definition hi_answer : list (string * value) :=
  [("message", JDict [("content", JStr "hi")]);
   ("prompt_eval_count", JInt 3);
   ("eval_count", JInt 5)].

Definition start : Z := 1700000000.

(** *** Further inputs *)

Definition hello_streaming : ChatCompletionRequest := {|
  chat_model := "qwen2.5:7b";
  chat_messages := [{| role := "user"; content := "Hello" |}];
  chat_temperature := float_of_decimal false 7 (-1);
  chat_max_tokens := Some 64;
  chat_stream := true
|}.

Definition hello_completion : CompletionRequest := {|
  cmpl_model := "qwen2.5:7b";
  cmpl_prompt := "Say hi";
  cmpl_temperature := float_of_decimal false 7 (-1);
  cmpl_max_tokens := Some 16;
  cmpl_stream := false
|}.

Definition hello_completion_streaming : CompletionRequest := {|
  cmpl_model := "qwen2.5:7b";
  cmpl_prompt := "Say hi";
  cmpl_temperature := float_of_decimal false 7 (-1);
  cmpl_max_tokens := Some 16;
  cmpl_stream := true
|}.

(** What httpx raises when nothing listens on the port of the backend. *)
Definition connect_error : exn :=
  TransportError "ConnectError" "All connection attempts failed".

(** What httpx raises when the backend closes the connection early. *)
Definition protocol_error : exn :=
  TransportError "RemoteProtocolError"
    "peer closed connection without sending complete message body".

Definition json_response (status : Z) (body : value) : response :=
  {| status_code_of := status; json_of := inr body;
     lines_of := []; lines_end := None |}.

(** A response whose body is no JSON. *)
Definition text_response (status : Z) : response :=
  {| status_code_of := status;
     json_of := inl (JSONDecodeError "Expecting value: line 1 column 1 (char 0)");
     lines_of := []; lines_end := None |}.

Definition lines_response (ls : list string) (ending : option exn) : response :=
  {| status_code_of := 200; json_of := inl (JSONDecodeError "Extra data");
     lines_of := ls; lines_end := ending |}.

(** A number, an error of the backend, and a chunk whose message is a
    string. *)
Definition number_line : string := "42".

Definition error_line : string :=
  "{" +++ quoted "error" +++ ":" +++ quoted "model not found" +++ "}".

Definition flat_message_line : string :=
  "{" +++ quoted "message" +++ ":" +++ quoted "Hi" +++ ","
  +++ quoted "done" +++ ":true}".

Definition two_models : list (string * value) :=
  [("models", JList [JDict [("name", JStr "qwen2.5:7b")];
                     JDict [("name", JStr "llama3:8b")]])].

Definition nameless_models : list (string * value) :=
  [("models", JList [JDict [("name", JStr "qwen2.5:7b")];
                     JDict [("model", JStr "llama3:8b")];
                     JDict [("name", JStr "phi3")]])].

Definition null_counter_answer : list (string * value) :=
  [("message", JDict [("content", JStr "hi")]);
   ("prompt_eval_count", JNull);
   ("eval_count", JInt 5)].

End Reference.


(* ================================================================== *)
(** * Properties *)
(* ================================================================== *)

Section Properties.
Context {FL : PyFloat} {JS : PyJson}.

(** ** Runs of composed programs *)

Lemma run_eta {A} (r : run A) : Run (yielded r) (result r) (after r) = r.
Proof. destruct r; reflexivity. Qed.

Lemma bind_returns {A B} (m : prog A) (k : A -> prog B) (w w' : world)
    (ys : list string) (a : A) :
  m w = Run ys (inr a) w' ->
  bind m k w = Run (ys ++ yielded (k a w')) (result (k a w')) (after (k a w')).
Proof. intros E. unfold bind. rewrite E. destruct (k a w'); reflexivity. Qed.

Lemma bind_raises {A B} (m : prog A) (k : A -> prog B) (w w' : world)
    (ys : list string) (e : exn) :
  m w = Run ys (inl e) w' ->
  bind m k w = Run ys (inl e) w'.
Proof. intros E. unfold bind. rewrite E. reflexivity. Qed.

Lemma bind_quiet {A B} (m : prog A) (k : A -> prog B) (w w' : world) (a : A) :
  m w = Run [] (inr a) w' -> bind m k w = k a w'.
Proof.
  intros E. rewrite (bind_returns _ _ _ _ _ _ E). simpl. apply run_eta.
Qed.

Lemma bind_lift {A B} (a : A) (k : A -> prog B) (w : world) :
  bind (lift (inr a)) k w = k a w.
Proof. apply bind_quiet. reflexivity. Qed.

Lemma bind_lift_raises {A B} (e : exn) (k : A -> prog B) (w : world) :
  bind (lift (inl e)) k w = Run [] (inl e) w.
Proof. reflexivity. Qed.

Lemma for_each_cons {A} (x : A) (xs : list A) (body : A -> prog unit) (w : world) :
  for_each (x :: xs) body w = bind (body x) (fun _ => for_each xs body) w.
Proof. reflexivity. Qed.

(** A step that does nothing can be left out of a loop. *)
Lemma for_each_skip {A} (body : A -> prog unit) (x : A) :
  (forall w, body x w = Run [] (inr tt) w) ->
  forall (before later : list A) (w : world),
    for_each (before ++ x :: later) body w = for_each (before ++ later) body w.
Proof.
  intros Hx before later.
  induction before as [| y before IH]; intros w.
  - simpl app. rewrite for_each_cons.
    rewrite (bind_quiet _ _ w w tt (Hx w)). reflexivity.
  - simpl app. rewrite !for_each_cons. unfold bind.
    destruct (body y w) as [ys [e | u] w']; [reflexivity |].
    rewrite IH. reflexivity.
Qed.

(** ** The frames of each line, in the words of the specification *)

Lemma for_each_frames (body : string -> prog unit) (lines : list string) :
  forall w, yielded (for_each lines body w)
            = List.concat (frames_per_line body lines w).
Proof.
  induction lines as [| line rest IH]; intros w.
  - reflexivity.
  - rewrite for_each_cons. unfold bind. simpl frames_per_line.
    destruct (body line w) as [ys [e | u] w']; simpl.
    + rewrite app_nil_r. reflexivity.
    + rewrite <- IH. destruct (for_each rest body w'); reflexivity.
Qed.

Lemma frames_per_line_length (body : string -> prog unit) (lines : list string) :
  forall w, List.length (frames_per_line body lines w)
            = List.length (consumed body lines w).
Proof.
  induction lines as [| line rest IH]; intros w; simpl.
  - reflexivity.
  - destruct (result (body line w)); simpl; [reflexivity | now rewrite IH].
Qed.

Lemma consumed_all (body : string -> prog unit) (lines : list string) :
  forall w, result (for_each lines body w) = inr tt ->
            consumed body lines w = lines.
Proof.
  induction lines as [| line rest IH]; intros w H.
  - reflexivity.
  - rewrite for_each_cons in H. unfold bind in H. simpl.
    destruct (body line w) as [ys [e | u] w']; simpl in *.
    + discriminate.
    + rewrite IH; [reflexivity |].
      destruct (for_each rest body w'); exact H.
Qed.

(** ** One line of a stream *)

Lemma parsed_line_not_empty (line : string) (v : value) :
  json_loads line = Some v -> negb (String.eqb line "") = true.
Proof.
  intros H. destruct (String.eqb_spec line "") as [-> | _]; [| reflexivity].
  rewrite json_loads_empty in H. discriminate.
Qed.

Lemma chat_line_malformed (request_id : string) (ollama_request : value)
    (line : string) (w : world) :
  json_loads line = None ->
  chat_line request_id ollama_request line w = Run [] (inr tt) w.
Proof.
  intros H. unfold chat_line.
  destruct (negb (String.eqb line "")); [| reflexivity].
  unfold try_except, chat_chunk, bind, loads. rewrite H. reflexivity.
Qed.

Lemma completion_line_malformed (request_id : string) (ollama_request : value)
    (line : string) (w : world) :
  json_loads line = None ->
  completion_line request_id ollama_request line w = Run [] (inr tt) w.
Proof.
  intros H. unfold completion_line.
  destruct (negb (String.eqb line "")); [| reflexivity].
  unfold try_except, completion_chunk, bind, loads. rewrite H. reflexivity.
Qed.

Lemma py_get_dict (k : string) (default : value) (d : list (string * value)) :
  py_get (JDict d) k default = inr (get_or k default d).
Proof. unfold py_get, get_or. destruct (dict_get k d); reflexivity. Qed.

Lemma py_getitem_dict (k : string) (d : list (string * value)) (x : value) :
  dict_get k d = Some x -> py_getitem (JDict d) k = inr x.
Proof. intros H. unfold py_getitem. rewrite H. reflexivity. Qed.

Lemma py_contains_dict (k : string) (d : list (string * value)) (x : value) :
  dict_get k d = Some x -> py_contains k (JDict d) = inr true.
Proof. intros H. unfold py_contains, dict_mem. rewrite H. reflexivity. Qed.

Lemma get_or_found (k : string) (default x : value) (d : list (string * value)) :
  dict_get k d = Some x -> get_or k default d = x.
Proof. intros H. unfold get_or. rewrite H. reflexivity. Qed.

Lemma chat_line_done (request_id : string) (ollama_request model : value)
    (line : string) (d m : list (string * value)) (w : world) :
  json_loads line = Some (JDict d) ->
  dict_get "message" d = Some (JDict m) ->
  dict_get "done" d = Some (JBool true) ->
  py_getitem ollama_request "model" = inr model ->
  let text := get_or "content" (JStr "") m in
  let t := clock w (clock_reads w) in
  let t' := clock w (S (clock_reads w)) in
  yielded (chat_line request_id ollama_request line w) =
  if py_bool text
  then [sse (json_dumps (chat_content_chunk request_id t model text));
        sse (json_dumps (chat_final_chunk request_id t' model));
        DONE_frame]
  else [sse (json_dumps (chat_final_chunk request_id t model));
        DONE_frame].
Proof.
  intros Hline Hmsg Hdone Hmodel text t t'.
  unfold chat_line. rewrite (parsed_line_not_empty _ _ Hline).
  unfold try_except, chat_chunk, loads. rewrite Hline.
  unfold bind at 1. cbn [ret].
  rewrite (py_contains_dict _ _ _ Hmsg).
  unfold bind at 1. cbn [lift ret].
  rewrite (py_getitem_dict _ _ _ Hmsg).
  unfold bind at 1. cbn [lift ret].
  rewrite !py_get_dict, Hmodel. fold text.
  rewrite (get_or_found _ _ _ _ Hdone).
  unfold bind, lift, ret, yield, int_time.
  destruct (py_bool text); reflexivity.
Qed.

Lemma completion_line_done (request_id : string) (ollama_request model : value)
    (line : string) (d : list (string * value)) (w : world) :
  json_loads line = Some (JDict d) ->
  dict_get "done" d = Some (JBool true) ->
  py_getitem ollama_request "model" = inr model ->
  let text := get_or "response" (JStr "") d in
  let t := clock w (clock_reads w) in
  yielded (completion_line request_id ollama_request line w) =
  if py_bool text
  then [sse (json_dumps (completion_text_chunk request_id t model text));
        DONE_frame]
  else [DONE_frame].
Proof.
  intros Hline Hdone Hmodel text t.
  unfold completion_line. rewrite (parsed_line_not_empty _ _ Hline).
  unfold try_except, completion_chunk, loads. rewrite Hline.
  unfold bind at 1. cbn [ret].
  rewrite !py_get_dict, Hmodel. fold text.
  rewrite (get_or_found _ _ _ _ Hdone).
  unfold bind, lift, ret, yield, int_time.
  destruct (py_bool text); reflexivity.
Qed.

(** ** A whole stream *)

Lemma stream_chat_opened (client : AsyncClient) (ollama_request : value)
    (w : world) (r : response) :
  is_closed client = false ->
  backend w (List.length (sent w)) = Replied r ->
  stream_chat_response client ollama_request w =
  bind (for_each (lines_of r) (chat_line (minted "chatcmpl-" w) ollama_request))
       (fun _ => end_of_lines r) (opened "/api/chat" ollama_request w).
Proof.
  intros Hopen H. unfold stream_chat_response, opened, minted.
  unfold bind, uuid4_hex, ollama_host, client_stream, client_request, drawn.
  rewrite Hopen. cbn [backend sent after OLLAMA_HOST is_closed open_client].
  rewrite H. cbn [after].
  match goal with
  | |- context [for_each ?ls ?body ?w1] =>
      destruct (for_each ls body w1) as [ys [e | u] w']
  end; [reflexivity |].
  destruct (end_of_lines r w'); reflexivity.
Qed.

Lemma stream_completion_opened (client : AsyncClient) (ollama_request : value)
    (w : world) (r : response) :
  is_closed client = false ->
  backend w (List.length (sent w)) = Replied r ->
  stream_completion_response client ollama_request w =
  bind (for_each (lines_of r) (completion_line (minted "cmpl-" w) ollama_request))
       (fun _ => end_of_lines r) (opened "/api/generate" ollama_request w).
Proof.
  intros Hopen H. unfold stream_completion_response, opened, minted.
  unfold bind, uuid4_hex, ollama_host, client_stream, client_request, drawn.
  rewrite Hopen. cbn [backend sent after OLLAMA_HOST is_closed open_client].
  rewrite H. cbn [after].
  match goal with
  | |- context [for_each ?ls ?body ?w1] =>
      destruct (for_each ls body w1) as [ys [e | u] w']
  end; [reflexivity |].
  destruct (end_of_lines r w'); reflexivity.
Qed.

Lemma stream_chat_unreachable (client : AsyncClient) (ollama_request : value)
    (w : world) (e : exn) :
  is_closed client = false ->
  backend w (List.length (sent w)) = Unreachable e ->
  stream_chat_response client ollama_request w
  = Run [] (inl e) (opened "/api/chat" ollama_request w).
Proof.
  intros Hopen H. unfold stream_chat_response, opened.
  unfold bind, uuid4_hex, ollama_host, client_stream, client_request, drawn.
  rewrite Hopen. cbn [backend sent after OLLAMA_HOST is_closed open_client].
  rewrite H. reflexivity.
Qed.

Lemma stream_completion_unreachable (client : AsyncClient) (ollama_request : value)
    (w : world) (e : exn) :
  is_closed client = false ->
  backend w (List.length (sent w)) = Unreachable e ->
  stream_completion_response client ollama_request w
  = Run [] (inl e) (opened "/api/generate" ollama_request w).
Proof.
  intros Hopen H. unfold stream_completion_response, opened.
  unfold bind, uuid4_hex, ollama_host, client_stream, client_request, drawn.
  rewrite Hopen. cbn [backend sent after OLLAMA_HOST is_closed open_client].
  rewrite H. reflexivity.
Qed.

(** A stream on a closed client mints its id, then fails to send. *)
Lemma stream_chat_closed (client : AsyncClient) (ollama_request : value)
    (w : world) :
  is_closed client = true ->
  stream_chat_response client ollama_request w
  = Run [] (inl (RuntimeError
                   "Cannot send a request, as the client has been closed."))
      (drawn w).
Proof.
  intros Hclosed. unfold stream_chat_response.
  unfold bind, uuid4_hex, ollama_host, client_stream, client_request.
  rewrite Hclosed. reflexivity.
Qed.

Lemma stream_completion_closed (client : AsyncClient) (ollama_request : value)
    (w : world) :
  is_closed client = true ->
  stream_completion_response client ollama_request w
  = Run [] (inl (RuntimeError
                   "Cannot send a request, as the client has been closed."))
      (drawn w).
Proof.
  intros Hclosed. unfold stream_completion_response.
  unfold bind, uuid4_hex, ollama_host, client_stream, client_request.
  rewrite Hclosed. reflexivity.
Qed.

Lemma yielded_before_end {A} (m : prog A) (r : response) (w : world) :
  yielded (bind m (fun _ => end_of_lines r) w) = yielded (m w).
Proof.
  unfold bind, end_of_lines.
  destruct (m w) as [ys [e | a] w']; [reflexivity |].
  destruct (lines_end r); simpl; apply app_nil_r.
Qed.

(** ** What a program yields, and how often it draws a UUID *)

Section Emits.
Variable P : string -> Prop.

Lemma emits_ret {A} (a : A) : emits P (ret a).
Proof. intros w. constructor. Qed.

Lemma emits_raise {A} (e : exn) : emits P (@raise _ A e).
Proof. intros w. constructor. Qed.

Lemma emits_lift {A} (x : exn + A) : emits P (lift x).
Proof. destruct x; [apply emits_raise | apply emits_ret]. Qed.

Lemma emits_int_time : emits P int_time.
Proof. intros w. constructor. Qed.

Lemma emits_yield (s : string) : P s -> emits P (yield s).
Proof. intros H w. simpl. auto. Qed.

Lemma emits_bind {A B} (m : prog A) (k : A -> prog B) :
  emits P m -> (forall a, emits P (k a)) -> emits P (bind m k).
Proof.
  intros Hm Hk w. unfold bind. specialize (Hm w).
  destruct (m w) as [ys [e | a] w']; simpl in *; [exact Hm |].
  specialize (Hk a w'). destruct (k a w'); simpl in *.
  apply Forall_app; split; assumption.
Qed.

Lemma emits_try_except {A} (m : prog A) (catches : exn -> bool)
    (handler : exn -> prog A) :
  emits P m -> (forall e, emits P (handler e)) ->
  emits P (try_except m catches handler).
Proof.
  intros Hm Hh w. unfold try_except. specialize (Hm w).
  destruct (m w) as [ys [e | a] w']; simpl in *; [| exact Hm].
  destruct (catches e); simpl; [| exact Hm].
  specialize (Hh e w'). destruct (handler e w'); simpl in *.
  apply Forall_app; split; assumption.
Qed.

Lemma emits_for_each {A} (xs : list A) (body : A -> prog unit) :
  (forall x, emits P (body x)) -> emits P (for_each xs body).
Proof.
  intros Hb. induction xs as [| x xs IH]; simpl.
  - apply emits_ret.
  - apply emits_bind; [apply Hb | intros _; exact IH].
Qed.

End Emits.

Lemma mints_nothing_ret {A} (a : A) : mints_nothing (ret a).
Proof. intros w. reflexivity. Qed.

Lemma mints_nothing_raise {A} (e : exn) : mints_nothing (@raise _ A e).
Proof. intros w. reflexivity. Qed.

Lemma mints_nothing_lift {A} (x : exn + A) : mints_nothing (lift x).
Proof. destruct x; [apply mints_nothing_raise | apply mints_nothing_ret]. Qed.

Lemma mints_nothing_int_time : mints_nothing int_time.
Proof. intros w. reflexivity. Qed.

Lemma mints_nothing_yield (s : string) : mints_nothing (yield s).
Proof. intros w. reflexivity. Qed.

Lemma mints_nothing_bind {A B} (m : prog A) (k : A -> prog B) :
  mints_nothing m -> (forall a, mints_nothing (k a)) -> mints_nothing (bind m k).
Proof.
  intros Hm Hk w. unfold bind. specialize (Hm w).
  destruct (m w) as [ys [e | a] w']; simpl in *; [exact Hm |].
  specialize (Hk a w'). destruct (k a w'); simpl in *. congruence.
Qed.

Lemma mints_nothing_try_except {A} (m : prog A) (catches : exn -> bool)
    (handler : exn -> prog A) :
  mints_nothing m -> (forall e, mints_nothing (handler e)) ->
  mints_nothing (try_except m catches handler).
Proof.
  intros Hm Hh w. unfold try_except. specialize (Hm w).
  destruct (m w) as [ys [e | a] w']; simpl in *; [| exact Hm].
  destruct (catches e); simpl; [| exact Hm].
  specialize (Hh e w'). destruct (handler e w'); simpl in *. congruence.
Qed.

Lemma mints_nothing_for_each {A} (xs : list A) (body : A -> prog unit) :
  (forall x, mints_nothing (body x)) -> mints_nothing (for_each xs body).
Proof.
  intros Hb. induction xs as [| x xs IH]; simpl.
  - apply mints_nothing_ret.
  - apply mints_nothing_bind; [apply Hb | intros _; exact IH].
Qed.

Lemma mints_nothing_end_of_lines (r : response) : mints_nothing (end_of_lines r).
Proof.
  unfold end_of_lines.
  destruct (lines_end r); [apply mints_nothing_raise | apply mints_nothing_ret].
Qed.

(** Goes through a program built from the steps above. *)
Ltac walk ret_lemma raise_lemma lift_lemma time_lemma bind_lemma :=
  repeat first
    [ apply ret_lemma | apply raise_lemma | apply lift_lemma | apply time_lemma
    | apply bind_lemma; [| intros ?]
    | match goal with
      | |- context [if ?b then _ else _] => destruct b
      | |- context [match ?x with Some _ => _ | None => _ end] => destruct x
      end ].

Lemma chat_line_emits (request_id : string) (ollama_request : value)
    (line : string) :
  emits (frame_of request_id) (chat_line request_id ollama_request line).
Proof.
  unfold chat_line. destruct (negb (String.eqb line "")); [| apply emits_ret].
  apply emits_try_except; [| intros e; apply emits_ret].
  unfold chat_chunk, loads.
  walk (@emits_ret (frame_of request_id)) (@emits_raise (frame_of request_id))
       (@emits_lift (frame_of request_id)) (@emits_int_time (frame_of request_id))
       (@emits_bind (frame_of request_id));
    apply emits_yield; try (left; reflexivity);
    right; eexists; split; reflexivity.
Qed.

Lemma completion_line_emits (request_id : string) (ollama_request : value)
    (line : string) :
  emits (frame_of request_id) (completion_line request_id ollama_request line).
Proof.
  unfold completion_line. destruct (negb (String.eqb line "")); [| apply emits_ret].
  apply emits_try_except; [| intros e; apply emits_ret].
  unfold completion_chunk, loads.
  walk (@emits_ret (frame_of request_id)) (@emits_raise (frame_of request_id))
       (@emits_lift (frame_of request_id)) (@emits_int_time (frame_of request_id))
       (@emits_bind (frame_of request_id));
    apply emits_yield; try (left; reflexivity);
    right; eexists; split; reflexivity.
Qed.

Lemma chat_line_mints_nothing (request_id : string) (ollama_request : value)
    (line : string) :
  mints_nothing (chat_line request_id ollama_request line).
Proof.
  unfold chat_line.
  destruct (negb (String.eqb line "")); [| apply mints_nothing_ret].
  apply mints_nothing_try_except; [| intros e; apply mints_nothing_ret].
  unfold chat_chunk, loads.
  walk (@mints_nothing_ret) (@mints_nothing_raise) (@mints_nothing_lift)
       mints_nothing_int_time (@mints_nothing_bind);
    apply mints_nothing_yield.
Qed.

Lemma completion_line_mints_nothing (request_id : string)
    (ollama_request : value) (line : string) :
  mints_nothing (completion_line request_id ollama_request line).
Proof.
  unfold completion_line.
  destruct (negb (String.eqb line "")); [| apply mints_nothing_ret].
  apply mints_nothing_try_except; [| intros e; apply mints_nothing_ret].
  unfold completion_chunk, loads.
  walk (@mints_nothing_ret) (@mints_nothing_raise) (@mints_nothing_lift)
       mints_nothing_int_time (@mints_nothing_bind);
    apply mints_nothing_yield.
Qed.

(** ** The token of a request id *)

Lemma hex_digit_is_hex (d : Z) : 0 <= d < 16 -> is_hex_digit (hex_digit d) = true.
Proof.
  intros H.
  assert (E : d = 0 \/ d = 1 \/ d = 2 \/ d = 3 \/ d = 4 \/ d = 5 \/ d = 6 \/ d = 7 \/
              d = 8 \/ d = 9 \/ d = 10 \/ d = 11 \/ d = 12 \/ d = 13 \/ d = 14 \/
              d = 15) by lia.
  repeat (destruct E as [-> | E]; [reflexivity |]). subst d. reflexivity.
Qed.

Lemma hex_digits_length (width : nat) :
  forall n, List.length (hex_digits width n) = width.
Proof.
  induction width as [| k IH]; intros n; simpl.
  - reflexivity.
  - rewrite length_app, IH. simpl. lia.
Qed.

Lemma hex_digits_are_hex (width : nat) :
  forall n, forallb is_hex_digit (hex_digits width n) = true.
Proof.
  induction width as [| k IH]; intros n; simpl.
  - reflexivity.
  - rewrite forallb_app, IH. simpl.
    rewrite hex_digit_is_hex; [reflexivity |].
    apply Z.mod_pos_bound. lia.
Qed.

Lemma forallb_firstn {A} (f : A -> bool) (n : nat) :
  forall l, forallb f l = true -> forallb f (firstn n l) = true.
Proof.
  induction n as [| n IH]; intros [| x l] H; simpl in *; try reflexivity.
  apply andb_true_iff in H. destruct H as [Hx Hl].
  rewrite Hx, (IH l Hl). reflexivity.
Qed.

Lemma string_of_list_ascii_length (l : list ascii) :
  String.length (string_of_list_ascii l) = List.length l.
Proof. induction l as [| c l IH]; simpl; [reflexivity | now rewrite IH]. Qed.

Lemma slice_to_8_hex (n : Z) : hex_token (slice_to 8 (hex_digits 32 n)).
Proof.
  unfold hex_token, slice_to. split.
  - rewrite string_of_list_ascii_length, length_firstn, hex_digits_length.
    reflexivity.
  - rewrite list_ascii_of_string_of_list_ascii.
    apply forallb_firstn, hex_digits_are_hex.
Qed.

Lemma opened_uuid_calls (path : string) (body : value) (w : world) :
  uuid_calls (opened path body w) = S (uuid_calls w).
Proof.
  unfold opened, client_stream, client_request, uuid4_hex, drawn.
  cbn [after backend sent is_closed open_client].
  destruct (backend w (List.length (sent w))); reflexivity.
Qed.

Lemma stream_chat_mints_once (client : AsyncClient) (ollama_request : value)
    (w : world) :
  uuid_calls (after (stream_chat_response client ollama_request w))
  = S (uuid_calls w).
Proof.
  destruct (is_closed client) eqn:Hclient.
  { rewrite (stream_chat_closed _ _ _ Hclient). reflexivity. }
  destruct (backend w (List.length (sent w))) as [e | r] eqn:E.
  - rewrite (stream_chat_unreachable _ _ _ _ Hclient E). apply opened_uuid_calls.
  - rewrite (stream_chat_opened _ _ _ _ Hclient E).
    rewrite (mints_nothing_bind _ _
               (mints_nothing_for_each _ _ (chat_line_mints_nothing _ _))
               (fun _ => mints_nothing_end_of_lines r)).
    apply opened_uuid_calls.
Qed.

Lemma stream_completion_mints_once (client : AsyncClient) (ollama_request : value)
    (w : world) :
  uuid_calls (after (stream_completion_response client ollama_request w))
  = S (uuid_calls w).
Proof.
  destruct (is_closed client) eqn:Hclient.
  { rewrite (stream_completion_closed _ _ _ Hclient). reflexivity. }
  destruct (backend w (List.length (sent w))) as [e | r] eqn:E.
  - rewrite (stream_completion_unreachable _ _ _ _ Hclient E). apply opened_uuid_calls.
  - rewrite (stream_completion_opened _ _ _ _ Hclient E).
    rewrite (mints_nothing_bind _ _
               (mints_nothing_for_each _ _ (completion_line_mints_nothing _ _))
               (fun _ => mints_nothing_end_of_lines r)).
    apply opened_uuid_calls.
Qed.

Lemma stream_chat_emits (client : AsyncClient) (ollama_request : value)
    (w : world) :
  Forall (frame_of (minted "chatcmpl-" w))
         (yielded (stream_chat_response client ollama_request w)).
Proof.
  destruct (is_closed client) eqn:Hclient.
  { rewrite (stream_chat_closed _ _ _ Hclient). constructor. }
  destruct (backend w (List.length (sent w))) as [e | r] eqn:E.
  - rewrite (stream_chat_unreachable _ _ _ _ Hclient E). constructor.
  - rewrite (stream_chat_opened _ _ _ _ Hclient E), yielded_before_end.
    apply emits_for_each. intros line. apply chat_line_emits.
Qed.

Lemma stream_completion_emits (client : AsyncClient) (ollama_request : value)
    (w : world) :
  Forall (frame_of (minted "cmpl-" w))
         (yielded (stream_completion_response client ollama_request w)).
Proof.
  destruct (is_closed client) eqn:Hclient.
  { rewrite (stream_completion_closed _ _ _ Hclient). constructor. }
  destruct (backend w (List.length (sent w))) as [e | r] eqn:E.
  - rewrite (stream_completion_unreachable _ _ _ _ Hclient E). constructor.
  - rewrite (stream_completion_opened _ _ _ _ Hclient E), yielded_before_end.
    apply emits_for_each. intros line. apply completion_line_emits.
Qed.

(** ** Reading a body *)

Lemma counter_get_or (k : string) (d : list (string * value)) (n : Z) :
  counter k d = Some n -> get_or k (JInt 0) d = JInt n.
Proof.
  unfold counter, get_or. destruct (dict_get k d) as [[] |]; congruence.
Qed.

(** ** The non-streaming handlers *)

Lemma client_request_replied (method url : string) (body : option value)
    (w : world) (r : response) :
  backend w (List.length (sent w)) = Replied r ->
  client_request open_client method url body w
  = Run [] (inr r) (logged {| sent_method := method; sent_url := url;
                              sent_json := body |} w).
Proof. intros H. unfold client_request. simpl. rewrite H. reflexivity. Qed.

Lemma client_request_unreachable (method url : string) (body : option value)
    (w : world) (e : exn) :
  backend w (List.length (sent w)) = Unreachable e ->
  client_request open_client method url body w
  = Run [] (inl e) (logged {| sent_method := method; sent_url := url;
                              sent_json := body |} w).
Proof. intros H. unfold client_request. simpl. rewrite H. reflexivity. Qed.

(** A non-streaming handler whose request was answered with [v] goes on
    with the translation of [v]. *)
Lemma chat_completions_answered (request : ChatCompletionRequest) (w : world)
    (r : response) (v : value) :
  chat_stream request = false ->
  backend w (List.length (sent w)) = Replied r ->
  json_of r = inr v ->
  chat_completions request w =
  try_except (chat_translation w (chat_model request) v) is_Exception as_500
    (answered (post_of w "/api/chat" (chat_ollama_request request)) w).
Proof.
  intros Hstream Hreply Hjson.
  unfold chat_completions. rewrite Hstream. unfold try_except.
  rewrite (bind_quiet ollama_host _ w w (OLLAMA_HOST w) eq_refl).
  unfold client_post.
  rewrite (bind_quiet _ _ _ _ _ (client_request_replied _ _ _ _ _ Hreply)).
  rewrite Hjson, bind_lift.
  rewrite (bind_quiet uuid4_hex _ _ _ _ eq_refl).
  rewrite (bind_quiet int_time _ _ _ _ eq_refl).
  reflexivity.
Qed.

Lemma completions_answered (request : CompletionRequest) (w : world)
    (r : response) (v : value) :
  cmpl_stream request = false ->
  backend w (List.length (sent w)) = Replied r ->
  json_of r = inr v ->
  completions request w =
  try_except (completion_translation w (cmpl_model request) v) is_Exception as_500
    (answered (post_of w "/api/generate" (completion_ollama_request request)) w).
Proof.
  intros Hstream Hreply Hjson.
  unfold completions. rewrite Hstream. unfold try_except.
  rewrite (bind_quiet ollama_host _ w w (OLLAMA_HOST w) eq_refl).
  unfold client_post.
  rewrite (bind_quiet _ _ _ _ _ (client_request_replied _ _ _ _ _ Hreply)).
  rewrite Hjson, bind_lift.
  rewrite (bind_quiet uuid4_hex _ _ _ _ eq_refl).
  rewrite (bind_quiet int_time _ _ _ _ eq_refl).
  reflexivity.
Qed.

Lemma sent_answered (request : sent_request) (w : world) :
  sent (answered request w) = sent w ++ [request].
Proof. reflexivity. Qed.

Lemma py_add_counters (d : list (string * value)) (p c : Z) :
  counter "prompt_eval_count" d = Some p ->
  counter "eval_count" d = Some c ->
  py_add (get_or "prompt_eval_count" (JInt 0) d) (get_or "eval_count" (JInt 0) d)
  = inr (JInt (p + c)).
Proof.
  intros Hp Hc.
  rewrite (counter_get_or _ _ _ Hp), (counter_get_or _ _ _ Hc). reflexivity.
Qed.

Lemma chat_translation_ok (w w1 : world) (model : string)
    (d m : list (string * value)) (text : value) (p c : Z) :
  dict_get "message" d = Some (JDict m) ->
  dict_get "content" m = Some text ->
  counter "prompt_eval_count" d = Some p ->
  counter "eval_count" d = Some c ->
  chat_translation w model (JDict d) w1
  = Run [] (inr (Body (chat_body w model text (JInt p) (JInt c) (JInt (p + c))))) w1.
Proof.
  intros Hm Ht Hp Hc. unfold chat_translation.
  rewrite (py_getitem_dict _ _ _ Hm), bind_lift.
  rewrite (py_getitem_dict _ _ _ Ht), bind_lift.
  rewrite !py_get_dict, !bind_lift.
  rewrite (py_add_counters _ _ _ Hp Hc), bind_lift.
  rewrite (counter_get_or _ _ _ Hp), (counter_get_or _ _ _ Hc). reflexivity.
Qed.

Lemma completion_translation_ok (w w1 : world) (model : string)
    (d : list (string * value)) (text : value) (p c : Z) :
  dict_get "response" d = Some text ->
  counter "prompt_eval_count" d = Some p ->
  counter "eval_count" d = Some c ->
  completion_translation w model (JDict d) w1
  = Run [] (inr (Body (completion_body w model text (JInt p) (JInt c)
                         (JInt (p + c))))) w1.
Proof.
  intros Ht Hp Hc. unfold completion_translation.
  rewrite (py_getitem_dict _ _ _ Ht), bind_lift.
  rewrite !py_get_dict, !bind_lift.
  rewrite (py_add_counters _ _ _ Hp Hc), bind_lift.
  rewrite (counter_get_or _ _ _ Hp), (counter_get_or _ _ _ Hc). reflexivity.
Qed.

(** A translation that returns has read everything it needs: the content
    is there and the two counters add up, with the [+] of the interpreter. *)
Lemma chat_translation_returned (w w1 : world) (model : string) (v body : value) :
  result (try_except (chat_translation w model v) is_Exception as_500 w1)
  = inr (Body body) ->
  exists message text p c total,
    py_getitem v "message" = inr message /\
    py_getitem message "content" = inr text /\
    py_get v "prompt_eval_count" (JInt 0) = inr p /\
    py_get v "eval_count" (JInt 0) = inr c /\
    py_add p c = inr total /\
    body = chat_body w model text p c total.
Proof.
  unfold try_except, chat_translation. intros H.
  destruct (py_getitem v "message") as [e | message] eqn:Hm;
    [simpl in H; discriminate | rewrite bind_lift in H].
  destruct (py_getitem message "content") as [e | text] eqn:Ht;
    [simpl in H; discriminate | rewrite bind_lift in H].
  destruct (py_get v "prompt_eval_count" (JInt 0)) as [e | p] eqn:Hp;
    [simpl in H; discriminate | rewrite !bind_lift in H].
  destruct (py_get v "eval_count" (JInt 0)) as [e | c] eqn:Hc;
    [simpl in H; discriminate | rewrite !bind_lift in H].
  destruct (py_add p c) as [e | total] eqn:Hadd;
    [simpl in H; discriminate | rewrite bind_lift in H].
  simpl in H. injection H as <-.
  exists message, text, p, c, total. repeat split; assumption || reflexivity.
Qed.

Lemma completion_translation_returned (w w1 : world) (model : string)
    (v body : value) :
  result (try_except (completion_translation w model v) is_Exception as_500 w1)
  = inr (Body body) ->
  exists text p c total,
    py_getitem v "response" = inr text /\
    py_get v "prompt_eval_count" (JInt 0) = inr p /\
    py_get v "eval_count" (JInt 0) = inr c /\
    py_add p c = inr total /\
    body = completion_body w model text p c total.
Proof.
  unfold try_except, completion_translation. intros H.
  destruct (py_getitem v "response") as [e | text] eqn:Ht;
    [simpl in H; discriminate | rewrite bind_lift in H].
  destruct (py_get v "prompt_eval_count" (JInt 0)) as [e | p] eqn:Hp;
    [simpl in H; discriminate | rewrite !bind_lift in H].
  destruct (py_get v "eval_count" (JInt 0)) as [e | c] eqn:Hc;
    [simpl in H; discriminate | rewrite !bind_lift in H].
  destruct (py_add p c) as [e | total] eqn:Hadd;
    [simpl in H; discriminate | rewrite bind_lift in H].
  simpl in H. injection H as <-.
  exists text, p, c, total. repeat split; assumption || reflexivity.
Qed.

Lemma chat_completions_failed (request : ChatCompletionRequest) (w : world) :
  chat_stream request = false ->
  (forall r v, backend w (List.length (sent w)) = Replied r -> json_of r <> inr v) ->
  exists e, result (chat_completions request w) = inl e.
Proof.
  intros Hstream Hfail. unfold chat_completions. rewrite Hstream.
  unfold try_except.
  rewrite (bind_quiet ollama_host _ w w (OLLAMA_HOST w) eq_refl).
  unfold client_post.
  destruct (backend w (List.length (sent w))) as [e | r] eqn:Hreply.
  - rewrite (bind_raises _ _ _ _ _ _ (client_request_unreachable _ _ _ _ _ Hreply)).
    simpl. eauto.
  - rewrite (bind_quiet _ _ _ _ _ (client_request_replied _ _ _ _ _ Hreply)).
    destruct (json_of r) as [e | v] eqn:Hjson.
    + simpl. eauto.
    + destruct (Hfail r v eq_refl Hjson).
Qed.

Lemma completions_failed (request : CompletionRequest) (w : world) :
  cmpl_stream request = false ->
  (forall r v, backend w (List.length (sent w)) = Replied r -> json_of r <> inr v) ->
  exists e, result (completions request w) = inl e.
Proof.
  intros Hstream Hfail. unfold completions. rewrite Hstream.
  unfold try_except.
  rewrite (bind_quiet ollama_host _ w w (OLLAMA_HOST w) eq_refl).
  unfold client_post.
  destruct (backend w (List.length (sent w))) as [e | r] eqn:Hreply.
  - rewrite (bind_raises _ _ _ _ _ _ (client_request_unreachable _ _ _ _ _ Hreply)).
    simpl. eauto.
  - rewrite (bind_quiet _ _ _ _ _ (client_request_replied _ _ _ _ _ Hreply)).
    destruct (json_of r) as [e | v] eqn:Hjson.
    + simpl. eauto.
    + destruct (Hfail r v eq_refl Hjson).
Qed.

Lemma chat_completions_streaming (request : ChatCompletionRequest) (w : world) :
  chat_stream request = true ->
  exists generator media_type,
    result (chat_completions request w)
    = inr (StreamingResponse generator media_type).
Proof.
  intros Hstream. unfold chat_completions. rewrite Hstream. simpl. eauto.
Qed.

Lemma completions_streaming (request : CompletionRequest) (w : world) :
  cmpl_stream request = true ->
  exists generator media_type,
    result (completions request w) = inr (StreamingResponse generator media_type).
Proof.
  intros Hstream. unfold completions. rewrite Hstream. simpl. eauto.
Qed.

(** The generator a streaming handler returns runs on the closed client:
    started, it mints its id, then fails to send and yields nothing. *)
Lemma chat_completions_generator (request : ChatCompletionRequest) (w : world) :
  chat_stream request = true ->
  exists generator,
    result (chat_completions request w)
    = inr (StreamingResponse generator "text/event-stream") /\
    forall w',
      generator w'
      = Run [] (inl (RuntimeError
                       "Cannot send a request, as the client has been closed."))
          (drawn w').
Proof.
  intros Hstream. unfold chat_completions. rewrite Hstream.
  eexists. split; [reflexivity |].
  intros w'. apply stream_chat_closed. reflexivity.
Qed.

Lemma completions_generator (request : CompletionRequest) (w : world) :
  cmpl_stream request = true ->
  exists generator,
    result (completions request w)
    = inr (StreamingResponse generator "text/event-stream") /\
    forall w',
      generator w'
      = Run [] (inl (RuntimeError
                       "Cannot send a request, as the client has been closed."))
          (drawn w').
Proof.
  intros Hstream. unfold completions. rewrite Hstream.
  eexists. split; [reflexivity |].
  intros w'. apply stream_completion_closed. reflexivity.
Qed.

(** A chat handler that returns a body was answered by the backend, and
    the body is the translation of the answer. *)
Lemma chat_completions_returned (request : ChatCompletionRequest) (w : world)
    (body : value) :
  result (chat_completions request w) = inr (Body body) ->
  exists r v message text p c total,
    backend w (List.length (sent w)) = Replied r /\
    json_of r = inr v /\
    py_getitem v "message" = inr message /\
    py_getitem message "content" = inr text /\
    py_get v "prompt_eval_count" (JInt 0) = inr p /\
    py_get v "eval_count" (JInt 0) = inr c /\
    py_add p c = inr total /\
    body = chat_body w (chat_model request) text p c total.
Proof.
  intros H.
  destruct (chat_stream request) eqn:Hstream.
  { destruct (chat_completions_streaming request w Hstream) as (g & mt & E).
    rewrite E in H. discriminate. }
  destruct (backend w (List.length (sent w))) as [e | r] eqn:Hreply.
  { destruct (chat_completions_failed request w Hstream) as [e' E].
    - intros r v Hr. rewrite Hreply in Hr. discriminate.
    - rewrite E in H. discriminate. }
  destruct (json_of r) as [e | v] eqn:Hjson.
  { destruct (chat_completions_failed request w Hstream) as [e' E].
    - intros r' v Hr. rewrite Hreply in Hr. injection Hr as <-.
      rewrite Hjson. discriminate.
    - rewrite E in H. discriminate. }
  rewrite (chat_completions_answered _ _ _ _ Hstream Hreply Hjson) in H.
  destruct (chat_translation_returned _ _ _ _ _ H)
    as (message & text & p & c & total & H1 & H2 & H3 & H4 & H5 & H6).
  exists r, v, message, text, p, c, total. repeat split; assumption.
Qed.

Lemma completions_returned (request : CompletionRequest) (w : world)
    (body : value) :
  result (completions request w) = inr (Body body) ->
  exists r v text p c total,
    backend w (List.length (sent w)) = Replied r /\
    json_of r = inr v /\
    py_getitem v "response" = inr text /\
    py_get v "prompt_eval_count" (JInt 0) = inr p /\
    py_get v "eval_count" (JInt 0) = inr c /\
    py_add p c = inr total /\
    body = completion_body w (cmpl_model request) text p c total.
Proof.
  intros H.
  destruct (cmpl_stream request) eqn:Hstream.
  { destruct (completions_streaming request w Hstream) as (g & mt & E).
    rewrite E in H. discriminate. }
  destruct (backend w (List.length (sent w))) as [e | r] eqn:Hreply.
  { destruct (completions_failed request w Hstream) as [e' E].
    - intros r v Hr. rewrite Hreply in Hr. discriminate.
    - rewrite E in H. discriminate. }
  destruct (json_of r) as [e | v] eqn:Hjson.
  { destruct (completions_failed request w Hstream) as [e' E].
    - intros r' v Hr. rewrite Hreply in Hr. injection Hr as <-.
      rewrite Hjson. discriminate.
    - rewrite E in H. discriminate. }
  rewrite (completions_answered _ _ _ _ Hstream Hreply Hjson) in H.
  destruct (completion_translation_returned _ _ _ _ _ H)
    as (text & p & c & total & H1 & H2 & H3 & H4 & H5).
  exists r, v, text, p, c, total. repeat split; assumption.
Qed.

(** ** GET /health *)

Lemma health_unreachable (w : world) (e : exn) :
  backend w (List.length (sent w)) = Unreachable e ->
  health w = Run [] (inl (HTTPException 503 ("Ollama not available: " +++ exn_str e)))
               (logged (get_of w "/api/tags") w).
Proof.
  intros H. unfold health, try_except.
  rewrite (bind_quiet ollama_host _ w w (OLLAMA_HOST w) eq_refl).
  unfold client_get.
  rewrite (bind_raises _ _ _ _ _ _ (client_request_unreachable _ _ _ _ _ H)).
  reflexivity.
Qed.

Lemma health_replied (w : world) (r : response) :
  backend w (List.length (sent w)) = Replied r ->
  health w =
  Run [] (inr (if status_code_of r =? 200
               then JDict [("status", JStr "healthy"); ("ollama", JStr "connected")]
               else JNull))
    (logged (get_of w "/api/tags") w).
Proof.
  intros H. unfold health, try_except.
  rewrite (bind_quiet ollama_host _ w w (OLLAMA_HOST w) eq_refl).
  unfold client_get.
  rewrite (bind_quiet _ _ _ _ _ (client_request_replied _ _ _ _ _ H)).
  destruct (status_code_of r =? 200); reflexivity.
Qed.

(** ** GET /v1/models *)

Lemma clock_ticked (w : world) : clock (ticked w) = clock w.
Proof. reflexivity. Qed.

Lemma model_entry_named (model name : value) (w : world) :
  py_getitem model "name" = inr name ->
  model_entry model w
  = Run [] (inr (entry_of name (clock w (clock_reads w)))) (ticked w).
Proof.
  intros H. unfold model_entry. rewrite H, bind_lift.
  rewrite (bind_quiet int_time _ _ _ _ eq_refl). reflexivity.
Qed.

Lemma comprehension_model_entry (models names : list value) :
  Forall2 (fun model name => py_getitem model "name" = inr name) models names ->
  forall w,
    comprehension model_entry models w
    = Run [] (inr (entries_of (clock w) (clock_reads w) names))
        (ticked_by (List.length models) w).
Proof.
  induction 1 as [| model name models names Hname _ IH]; intros w.
  - reflexivity.
  - cbn [comprehension].
    rewrite (bind_quiet _ _ _ _ _ (model_entry_named _ _ _ Hname)).
    rewrite (bind_quiet _ _ _ _ _ (IH _)). reflexivity.
Qed.

Lemma entries_of_shape (clock : nat -> Z) (names : list value) :
  forall k,
    Forall2 (fun name entry => exists created, entry = entry_of name created)
            names (entries_of clock k names).
Proof.
  induction names as [| name rest IH]; intros k; simpl; constructor; eauto.
Qed.

Lemma list_models_replied (w : world) (r : response)
    (d : list (string * value)) (models names : list value) :
  backend w (List.length (sent w)) = Replied r ->
  status_code_of r = 200 ->
  json_of r = inr (JDict d) ->
  get_or "models" (JList []) d = JList models ->
  Forall2 (fun model name => py_getitem model "name" = inr name) models names ->
  result (list_models w)
  = inr (JDict [("object", JStr "list");
                ("data", JList (entries_of (clock w) (clock_reads w) names))]).
Proof.
  intros Hreply Hstatus Hjson Hmodels Hnames.
  unfold list_models, try_except.
  rewrite (bind_quiet ollama_host _ w w (OLLAMA_HOST w) eq_refl).
  unfold client_get.
  rewrite (bind_quiet _ _ _ _ _ (client_request_replied _ _ _ _ _ Hreply)).
  rewrite Hstatus. cbn [Z.eqb Pos.eqb].
  rewrite Hjson, bind_lift.
  rewrite py_get_dict, bind_lift, Hmodels.
  cbn [py_iter]. rewrite bind_lift.
  rewrite (bind_quiet _ _ _ _ _ (comprehension_model_entry _ _ Hnames _)).
  reflexivity.
Qed.

Lemma try_except_raised {A} (m : prog A) (handler : exn -> prog A)
    (w w' : world) (e : exn) :
  m w = Run [] (inl e) w' ->
  try_except m is_Exception handler w = handler e w'.
Proof.
  intros E. unfold try_except. rewrite E. simpl.
  destruct (handler e w'); reflexivity.
Qed.

Lemma try_except_returned {A} (m : prog A) (catches : exn -> bool)
    (handler : exn -> prog A) (w w' : world) (ys : list string) (a : A) :
  m w = Run ys (inr a) w' ->
  try_except m catches handler w = Run ys (inr a) w'.
Proof. intros E. unfold try_except. rewrite E. reflexivity. Qed.

Lemma chat_translation_no_message (w w1 : world) (model : string) (v : value)
    (e : exn) :
  py_getitem v "message" = inl e ->
  chat_translation w model v w1 = Run [] (inl e) w1.
Proof. intros H. unfold chat_translation. rewrite H. reflexivity. Qed.

Lemma chat_translation_no_content (w w1 : world) (model : string)
    (v message : value) (e : exn) :
  py_getitem v "message" = inr message ->
  py_getitem message "content" = inl e ->
  chat_translation w model v w1 = Run [] (inl e) w1.
Proof.
  intros Hm Hc. unfold chat_translation. rewrite Hm, bind_lift, Hc. reflexivity.
Qed.

Lemma completion_translation_no_response (w w1 : world) (model : string)
    (v : value) (e : exn) :
  py_getitem v "response" = inl e ->
  completion_translation w model v w1 = Run [] (inl e) w1.
Proof. intros H. unfold completion_translation. rewrite H. reflexivity. Qed.

Lemma py_getitem_missing (k : string) (d : list (string * value)) :
  dict_get k d = None -> py_getitem (JDict d) k = inl (KeyError k).
Proof. intros H. unfold py_getitem. rewrite H. reflexivity. Qed.

(** ** One line of a chat stream, in full *)

Lemma chat_line_run (request_id : string) (ollama_request model : value)
    (line : string) (d m : list (string * value)) (w : world) :
  json_loads line = Some (JDict d) ->
  dict_get "message" d = Some (JDict m) ->
  py_getitem ollama_request "model" = inr model ->
  let text := get_or "content" (JStr "") m in
  let done := get_or "done" (JBool false) d in
  let w1 := if py_bool text then ticked w else w in
  chat_line request_id ollama_request line w =
  Run ((if py_bool text
        then [sse (json_dumps (chat_content_chunk request_id
                                 (clock w (clock_reads w)) model text))]
        else []) ++
       (if py_bool done
        then [sse (json_dumps (chat_final_chunk request_id
                                 (clock w1 (clock_reads w1)) model));
              DONE_frame]
        else []))
      (inr tt)
      (if py_bool done then ticked w1 else w1).
Proof.
  intros Hline Hmsg Hmodel text done w1.
  unfold chat_line. rewrite (parsed_line_not_empty _ _ Hline).
  unfold try_except, chat_chunk, loads. rewrite Hline.
  unfold bind at 1. cbn [ret].
  rewrite (py_contains_dict _ _ _ Hmsg).
  unfold bind at 1. cbn [lift ret].
  rewrite (py_getitem_dict _ _ _ Hmsg).
  unfold bind at 1. cbn [lift ret].
  rewrite !py_get_dict, Hmodel. fold text. fold done.
  unfold bind, lift, ret, yield, int_time. subst w1.
  destruct (py_bool text), (py_bool done); reflexivity.
Qed.

(** A chat chunk without [message]: the guard of the translator is false
    and nothing below it runs. *)
Lemma chat_line_no_message (request_id : string) (ollama_request : value)
    (line : string) (d : list (string * value)) (w : world) :
  json_loads line = Some (JDict d) ->
  dict_get "message" d = None ->
  chat_line request_id ollama_request line w = Run [] (inr tt) w.
Proof.
  intros Hline Hmissing.
  unfold chat_line. rewrite (parsed_line_not_empty _ _ Hline).
  unfold try_except, chat_chunk, loads. rewrite Hline.
  unfold bind at 1. cbn [ret].
  unfold py_contains, dict_mem. rewrite Hmissing. reflexivity.
Qed.

Lemma result_bind_returns {A B} (m : prog A) (k : A -> prog B) (w : world)
    (b : B) :
  result (bind m k w) = inr b -> exists a, result (m w) = inr a.
Proof.
  unfold bind. destruct (m w) as [ys [e | a] w']; simpl.
  - discriminate.
  - eauto.
Qed.

(** ** The request translator *)

Lemma optional_int_bool_true (o : option Z) :
  optional_int_bool o = true <-> exists n, o = Some n /\ n <> 0.
Proof.
  unfold optional_int_bool. split.
  - destruct o as [n |]; [| discriminate].
    intros H. exists n. split; [reflexivity |].
    apply negb_true_iff, Z.eqb_neq in H. exact H.
  - intros (n & -> & Hn). apply negb_true_iff, Z.eqb_neq. exact Hn.
Qed.

(* ================================================================== *)
(** * The statements of the specification *)
(* ================================================================== *)

(** C3: the request translator copies [stream] and [options.temperature]
    as they are, and [options] holds the key [num_predict] exactly when
    [max_tokens] is truthy, that is present and not zero; the key then
    holds [max_tokens], and otherwise it is absent, not null.  This holds
    for chat requests and for completion requests. *)
Theorem request_translation :
  (forall o : option Z,
      optional_int_bool o = true <-> exists n, o = Some n /\ n <> 0) /\
  (forall request : ChatCompletionRequest,
      let r := chat_ollama_request request in
      at_path r [Key "stream"] = Some (JBool (chat_stream request)) /\
      at_path r [Key "options"; Key "temperature"]
      = Some (JFloat (chat_temperature request)) /\
      at_path r [Key "options"; Key "num_predict"]
      = (if optional_int_bool (chat_max_tokens request)
         then option_map JInt (chat_max_tokens request)
         else None)) /\
  (forall request : CompletionRequest,
      let r := completion_ollama_request request in
      at_path r [Key "stream"] = Some (JBool (cmpl_stream request)) /\
      at_path r [Key "options"; Key "temperature"]
      = Some (JFloat (cmpl_temperature request)) /\
      at_path r [Key "options"; Key "num_predict"]
      = (if optional_int_bool (cmpl_max_tokens request)
         then option_map JInt (cmpl_max_tokens request)
         else None)).
Proof.
  split; [exact optional_int_bool_true |]. split.
  - intros [model messages temperature [n |] stream]; cbv zeta;
      unfold chat_ollama_request, with_num_predict; cbn [chat_max_tokens];
      [destruct (optional_int_bool (Some n)) |]; repeat split; reflexivity.
  - intros [model prompt temperature [n |] stream]; cbv zeta;
      unfold completion_ollama_request, with_num_predict; cbn [cmpl_max_tokens];
      [destruct (optional_int_bool (Some n)) |]; repeat split; reflexivity.
Qed.

(** C4: every body a non-streaming handler returns is the translation of
    the answer of the backend: its first choice holds the content of the
    answer ([message.content] for chat, [response] for a completion), its
    finish reason is "stop" whatever the answer, and its
    [usage.total_tokens] is [prompt_eval_count + eval_count], a missing
    counter counting as 0.  An answer that holds the content and whose
    counters are integers or absent is translated, and the total is the
    sum of the integers; the answer of the specification's example gives
    the content "hi" and the total 8 (see the witness). *)
Theorem response_translation :
  (forall (request : ChatCompletionRequest) (w : world) (body : value),
      result (chat_completions request w) = inr (Body body) ->
      exists r v message text p c total,
        backend w (List.length (sent w)) = Replied r /\
        json_of r = inr v /\
        py_getitem v "message" = inr message /\
        py_getitem message "content" = inr text /\
        py_get v "prompt_eval_count" (JInt 0) = inr p /\
        py_get v "eval_count" (JInt 0) = inr c /\
        py_add p c = inr total /\
        at_path body [Key "choices"; Index 0; Key "message"; Key "content"]
        = Some text /\
        at_path body [Key "choices"; Index 0; Key "finish_reason"]
        = Some (JStr "stop") /\
        at_path body [Key "usage"; Key "total_tokens"] = Some total) /\
  (forall (request : CompletionRequest) (w : world) (body : value),
      result (completions request w) = inr (Body body) ->
      exists r v text p c total,
        backend w (List.length (sent w)) = Replied r /\
        json_of r = inr v /\
        py_getitem v "response" = inr text /\
        py_get v "prompt_eval_count" (JInt 0) = inr p /\
        py_get v "eval_count" (JInt 0) = inr c /\
        py_add p c = inr total /\
        at_path body [Key "choices"; Index 0; Key "text"] = Some text /\
        at_path body [Key "choices"; Index 0; Key "finish_reason"]
        = Some (JStr "stop") /\
        at_path body [Key "usage"; Key "total_tokens"] = Some total) /\
  (forall (request : ChatCompletionRequest) (w : world) (r : response)
          (d m : list (string * value)) (text : value) (p c : Z),
      chat_stream request = false ->
      backend w (List.length (sent w)) = Replied r ->
      json_of r = inr (JDict d) ->
      dict_get "message" d = Some (JDict m) ->
      dict_get "content" m = Some text ->
      counter "prompt_eval_count" d = Some p ->
      counter "eval_count" d = Some c ->
      exists body,
        result (chat_completions request w) = inr (Body body) /\
        at_path body [Key "choices"; Index 0; Key "message"; Key "content"]
        = Some text /\
        at_path body [Key "choices"; Index 0; Key "finish_reason"]
        = Some (JStr "stop") /\
        at_path body [Key "usage"; Key "total_tokens"] = Some (JInt (p + c))) /\
  (forall (request : CompletionRequest) (w : world) (r : response)
          (d : list (string * value)) (text : value) (p c : Z),
      cmpl_stream request = false ->
      backend w (List.length (sent w)) = Replied r ->
      json_of r = inr (JDict d) ->
      dict_get "response" d = Some text ->
      counter "prompt_eval_count" d = Some p ->
      counter "eval_count" d = Some c ->
      exists body,
        result (completions request w) = inr (Body body) /\
        at_path body [Key "choices"; Index 0; Key "text"] = Some text /\
        at_path body [Key "choices"; Index 0; Key "finish_reason"]
        = Some (JStr "stop") /\
        at_path body [Key "usage"; Key "total_tokens"] = Some (JInt (p + c))).
Proof.
  split; [| split; [| split]].
  - intros request w body H.
    destruct (chat_completions_returned _ _ _ H)
      as (r & v & message & text & p & c & total
          & H1 & H2 & H3 & H4 & H5 & H6 & H7 & ->).
    exists r, v, message, text, p, c, total.
    repeat split; assumption || reflexivity.
  - intros request w body H.
    destruct (completions_returned _ _ _ H)
      as (r & v & text & p & c & total & H1 & H2 & H3 & H4 & H5 & H6 & ->).
    exists r, v, text, p, c, total.
    repeat split; assumption || reflexivity.
  - intros request w r d m text p c Hstream Hreply Hjson Hm Ht Hp Hc.
    rewrite (chat_completions_answered _ _ _ _ Hstream Hreply Hjson).
    rewrite (try_except_returned _ _ _ _ _ _ _
               (chat_translation_ok _ _ _ _ _ _ _ _ Hm Ht Hp Hc)).
    eexists. split; [reflexivity |]. repeat split; reflexivity.
  - intros request w r d text p c Hstream Hreply Hjson Ht Hp Hc.
    rewrite (completions_answered _ _ _ _ Hstream Hreply Hjson).
    rewrite (try_except_returned _ _ _ _ _ _ _
               (completion_translation_ok _ _ _ _ _ _ _ Ht Hp Hc)).
    eexists. split; [reflexivity |]. repeat split; reflexivity.
Qed.

(** C5: when the non-streaming answer of the backend is an object without
    the key [message] (chat) or [response] (completion), the handler
    raises an HTTP error 500 whose detail is the text of the [KeyError],
    and it has sent the backend one request, the one it started with. *)
Theorem missing_field_is_500 :
  (forall (request : ChatCompletionRequest) (w : world) (r : response)
          (d : list (string * value)),
      chat_stream request = false ->
      backend w (List.length (sent w)) = Replied r ->
      json_of r = inr (JDict d) ->
      dict_get "message" d = None ->
      let out := chat_completions request w in
      result out = inl (HTTPException 500 (exn_str (KeyError "message"))) /\
      exn_str (KeyError "message") = "'message'" /\
      http_status out = 500 /\
      sent (after out)
      = sent w ++ [post_of w "/api/chat" (chat_ollama_request request)]) /\
  (forall (request : CompletionRequest) (w : world) (r : response)
          (d : list (string * value)),
      cmpl_stream request = false ->
      backend w (List.length (sent w)) = Replied r ->
      json_of r = inr (JDict d) ->
      dict_get "response" d = None ->
      let out := completions request w in
      result out = inl (HTTPException 500 (exn_str (KeyError "response"))) /\
      exn_str (KeyError "response") = "'response'" /\
      http_status out = 500 /\
      sent (after out)
      = sent w ++ [post_of w "/api/generate" (completion_ollama_request request)]).
Proof.
  split.
  - intros request w r d Hstream Hreply Hjson Hmissing out. subst out.
    rewrite (chat_completions_answered _ _ _ _ Hstream Hreply Hjson).
    rewrite (try_except_raised _ _ _ _ _
               (chat_translation_no_message _ _ _ _ _
                  (py_getitem_missing _ _ Hmissing))).
    repeat split; reflexivity.
  - intros request w r d Hstream Hreply Hjson Hmissing out. subst out.
    rewrite (completions_answered _ _ _ _ Hstream Hreply Hjson).
    rewrite (try_except_raised _ _ _ _ _
               (completion_translation_no_response _ _ _ _ _
                  (py_getitem_missing _ _ Hmissing))).
    repeat split; reflexivity.
Qed.

(** C9: when the non-streaming answer to a chat request has a [message]
    that is an object without the key [content], the handler raises an
    HTTP error 500 whose detail is the text of the [KeyError]: the failure
    is not limited to a missing [message]. *)
Theorem missing_content_is_500 :
  forall (request : ChatCompletionRequest) (w : world) (r : response)
         (d m : list (string * value)),
    chat_stream request = false ->
    backend w (List.length (sent w)) = Replied r ->
    json_of r = inr (JDict d) ->
    dict_get "message" d = Some (JDict m) ->
    dict_get "content" m = None ->
    let out := chat_completions request w in
    result out = inl (HTTPException 500 (exn_str (KeyError "content"))) /\
    exn_str (KeyError "content") = "'content'" /\
    http_status out = 500.
Proof.
  intros request w r d m Hstream Hreply Hjson Hmessage Hmissing out. subst out.
  rewrite (chat_completions_answered _ _ _ _ Hstream Hreply Hjson).
  rewrite (try_except_raised _ _ _ _ _
             (chat_translation_no_content _ _ _ _ _ _
                (py_getitem_dict _ _ _ Hmessage)
                (py_getitem_missing _ _ Hmissing))).
  repeat split; reflexivity.
Qed.

(** C2: what [GET /health] does when the backend answers [GET /api/tags]
    with a status other than 200: the handler falls off its end, so it
    returns [None] and the caller gets a 200, not the 503 the specification
    asks for.  (An unreachable backend gives the 503 with the detail
    "Ollama not available: ..." and a 200 gives the healthy body, see
    [health_unreachable] and [health_replied].) *)
Theorem health_not_200_returns_none :
  forall (w : world) (r : response),
    backend w (List.length (sent w)) = Replied r ->
    status_code_of r <> 200 ->
    result (health w) = inr JNull /\ http_status (health w) = 200.
Proof.
  intros w r Hreply Hstatus.
  rewrite (health_replied _ _ Hreply).
  apply Z.eqb_neq in Hstatus. rewrite Hstatus. split; reflexivity.
Qed.

(** C8: when the backend answers [GET /api/tags] with a 200 and a list of
    models that each have a name, [GET /v1/models] returns a list with one
    entry for each model, in the order of the backend: the entry's [id] is
    the model's [name], its [object] is "model" and its [owned_by] is
    "ollama". *)
Theorem models_are_listed :
  forall (w : world) (r : response) (d : list (string * value))
         (models names : list value),
    backend w (List.length (sent w)) = Replied r ->
    status_code_of r = 200 ->
    json_of r = inr (JDict d) ->
    get_or "models" (JList []) d = JList models ->
    Forall2 (fun model name => py_getitem model "name" = inr name) models names ->
    exists entries,
      result (list_models w)
      = inr (JDict [("object", JStr "list"); ("data", JList entries)]) /\
      Forall2 (fun name entry =>
                 exists created,
                   entry = JDict [("id", name); ("object", JStr "model");
                                  ("created", JInt created);
                                  ("owned_by", JStr "ollama")])
              names entries.
Proof.
  intros w r d models names Hreply Hstatus Hjson Hmodels Hnames.
  exists (entries_of (clock w) (clock_reads w) names). split.
  - exact (list_models_replied _ _ _ _ _ Hreply Hstatus Hjson Hmodels Hnames).
  - apply entries_of_shape.
Qed.

(** X21: a chat line whose chunk has [done] true and a
    [message] that is an object yields, after the content frame if the
    content is not empty, a terminal chunk with an empty delta and the
    finish reason "stop", then the frame [data: [DONE]]; a completion line
    whose chunk has [done] true yields, after the text frame if the text
    is not empty, the frame [data: [DONE]].  The two lines of the
    specification's example yield three frames: the content "Hi", the
    terminal chunk, and [data: [DONE]]. *)
Theorem done_chunk_frames :
  (forall (request_id : string) (ollama_request model : value) (line : string)
          (d m : list (string * value)) (w : world),
      json_loads line = Some (JDict d) ->
      dict_get "message" d = Some (JDict m) ->
      dict_get "done" d = Some (JBool true) ->
      py_getitem ollama_request "model" = inr model ->
      let text := get_or "content" (JStr "") m in
      let t := clock w (clock_reads w) in
      let t' := clock w (S (clock_reads w)) in
      at_path (chat_final_chunk request_id t model)
              [Key "choices"; Index 0; Key "delta"] = Some (JDict []) /\
      at_path (chat_final_chunk request_id t model)
              [Key "choices"; Index 0; Key "finish_reason"] = Some (JStr "stop") /\
      yielded (chat_line request_id ollama_request line w) =
      if py_bool text
      then [sse (json_dumps (chat_content_chunk request_id t model text));
            sse (json_dumps (chat_final_chunk request_id t' model));
            DONE_frame]
      else [sse (json_dumps (chat_final_chunk request_id t model));
            DONE_frame]) /\
  (forall (request_id : string) (ollama_request model : value) (line : string)
          (d : list (string * value)) (w : world),
      json_loads line = Some (JDict d) ->
      dict_get "done" d = Some (JBool true) ->
      py_getitem ollama_request "model" = inr model ->
      let text := get_or "response" (JStr "") d in
      let t := clock w (clock_reads w) in
      yielded (completion_line request_id ollama_request line w) =
      if py_bool text
      then [sse (json_dumps (completion_text_chunk request_id t model text));
            DONE_frame]
      else [DONE_frame]) /\
  (forall (request_id : string) (ollama_request model : value)
          (line1 line2 : string) (w : world),
      json_loads line1
      = Some (JDict [("message", JDict [("content", JStr "Hi")])]) ->
      json_loads line2
      = Some (JDict [("done", JBool true);
                     ("message", JDict [("content", JStr "")])]) ->
      py_getitem ollama_request "model" = inr model ->
      yielded (for_each [line1; line2] (chat_line request_id ollama_request) w) =
      [sse (json_dumps (chat_content_chunk request_id (clock w (clock_reads w))
                          model (JStr "Hi")));
       sse (json_dumps (chat_final_chunk request_id (clock w (S (clock_reads w)))
                          model));
       DONE_frame]).
Proof.
  split; [| split].
  - intros request_id ollama_request model line d m w Hline Hmsg Hdone Hmodel
           text t t'.
    split; [reflexivity |]. split; [reflexivity |].
    exact (chat_line_done _ _ _ _ _ _ _ Hline Hmsg Hdone Hmodel).
  - intros request_id ollama_request model line d w Hline Hdone Hmodel.
    exact (completion_line_done _ _ _ _ _ _ Hline Hdone Hmodel).
  - intros request_id ollama_request model line1 line2 w H1 H2 Hmodel.
    pose proof (chat_line_run request_id _ _ _ _ _ w H1 eq_refl Hmodel) as R1.
    cbn [get_or dict_get String.eqb Ascii.eqb Bool.eqb py_bool negb app] in R1.
    pose proof (chat_line_run request_id _ _ _ _ _ (ticked w) H2 eq_refl Hmodel)
      as R2.
    cbn [get_or dict_get String.eqb Ascii.eqb Bool.eqb py_bool negb app] in R2.
    rewrite for_each_cons, (bind_returns _ _ _ _ _ _ R1).
    rewrite for_each_cons, (bind_returns _ _ _ _ _ _ R2).
    reflexivity.
Qed.

(** C1 (where the code departs from it): a chat chunk that is done but
    carries no [message] yields no frame at all, neither the terminal
    chunk nor [data: [DONE]], and the translator goes on as if the line
    had not been sent, because the test of [done] stands inside the guard
    [if "message" in ollama_chunk].  The completion translator, given the
    same line, does yield [data: [DONE]].  A chat stream that holds such a
    line yields exactly the frames of its other lines. *)
Theorem done_without_message_is_dropped :
  (forall (request_id : string) (ollama_request model : value) (line : string)
          (d : list (string * value)) (w : world),
      json_loads line = Some (JDict d) ->
      dict_get "message" d = None ->
      dict_get "done" d = Some (JBool true) ->
      py_getitem ollama_request "model" = inr model ->
      let text := get_or "response" (JStr "") d in
      let t := clock w (clock_reads w) in
      chat_line request_id ollama_request line w = Run [] (inr tt) w /\
      yielded (completion_line request_id ollama_request line w) =
      if py_bool text
      then [sse (json_dumps (completion_text_chunk request_id t model text));
            DONE_frame]
      else [DONE_frame]) /\
  (forall (client : AsyncClient) (ollama_request : value) (w : world)
          (r : response) (before later : list string) (line : string)
          (d : list (string * value)),
      is_closed client = false ->
      backend w (List.length (sent w)) = Replied r ->
      lines_of r = before ++ line :: later ->
      json_loads line = Some (JDict d) ->
      dict_get "message" d = None ->
      dict_get "done" d = Some (JBool true) ->
      yielded (stream_chat_response client ollama_request w)
      = yielded (for_each (before ++ later)
                   (chat_line (minted "chatcmpl-" w) ollama_request)
                   (opened "/api/chat" ollama_request w))).
Proof.
  split.
  - intros request_id ollama_request model line d w Hline Hmissing Hdone Hmodel
           text t.
    split.
    + exact (chat_line_no_message _ _ _ _ _ Hline Hmissing).
    + exact (completion_line_done _ _ _ _ _ _ Hline Hdone Hmodel).
  - intros client ollama_request w r before later line d Hopen Hreply Hlines
           Hline Hmissing Hdone.
    rewrite (stream_chat_opened _ _ _ _ Hopen Hreply), yielded_before_end, Hlines.
    rewrite (for_each_skip (chat_line (minted "chatcmpl-" w) ollama_request) line);
      [reflexivity |].
    intros w'. exact (chat_line_no_message _ _ _ _ _ Hline Hmissing).
Qed.

(** C6: a line that is not valid JSON is dropped by both streaming
    translators: it yields no frame, raises nothing and leaves the world as
    it was, so that the stream goes on as if the line had not been there,
    the lines before it and after it yielding their frames in their
    order. *)
Theorem malformed_line_dropped :
  forall (request_id : string) (ollama_request : value) (bad : string),
    json_loads bad = None ->
    (forall w, chat_line request_id ollama_request bad w = Run [] (inr tt) w) /\
    (forall before later w,
        for_each (before ++ bad :: later) (chat_line request_id ollama_request) w
        = for_each (before ++ later) (chat_line request_id ollama_request) w) /\
    (forall w,
        completion_line request_id ollama_request bad w = Run [] (inr tt) w) /\
    (forall before later w,
        for_each (before ++ bad :: later)
                 (completion_line request_id ollama_request) w
        = for_each (before ++ later)
                   (completion_line request_id ollama_request) w).
Proof.
  intros request_id ollama_request bad Hbad.
  pose proof (fun w => chat_line_malformed request_id ollama_request bad w Hbad)
    as Hchat.
  pose proof (fun w => completion_line_malformed request_id ollama_request bad w
                         Hbad) as Hcompletion.
  repeat split.
  - exact Hchat.
  - apply for_each_skip. exact Hchat.
  - exact Hcompletion.
  - apply for_each_skip. exact Hcompletion.
Qed.

(** C7: the frames a streaming translator yields are the frames of the
    lines it consumes, line after line in the order of the backend, each
    line's frames together: the output is the concatenation of the frames
    per line.  There is one list of frames for each consumed line, and a
    stream that ends without raising has consumed every line. *)
Theorem frames_follow_lines :
  (forall (client : AsyncClient) (ollama_request : value) (w : world)
          (r : response),
      is_closed client = false ->
      backend w (List.length (sent w)) = Replied r ->
      let body := chat_line (minted "chatcmpl-" w) ollama_request in
      let w1 := opened "/api/chat" ollama_request w in
      yielded (stream_chat_response client ollama_request w)
      = List.concat (frames_per_line body (lines_of r) w1) /\
      List.length (frames_per_line body (lines_of r) w1)
      = List.length (consumed body (lines_of r) w1) /\
      (result (stream_chat_response client ollama_request w) = inr tt ->
       consumed body (lines_of r) w1 = lines_of r)) /\
  (forall (client : AsyncClient) (ollama_request : value) (w : world)
          (r : response),
      is_closed client = false ->
      backend w (List.length (sent w)) = Replied r ->
      let body := completion_line (minted "cmpl-" w) ollama_request in
      let w1 := opened "/api/generate" ollama_request w in
      yielded (stream_completion_response client ollama_request w)
      = List.concat (frames_per_line body (lines_of r) w1) /\
      List.length (frames_per_line body (lines_of r) w1)
      = List.length (consumed body (lines_of r) w1) /\
      (result (stream_completion_response client ollama_request w) = inr tt ->
       consumed body (lines_of r) w1 = lines_of r)).
Proof.
  split.
  - intros client ollama_request w r Hopen Hreply body w1.
    rewrite (stream_chat_opened _ _ _ _ Hopen Hreply). fold body. fold w1.
    split; [| split].
    + rewrite yielded_before_end. apply for_each_frames.
    + apply frames_per_line_length.
    + intros H. apply result_bind_returns in H. destruct H as [[] H].
      apply consumed_all. exact H.
  - intros client ollama_request w r Hopen Hreply body w1.
    rewrite (stream_completion_opened _ _ _ _ Hopen Hreply). fold body. fold w1.
    split; [| split].
    + rewrite yielded_before_end. apply for_each_frames.
    + apply frames_per_line_length.
    + intros H. apply result_bind_returns in H. destruct H as [[] H].
      apply consumed_all. exact H.
Qed.

(** C10: a stream mints its request id once, from the random source as it
    is when the stream starts, before anything is sent to the backend: the
    id is [chatcmpl-] (chat) or [cmpl-] (completion) followed by eight
    hexadecimal digits, every JSON frame of the stream carries it, and the
    stream draws exactly one UUID. *)
Theorem request_id_minted_once :
  forall (client : AsyncClient) (ollama_request : value) (w : world),
    (exists token,
        minted "chatcmpl-" w = "chatcmpl-" +++ token /\ hex_token token) /\
    Forall (frame_of (minted "chatcmpl-" w))
           (yielded (stream_chat_response client ollama_request w)) /\
    uuid_calls (after (stream_chat_response client ollama_request w))
    = S (uuid_calls w) /\
    (exists token, minted "cmpl-" w = "cmpl-" +++ token /\ hex_token token) /\
    Forall (frame_of (minted "cmpl-" w))
           (yielded (stream_completion_response client ollama_request w)) /\
    uuid_calls (after (stream_completion_response client ollama_request w))
    = S (uuid_calls w).
Proof.
  intros client ollama_request w. repeat split.
  - eexists. split; [reflexivity | apply slice_to_8_hex].
  - apply stream_chat_emits.
  - apply stream_chat_mints_once.
  - eexists. split; [reflexivity | apply slice_to_8_hex].
  - apply stream_completion_emits.
  - apply stream_completion_mints_once.
Qed.

End Properties.

(* ================================================================== *)
(** * Further properties of the program *)
(* ================================================================== *)

Section Further.
Context {FL : PyFloat} {JS : PyJson}.

(** ** Programs that only compute *)

Lemma silent_ret {A} (a : A) : silent (ret a).
Proof. intros w. split; reflexivity. Qed.

Lemma silent_raise {A} (e : exn) : silent (@raise _ A e).
Proof. intros w. split; reflexivity. Qed.

Lemma silent_lift {A} (x : exn + A) : silent (lift x).
Proof. destruct x; [apply silent_raise | apply silent_ret]. Qed.

Lemma silent_bind {A B} (m : prog A) (k : A -> prog B) :
  silent m -> (forall a, silent (k a)) -> silent (bind m k).
Proof.
  intros Hm Hk w. unfold bind. destruct (Hm w) as [Hy Hw].
  destruct (m w) as [ys [e | a] w']; simpl in *; subst.
  - split; reflexivity.
  - destruct (Hk a w) as [Hy' Hw']. destruct (k a w); simpl in *; subst.
    split; reflexivity.
Qed.

Lemma silent_try_except {A} (m : prog A) (catches : exn -> bool)
    (handler : exn -> prog A) :
  silent m -> (forall e, silent (handler e)) ->
  silent (try_except m catches handler).
Proof.
  intros Hm Hh w. unfold try_except. destruct (Hm w) as [Hy Hw].
  destruct (m w) as [ys [e | a] w']; simpl in *; subst.
  - destruct (catches e); [| split; reflexivity].
    destruct (Hh e w) as [Hy' Hw']. destruct (handler e w); simpl in *; subst.
    split; reflexivity.
  - split; reflexivity.
Qed.

Lemma chat_translation_silent (w : world) (model : string) (v : value) :
  silent (try_except (chat_translation w model v) is_Exception as_500).
Proof.
  apply silent_try_except; [| intros e; apply silent_raise].
  unfold chat_translation.
  repeat (apply silent_bind; [apply silent_lift | intros ?]).
  apply silent_ret.
Qed.

Lemma completion_translation_silent (w : world) (model : string) (v : value) :
  silent (try_except (completion_translation w model v) is_Exception as_500).
Proof.
  apply silent_try_except; [| intros e; apply silent_raise].
  unfold completion_translation.
  repeat (apply silent_bind; [apply silent_lift | intros ?]).
  apply silent_ret.
Qed.

(** ** The non-streaming handlers when the backend fails *)

Lemma chat_completions_unreachable (request : ChatCompletionRequest)
    (w : world) (e : exn) :
  chat_stream request = false ->
  backend w (List.length (sent w)) = Unreachable e ->
  chat_completions request w
  = Run [] (inl (HTTPException 500 (exn_str e)))
      (logged (post_of w "/api/chat" (chat_ollama_request request)) w).
Proof.
  intros Hstream Hreply. unfold chat_completions. rewrite Hstream.
  unfold try_except.
  rewrite (bind_quiet ollama_host _ w w (OLLAMA_HOST w) eq_refl).
  unfold client_post.
  rewrite (bind_raises _ _ _ _ _ _ (client_request_unreachable _ _ _ _ _ Hreply)).
  reflexivity.
Qed.

Lemma chat_completions_unparsed (request : ChatCompletionRequest)
    (w : world) (r : response) (e : exn) :
  chat_stream request = false ->
  backend w (List.length (sent w)) = Replied r ->
  json_of r = inl e ->
  chat_completions request w
  = Run [] (inl (HTTPException 500 (exn_str e)))
      (logged (post_of w "/api/chat" (chat_ollama_request request)) w).
Proof.
  intros Hstream Hreply Hjson. unfold chat_completions. rewrite Hstream.
  unfold try_except.
  rewrite (bind_quiet ollama_host _ w w (OLLAMA_HOST w) eq_refl).
  unfold client_post.
  rewrite (bind_quiet _ _ _ _ _ (client_request_replied _ _ _ _ _ Hreply)).
  rewrite Hjson. reflexivity.
Qed.

Lemma completions_unreachable (request : CompletionRequest)
    (w : world) (e : exn) :
  cmpl_stream request = false ->
  backend w (List.length (sent w)) = Unreachable e ->
  completions request w
  = Run [] (inl (HTTPException 500 (exn_str e)))
      (logged (post_of w "/api/generate" (completion_ollama_request request)) w).
Proof.
  intros Hstream Hreply. unfold completions. rewrite Hstream.
  unfold try_except.
  rewrite (bind_quiet ollama_host _ w w (OLLAMA_HOST w) eq_refl).
  unfold client_post.
  rewrite (bind_raises _ _ _ _ _ _ (client_request_unreachable _ _ _ _ _ Hreply)).
  reflexivity.
Qed.

Lemma completions_unparsed (request : CompletionRequest)
    (w : world) (r : response) (e : exn) :
  cmpl_stream request = false ->
  backend w (List.length (sent w)) = Replied r ->
  json_of r = inl e ->
  completions request w
  = Run [] (inl (HTTPException 500 (exn_str e)))
      (logged (post_of w "/api/generate" (completion_ollama_request request)) w).
Proof.
  intros Hstream Hreply Hjson. unfold completions. rewrite Hstream.
  unfold try_except.
  rewrite (bind_quiet ollama_host _ w w (OLLAMA_HOST w) eq_refl).
  unfold client_post.
  rewrite (bind_quiet _ _ _ _ _ (client_request_replied _ _ _ _ _ Hreply)).
  rewrite Hjson. reflexivity.
Qed.

(** ** GET /health and GET /v1/models *)

(** X1: [GET /health] sends the backend one [GET /api/tags] whatever comes
    of it and never reads the body of the answer: an unreachable backend
    gives a 503 whose detail is "Ollama not available: " followed by the
    text of the error, and a 200 gives the healthy body. *)
Theorem health_reports_backend :
  (forall (w : world) (e : exn),
      backend w (List.length (sent w)) = Unreachable e ->
      result (health w)
      = inl (HTTPException 503 ("Ollama not available: " +++ exn_str e)) /\
      http_status (health w) = 503) /\
  (forall (w : world) (r : response),
      backend w (List.length (sent w)) = Replied r ->
      status_code_of r = 200 ->
      result (health w)
      = inr (JDict [("status", JStr "healthy"); ("ollama", JStr "connected")])) /\
  (forall w : world,
      sent (after (health w)) = sent w ++ [get_of w "/api/tags"] /\
      yielded (health w) = []).
Proof.
  split; [| split].
  - intros w e H. rewrite (health_unreachable _ _ H). split; reflexivity.
  - intros w r H Hstatus. rewrite (health_replied _ _ H), Hstatus. reflexivity.
  - intros w. destruct (backend w (List.length (sent w))) as [e | r] eqn:H.
    + rewrite (health_unreachable _ _ H). split; reflexivity.
    + rewrite (health_replied _ _ H). split; reflexivity.
Qed.

Lemma list_models_unreachable (w : world) (e : exn) :
  backend w (List.length (sent w)) = Unreachable e ->
  list_models w
  = Run [] (inl (HTTPException 500 (exn_str e))) (logged (get_of w "/api/tags") w).
Proof.
  intros H. unfold list_models, try_except.
  rewrite (bind_quiet ollama_host _ w w (OLLAMA_HOST w) eq_refl).
  unfold client_get.
  rewrite (bind_raises _ _ _ _ _ _ (client_request_unreachable _ _ _ _ _ H)).
  reflexivity.
Qed.

(** [list_models] once the backend has answered with a 200. *)
Lemma list_models_answered (w : world) (r : response) :
  backend w (List.length (sent w)) = Replied r ->
  status_code_of r = 200 ->
  list_models w =
  try_except
    (body <- lift (json_of r) ;;
     ollama_models <- lift (py_get body "models" (JList [])) ;;
     items <- lift (py_iter ollama_models) ;;
     models <- comprehension model_entry items ;;
     ret (JDict [("object", JStr "list"); ("data", JList models)]))
    is_Exception
    (fun e => raise (HTTPException 500 (exn_str e)))
    (logged (get_of w "/api/tags") w).
Proof.
  intros Hreply Hstatus. unfold list_models, try_except.
  rewrite (bind_quiet ollama_host _ w w (OLLAMA_HOST w) eq_refl).
  unfold client_get.
  rewrite (bind_quiet _ _ _ _ _ (client_request_replied _ _ _ _ _ Hreply)).
  rewrite Hstatus. reflexivity.
Qed.

(** X2: how [GET /v1/models] fails.  An unreachable backend and a 200
    whose body is no JSON give a 500 whose detail is the text of the
    error; an answer with another status than 200 gives no error at all:
    the handler returns [None], which the caller gets as a 200. *)
Theorem list_models_failures :
  (forall (w : world) (e : exn),
      backend w (List.length (sent w)) = Unreachable e ->
      result (list_models w) = inl (HTTPException 500 (exn_str e))) /\
  (forall (w : world) (r : response) (e : exn),
      backend w (List.length (sent w)) = Replied r ->
      status_code_of r = 200 ->
      json_of r = inl e ->
      result (list_models w) = inl (HTTPException 500 (exn_str e))) /\
  (forall (w : world) (r : response),
      backend w (List.length (sent w)) = Replied r ->
      status_code_of r <> 200 ->
      result (list_models w) = inr JNull /\ http_status (list_models w) = 200).
Proof.
  split; [| split].
  - intros w e H. rewrite (list_models_unreachable _ _ H). reflexivity.
  - intros w r e H Hstatus Hjson.
    rewrite (list_models_answered _ _ H Hstatus), Hjson. reflexivity.
  - intros w r H Hstatus. unfold list_models, try_except.
    rewrite (bind_quiet ollama_host _ w w (OLLAMA_HOST w) eq_refl).
    unfold client_get.
    rewrite (bind_quiet _ _ _ _ _ (client_request_replied _ _ _ _ _ H)).
    apply Z.eqb_neq in Hstatus. rewrite Hstatus. split; reflexivity.
Qed.

(** X3: when the 200 answer of the backend is an object without the key
    [models], [GET /v1/models] returns the empty list, and the clock is
    not read. *)
Theorem list_models_without_models :
  forall (w : world) (r : response) (d : list (string * value)),
    backend w (List.length (sent w)) = Replied r ->
    status_code_of r = 200 ->
    json_of r = inr (JDict d) ->
    dict_get "models" d = None ->
    result (list_models w)
    = inr (JDict [("object", JStr "list"); ("data", JList [])]) /\
    clock_reads (after (list_models w)) = clock_reads w.
Proof.
  intros w r d H Hstatus Hjson Hmissing.
  rewrite (list_models_answered _ _ H Hstatus), Hjson.
  unfold try_except. rewrite bind_lift.
  unfold py_get. rewrite Hmissing. rewrite bind_lift.
  split; reflexivity.
Qed.

Lemma comprehension_raises (good names : list value) (bad : value)
    (rest : list value) (e : exn) :
  Forall2 (fun model name => py_getitem model "name" = inr name) good names ->
  py_getitem bad "name" = inl e ->
  forall w,
    comprehension model_entry (good ++ bad :: rest) w
    = Run [] (inl e) (ticked_by (List.length good) w).
Proof.
  intros Hgood Hbad.
  induction Hgood as [| model name good names Hname _ IH]; intros w.
  - simpl app. cbn [comprehension]. unfold model_entry.
    rewrite Hbad. reflexivity.
  - simpl app. cbn [comprehension].
    rewrite (bind_quiet _ _ _ _ _ (model_entry_named _ _ _ Hname)).
    rewrite (bind_raises _ _ _ _ _ _ (IH _)). reflexivity.
Qed.

(** X4: one model of the backend's list that has no name fails the whole
    listing: [GET /v1/models] raises a 500 whose detail is the text of the
    error, ['name'] when the entry is an object without that key, and the
    models before it are not returned. *)
Theorem list_models_entry_without_name :
  (forall (w : world) (r : response) (d : list (string * value))
          (good names rest : list value) (bad : value) (e : exn),
      backend w (List.length (sent w)) = Replied r ->
      status_code_of r = 200 ->
      json_of r = inr (JDict d) ->
      get_or "models" (JList []) d = JList (good ++ bad :: rest) ->
      Forall2 (fun model name => py_getitem model "name" = inr name) good names ->
      py_getitem bad "name" = inl e ->
      result (list_models w) = inl (HTTPException 500 (exn_str e))) /\
  (forall entry : list (string * value),
      dict_get "name" entry = None ->
      py_getitem (JDict entry) "name" = inl (KeyError "name") /\
      exn_str (KeyError "name") = "'name'").
Proof.
  split.
  - intros w r d good names rest bad e H Hstatus Hjson Hmodels Hgood Hbad.
    rewrite (list_models_answered _ _ H Hstatus), Hjson.
    unfold try_except. rewrite bind_lift, py_get_dict, bind_lift, Hmodels.
    cbn [py_iter]. rewrite bind_lift.
    rewrite (bind_raises _ _ _ _ _ _ (comprehension_raises _ _ _ _ _ Hgood Hbad _)).
    reflexivity.
  - intros entry Hmissing. split; [| reflexivity].
    apply py_getitem_missing. exact Hmissing.
Qed.

(** ** The non-streaming handlers *)

(** X5: a non-streaming handler turns a failure of the backend into a 500
    whose detail is the text of the error, be the backend unreachable or
    its body no JSON; it has then drawn no UUID and not read the clock, and
    it never looks at the status of the answer. *)
Theorem backend_failure_is_500 :
  (forall (request : ChatCompletionRequest) (w : world) (e : exn),
      chat_stream request = false ->
      backend w (List.length (sent w)) = Unreachable e ->
      let out := chat_completions request w in
      result out = inl (HTTPException 500 (exn_str e)) /\
      uuid_calls (after out) = uuid_calls w /\
      clock_reads (after out) = clock_reads w) /\
  (forall (request : ChatCompletionRequest) (w : world) (r : response) (e : exn),
      chat_stream request = false ->
      backend w (List.length (sent w)) = Replied r ->
      json_of r = inl e ->
      let out := chat_completions request w in
      result out = inl (HTTPException 500 (exn_str e)) /\
      uuid_calls (after out) = uuid_calls w /\
      clock_reads (after out) = clock_reads w) /\
  (forall (request : CompletionRequest) (w : world) (e : exn),
      cmpl_stream request = false ->
      backend w (List.length (sent w)) = Unreachable e ->
      let out := completions request w in
      result out = inl (HTTPException 500 (exn_str e)) /\
      uuid_calls (after out) = uuid_calls w /\
      clock_reads (after out) = clock_reads w) /\
  (forall (request : CompletionRequest) (w : world) (r : response) (e : exn),
      cmpl_stream request = false ->
      backend w (List.length (sent w)) = Replied r ->
      json_of r = inl e ->
      let out := completions request w in
      result out = inl (HTTPException 500 (exn_str e)) /\
      uuid_calls (after out) = uuid_calls w /\
      clock_reads (after out) = clock_reads w).
Proof.
  split; [| split; [| split]].
  - intros request w e Hs H out. subst out.
    rewrite (chat_completions_unreachable _ _ _ Hs H). repeat split; reflexivity.
  - intros request w r e Hs H Hj out. subst out.
    rewrite (chat_completions_unparsed _ _ _ _ Hs H Hj). repeat split; reflexivity.
  - intros request w e Hs H out. subst out.
    rewrite (completions_unreachable _ _ _ Hs H). repeat split; reflexivity.
  - intros request w r e Hs H Hj out. subst out.
    rewrite (completions_unparsed _ _ _ _ Hs H Hj). repeat split; reflexivity.
Qed.

Lemma chat_completions_sent (request : ChatCompletionRequest) (w : world) :
  chat_stream request = false ->
  sent (after (chat_completions request w))
  = sent w ++ [post_of w "/api/chat" (chat_ollama_request request)].
Proof.
  intros Hs.
  destruct (backend w (List.length (sent w))) as [e | r] eqn:H.
  { rewrite (chat_completions_unreachable _ _ _ Hs H). reflexivity. }
  destruct (json_of r) as [e | v] eqn:Hj.
  { rewrite (chat_completions_unparsed _ _ _ _ Hs H Hj). reflexivity. }
  rewrite (chat_completions_answered _ _ _ _ Hs H Hj).
  destruct (chat_translation_silent w (chat_model request) v
              (answered (post_of w "/api/chat" (chat_ollama_request request)) w))
    as [_ ->].
  reflexivity.
Qed.

Lemma completions_sent (request : CompletionRequest) (w : world) :
  cmpl_stream request = false ->
  sent (after (completions request w))
  = sent w ++ [post_of w "/api/generate" (completion_ollama_request request)].
Proof.
  intros Hs.
  destruct (backend w (List.length (sent w))) as [e | r] eqn:H.
  { rewrite (completions_unreachable _ _ _ Hs H). reflexivity. }
  destruct (json_of r) as [e | v] eqn:Hj.
  { rewrite (completions_unparsed _ _ _ _ Hs H Hj). reflexivity. }
  rewrite (completions_answered _ _ _ _ Hs H Hj).
  destruct (completion_translation_silent w (cmpl_model request) v
              (answered (post_of w "/api/generate"
                           (completion_ollama_request request)) w))
    as [_ ->].
  reflexivity.
Qed.

(** X6: whatever the backend does, a non-streaming call sends it exactly
    one request: a POST to [/api/chat] (chat) or [/api/generate]
    (completion) on [OLLAMA_HOST], with the translated request as its JSON
    body.  A streaming call sends nothing from the handler itself, which
    draws no UUID either. *)
Theorem one_request_per_call :
  (forall (request : ChatCompletionRequest) (w : world),
      sent (after (chat_completions request w))
      = if chat_stream request then sent w
        else sent w ++ [{| sent_method := "POST";
                           sent_url := OLLAMA_HOST w +++ "/api/chat";
                           sent_json := Some (chat_ollama_request request) |}]) /\
  (forall (request : CompletionRequest) (w : world),
      sent (after (completions request w))
      = if cmpl_stream request then sent w
        else sent w ++ [{| sent_method := "POST";
                           sent_url := OLLAMA_HOST w +++ "/api/generate";
                           sent_json := Some (completion_ollama_request request) |}]) /\
  (forall (request : ChatCompletionRequest) (w : world),
      chat_stream request = true ->
      uuid_calls (after (chat_completions request w)) = uuid_calls w) /\
  (forall (request : CompletionRequest) (w : world),
      cmpl_stream request = true ->
      uuid_calls (after (completions request w)) = uuid_calls w).
Proof.
  split; [| split; [| split]].
  - intros request w. destruct (chat_stream request) eqn:Hs.
    + unfold chat_completions. rewrite Hs. reflexivity.
    + apply chat_completions_sent. exact Hs.
  - intros request w. destruct (cmpl_stream request) eqn:Hs.
    + unfold completions. rewrite Hs. reflexivity.
    + apply completions_sent. exact Hs.
  - intros request w Hs. unfold chat_completions. rewrite Hs. reflexivity.
  - intros request w Hs. unfold completions. rewrite Hs. reflexivity.
Qed.

(** X7: a counter that is there but null fails the translation although
    the content is there: [None + n] raises a [TypeError], and the caller
    gets a 500 with its text instead of the completion. *)
Theorem null_counter_is_500 :
  (forall (request : ChatCompletionRequest) (w : world) (r : response)
          (d m : list (string * value)) (text : value) (c : Z),
      chat_stream request = false ->
      backend w (List.length (sent w)) = Replied r ->
      json_of r = inr (JDict d) ->
      dict_get "message" d = Some (JDict m) ->
      dict_get "content" m = Some text ->
      dict_get "prompt_eval_count" d = Some JNull ->
      counter "eval_count" d = Some c ->
      result (chat_completions request w)
      = inl (HTTPException 500
               "unsupported operand type(s) for +: 'NoneType' and 'int'")) /\
  (forall (request : CompletionRequest) (w : world) (r : response)
          (d : list (string * value)) (text : value) (c : Z),
      cmpl_stream request = false ->
      backend w (List.length (sent w)) = Replied r ->
      json_of r = inr (JDict d) ->
      dict_get "response" d = Some text ->
      dict_get "prompt_eval_count" d = Some JNull ->
      counter "eval_count" d = Some c ->
      result (completions request w)
      = inl (HTTPException 500
               "unsupported operand type(s) for +: 'NoneType' and 'int'")).
Proof.
  split.
  - intros request w r d m text c Hs H Hj Hm Ht Hp Hc.
    rewrite (chat_completions_answered _ _ _ _ Hs H Hj).
    unfold try_except, chat_translation.
    rewrite (py_getitem_dict _ _ _ Hm), bind_lift.
    rewrite (py_getitem_dict _ _ _ Ht), bind_lift.
    rewrite !py_get_dict, !bind_lift.
    rewrite (get_or_found _ _ _ _ Hp), (counter_get_or _ _ _ Hc).
    reflexivity.
  - intros request w r d text c Hs H Hj Ht Hp Hc.
    rewrite (completions_answered _ _ _ _ Hs H Hj).
    unfold try_except, completion_translation.
    rewrite (py_getitem_dict _ _ _ Ht), bind_lift.
    rewrite !py_get_dict, !bind_lift.
    rewrite (get_or_found _ _ _ _ Hp), (counter_get_or _ _ _ Hc).
    reflexivity.
Qed.

(** X8: every body a non-streaming handler returns carries a fresh id
    ([chatcmpl-] or [cmpl-] and eight hexadecimal digits), the object kind
    of its endpoint, the reading of the clock, the model of the request
    (not one the backend names), exactly one choice, with index 0, and the
    two counters of the backend as [prompt_tokens] and
    [completion_tokens], 0 standing for a missing one. *)
Theorem returned_body_fields :
  (forall (request : ChatCompletionRequest) (w : world) (body : value),
      result (chat_completions request w) = inr (Body body) ->
      exists token r v p c,
        hex_token token /\
        at_path body [Key "id"] = Some (JStr ("chatcmpl-" +++ token)) /\
        at_path body [Key "object"] = Some (JStr "chat.completion") /\
        at_path body [Key "created"] = Some (JInt (clock w (clock_reads w))) /\
        at_path body [Key "model"] = Some (JStr (chat_model request)) /\
        at_path body [Key "choices"; Index 0; Key "index"] = Some (JInt 0) /\
        at_path body [Key "choices"; Index 0; Key "message"; Key "role"]
        = Some (JStr "assistant") /\
        at_path body [Key "choices"; Index 1] = None /\
        backend w (List.length (sent w)) = Replied r /\
        json_of r = inr v /\
        py_get v "prompt_eval_count" (JInt 0) = inr p /\
        py_get v "eval_count" (JInt 0) = inr c /\
        at_path body [Key "usage"; Key "prompt_tokens"] = Some p /\
        at_path body [Key "usage"; Key "completion_tokens"] = Some c) /\
  (forall (request : CompletionRequest) (w : world) (body : value),
      result (completions request w) = inr (Body body) ->
      exists token r v p c,
        hex_token token /\
        at_path body [Key "id"] = Some (JStr ("cmpl-" +++ token)) /\
        at_path body [Key "object"] = Some (JStr "text_completion") /\
        at_path body [Key "created"] = Some (JInt (clock w (clock_reads w))) /\
        at_path body [Key "model"] = Some (JStr (cmpl_model request)) /\
        at_path body [Key "choices"; Index 0; Key "index"] = Some (JInt 0) /\
        at_path body [Key "choices"; Index 1] = None /\
        backend w (List.length (sent w)) = Replied r /\
        json_of r = inr v /\
        py_get v "prompt_eval_count" (JInt 0) = inr p /\
        py_get v "eval_count" (JInt 0) = inr c /\
        at_path body [Key "usage"; Key "prompt_tokens"] = Some p /\
        at_path body [Key "usage"; Key "completion_tokens"] = Some c).
Proof.
  split.
  - intros request w body H.
    destruct (chat_completions_returned _ _ _ H)
      as (r & v & message & text & p & c & total
          & H1 & H2 & H3 & H4 & H5 & H6 & H7 & ->).
    exists (slice_to 8 (hex_digits 32 (uuid4_int (entropy w (uuid_calls w))))),
      r, v, p, c.
    split; [apply slice_to_8_hex |].
    repeat split; assumption || reflexivity.
  - intros request w body H.
    destruct (completions_returned _ _ _ H)
      as (r & v & text & p & c & total & H1 & H2 & H3 & H4 & H5 & H6 & ->).
    exists (slice_to 8 (hex_digits 32 (uuid4_int (entropy w (uuid_calls w))))),
      r, v, p, c.
    split; [apply slice_to_8_hex |].
    repeat split; assumption || reflexivity.
Qed.

(** ** The request translator *)

Lemma chat_ollama_request_shape (request : ChatCompletionRequest) :
  exists options,
    chat_ollama_request request
    = JDict [("model", JStr (chat_model request));
             ("messages",
              JList (map (fun msg => JDict [("role", JStr (role msg));
                                            ("content", JStr (content msg))])
                         (chat_messages request)));
             ("stream", JBool (chat_stream request));
             ("options", JDict options)] /\
    map fst options
    = if optional_int_bool (chat_max_tokens request)
      then ["temperature"; "num_predict"] else ["temperature"].
Proof.
  unfold chat_ollama_request, with_num_predict.
  destruct (optional_int_bool (chat_max_tokens request)) eqn:Hb.
  - destruct (chat_max_tokens request) as [n |]; [| discriminate].
    eexists. split; reflexivity.
  - eexists. split; reflexivity.
Qed.

(** X9: the translated chat request holds exactly the keys [model],
    [messages], [stream] and [options], in that order; [messages] are the
    messages of the request in their order, each as an object with its
    [role] and its [content], and an empty list stays empty; [options]
    holds [temperature], followed by [num_predict] when [max_tokens] is
    truthy, and nothing else. *)
Theorem request_carries_messages :
  forall request : ChatCompletionRequest,
    let r := chat_ollama_request request in
    (exists d, r = JDict d /\ map fst d = ["model"; "messages"; "stream"; "options"]) /\
    at_path r [Key "model"] = Some (JStr (chat_model request)) /\
    (exists translated,
        at_path r [Key "messages"] = Some (JList translated) /\
        List.length translated = List.length (chat_messages request)) /\
    (forall (i : nat) (msg : Message),
        nth_error (chat_messages request) i = Some msg ->
        at_path r [Key "messages"; Index i]
        = Some (JDict [("role", JStr (role msg)); ("content", JStr (content msg))])) /\
    (forall i : nat,
        nth_error (chat_messages request) i = None ->
        at_path r [Key "messages"; Index i] = None) /\
    (exists options,
        at_path r [Key "options"] = Some (JDict options) /\
        map fst options
        = if optional_int_bool (chat_max_tokens request)
          then ["temperature"; "num_predict"] else ["temperature"]).
Proof.
  intros request r.
  destruct (chat_ollama_request_shape request) as (options & Hr & Hoptions).
  subst r. rewrite Hr. repeat split.
  - eexists. split; reflexivity.
  - eexists. split; [reflexivity |]. apply length_map.
  - intros i msg Hi. cbn [at_path dict_get String.eqb Ascii.eqb Bool.eqb].
    rewrite nth_error_map, Hi. reflexivity.
  - intros i Hi. cbn [at_path dict_get String.eqb Ascii.eqb Bool.eqb].
    rewrite nth_error_map, Hi. reflexivity.
  - exists options. split; [reflexivity | exact Hoptions].
Qed.

(** ** Lines of a stream that are not chunks *)

Lemma for_each_app {A} (xs ys : list A) (body : A -> prog unit) :
  forall w,
    for_each (xs ++ ys) body w
    = bind (for_each xs body) (fun _ => for_each ys body) w.
Proof.
  induction xs as [| x xs IH]; intros w.
  - simpl app. change (for_each [] body) with (@ret _ unit tt).
    rewrite (bind_quiet (ret tt) (fun _ => for_each ys body) w w tt eq_refl).
    reflexivity.
  - simpl app. cbn [for_each]. unfold bind.
    destruct (body x w) as [ys0 [e | u] w']; [reflexivity |].
    rewrite IH. unfold bind.
    destruct (for_each xs body w') as [ys1 [e | u'] w'']; [reflexivity |].
    destruct (for_each ys body w'') as [ys2 res w3].
    rewrite app_assoc. reflexivity.
Qed.

(** X10: a line that is valid JSON but no object is not dropped like a
    malformed one.  In the chat stream a number, a boolean or null raises
    a [TypeError], a string or an array that does not hold "message" is
    passed over without a frame, and one that holds it raises a
    [TypeError]; in the completion stream every such line raises an
    [AttributeError].  No frame is yielded for the line. *)
Theorem non_object_line :
  (forall (request_id : string) (ollama_request v : value) (line : string)
          (w : world),
      json_loads line = Some v ->
      is_scalar v = true ->
      chat_line request_id ollama_request line w
      = Run [] (inl (TypeError ("argument of type '" +++ type_name v
                                +++ "' is not iterable"))) w) /\
  (forall (request_id : string) (ollama_request v : value) (line : string)
          (w : world),
      json_loads line = Some v ->
      is_scalar v = false ->
      is_object v = false ->
      chat_line request_id ollama_request line w
      = match py_contains "message" v with
        | inr true =>
            Run [] (inl (TypeError
                           (match v with
                            | JStr _ => "string indices must be integers, not 'str'"
                            | _ => "list indices must be integers or slices, not str"
                            end))) w
        | _ => Run [] (inr tt) w
        end) /\
  (forall (request_id : string) (ollama_request v : value) (line : string)
          (w : world),
      json_loads line = Some v ->
      is_object v = false ->
      completion_line request_id ollama_request line w
      = Run [] (inl (AttributeError ("'" +++ type_name v
                                     +++ "' object has no attribute 'get'"))) w).
Proof.
  split; [| split].
  - intros request_id ollama_request v line w Hline Hv.
    unfold chat_line. rewrite (parsed_line_not_empty _ _ Hline).
    unfold try_except, chat_chunk, loads. rewrite Hline.
    unfold bind at 1. cbn [ret].
    destruct v; try discriminate; reflexivity.
  - intros request_id ollama_request v line w Hline Hv Hobj.
    unfold chat_line. rewrite (parsed_line_not_empty _ _ Hline).
    unfold try_except, chat_chunk, loads. rewrite Hline.
    unfold bind at 1. cbn [ret].
    destruct v; try discriminate.
    + cbn [py_contains]. destruct (is_substring "message" s); reflexivity.
    + cbn [py_contains]. destruct (existsb (is_str "message") l); reflexivity.
  - intros request_id ollama_request v line w Hline Hobj.
    unfold completion_line. rewrite (parsed_line_not_empty _ _ Hline).
    unfold try_except, completion_chunk, loads. rewrite Hline.
    unfold bind at 1. cbn [ret].
    destruct v; try discriminate; reflexivity.
Qed.

Ltac raised reached e :=
  subst reached; intros _; unfold bind, lift, raise, ret; destruct e;
  reflexivity.

(** A line on which a translator raises has yielded nothing: whatever
    can raise in the body of the [try] is evaluated before its first
    [yield], and what follows a [yield] has succeeded once already. *)
Lemma chat_line_raises_quiet (request_id : string) (ollama_request : value)
    (line : string) (w : world) (e : exn) :
  result (chat_line request_id ollama_request line w) = inl e ->
  yielded (chat_line request_id ollama_request line w) = [].
Proof.
  remember (chat_line request_id ollama_request line w) as reached eqn:R.
  unfold chat_line in R.
  destruct (negb (String.eqb line "")); [| subst reached; reflexivity].
  unfold try_except, chat_chunk, loads in R.
  destruct (json_loads line) as [v |]; [| subst reached; reflexivity].
  unfold bind at 1 in R. cbn [ret] in R.
  destruct (py_contains "message" v) as [e0 | [|]] eqn:Hin;
    [raised reached e0 | | subst reached; reflexivity].
  unfold bind at 1 in R. cbn [lift ret] in R.
  destruct (py_getitem v "message") as [e0 | message] eqn:Hmsg;
    [raised reached e0 |].
  unfold bind at 1 in R. cbn [lift ret] in R.
  destruct (py_get message "content" (JStr "")) as [e0 | text];
    [raised reached e0 |].
  destruct v as [| | | | | | d]; try discriminate Hmsg.
  rewrite py_get_dict in R.
  unfold bind, lift, ret, yield, int_time in R.
  destruct (py_getitem ollama_request "model") as [e0 | model].
  - destruct (py_bool text); [raised reached e0 |].
    destruct (py_bool (get_or "done" (JBool false) d));
      [raised reached e0 | subst reached; discriminate].
  - destruct (py_bool text), (py_bool (get_or "done" (JBool false) d));
      subst reached; discriminate.
Qed.

Lemma completion_line_raises_quiet (request_id : string)
    (ollama_request : value) (line : string) (w : world) (e : exn) :
  result (completion_line request_id ollama_request line w) = inl e ->
  yielded (completion_line request_id ollama_request line w) = [].
Proof.
  remember (completion_line request_id ollama_request line w) as reached eqn:R.
  unfold completion_line in R.
  destruct (negb (String.eqb line "")); [| subst reached; reflexivity].
  unfold try_except, completion_chunk, loads in R.
  destruct (json_loads line) as [v |]; [| subst reached; reflexivity].
  unfold bind at 1 in R. cbn [ret] in R.
  destruct (py_get v "response" (JStr "")) as [e0 | text] eqn:Htext;
    [raised reached e0 |].
  destruct v as [| | | | | | d]; try discriminate Htext.
  rewrite py_get_dict in R.
  unfold bind, lift, ret, yield, int_time in R.
  destruct (py_getitem ollama_request "model") as [e0 | model].
  - destruct (py_bool text); [raised reached e0 |].
    destruct (py_bool (get_or "done" (JBool false) d));
      subst reached; discriminate.
  - destruct (py_bool text), (py_bool (get_or "done" (JBool false) d));
      subst reached; discriminate.
Qed.

(** The loop of a stream up to a line that raises. *)
Lemma for_each_raises_at (body : string -> prog unit)
    (before later : list string) (line : string) (e : exn) (w : world) :
  result (for_each before body w) = inr tt ->
  result (body line (after (for_each before body w))) = inl e ->
  yielded (body line (after (for_each before body w))) = [] ->
  for_each (before ++ line :: later) body w
  = Run (yielded (for_each before body w)) (inl e)
      (after (body line (after (for_each before body w)))).
Proof.
  intros Hbefore Hline Hquiet.
  rewrite for_each_app. unfold bind at 1.
  destruct (for_each before body w) as [ys [e0 | []] w'];
    simpl in Hbefore; [discriminate |].
  simpl in Hline, Hquiet. cbn [after yielded]. rewrite for_each_cons. unfold bind.
  destruct (body line w') as [ys' [e1 | u] w'']; simpl in *; [| discriminate].
  subst ys'. rewrite app_nil_r. congruence.
Qed.

(** X11: a line on which the translator raises ends the stream.  The
    generator has yielded the frames of the lines before it and nothing
    for the line itself; it raises the exception of the line, which only
    a [JSONDecodeError] would not be, and the lines after it are not
    translated: no later frame, no terminal chunk and no [data: [DONE]]
    follows, and the end of the transport is not reached. *)
Theorem raising_line_ends_stream :
  (forall (client : AsyncClient) (ollama_request : value) (w : world)
          (r : response) (before later : list string) (line : string)
          (e : exn),
      is_closed client = false ->
      backend w (List.length (sent w)) = Replied r ->
      lines_of r = before ++ line :: later ->
      let body := chat_line (minted "chatcmpl-" w) ollama_request in
      let head := for_each before body (opened "/api/chat" ollama_request w) in
      result head = inr tt ->
      result (body line (after head)) = inl e ->
      stream_chat_response client ollama_request w
      = Run (yielded head) (inl e) (after (body line (after head))) /\
      is_JSONDecodeError e = false) /\
  (forall (client : AsyncClient) (ollama_request : value) (w : world)
          (r : response) (before later : list string) (line : string)
          (e : exn),
      is_closed client = false ->
      backend w (List.length (sent w)) = Replied r ->
      lines_of r = before ++ line :: later ->
      let body := completion_line (minted "cmpl-" w) ollama_request in
      let head := for_each before body
                    (opened "/api/generate" ollama_request w) in
      result head = inr tt ->
      result (body line (after head)) = inl e ->
      stream_completion_response client ollama_request w
      = Run (yielded head) (inl e) (after (body line (after head))) /\
      is_JSONDecodeError e = false).
Proof.
  split.
  - intros client ollama_request w r before later line e Hopen Hreply Hlines
           body head Hhead Hline.
    split.
    + rewrite (stream_chat_opened _ _ _ _ Hopen Hreply), Hlines.
      fold body.
      pose proof (for_each_raises_at body before later line e _ Hhead Hline
                    (chat_line_raises_quiet _ _ _ _ _ Hline)) as R.
      fold head in R. unfold bind. rewrite R. reflexivity.
    + revert Hline. unfold body, chat_line.
      destruct (negb (String.eqb line "")); [| discriminate].
      unfold try_except.
      destruct (chat_chunk (minted "chatcmpl-" w) ollama_request line
                  (after head)) as [ys [e0 | u] w'];
        [| discriminate].
      destruct (is_JSONDecodeError e0) eqn:Hcaught; [discriminate |].
      intros H. injection H as <-. exact Hcaught.
  - intros client ollama_request w r before later line e Hopen Hreply Hlines
           body head Hhead Hline.
    split.
    + rewrite (stream_completion_opened _ _ _ _ Hopen Hreply), Hlines.
      fold body.
      pose proof (for_each_raises_at body before later line e _ Hhead Hline
                    (completion_line_raises_quiet _ _ _ _ _ Hline)) as R.
      fold head in R. unfold bind. rewrite R. reflexivity.
    + revert Hline. unfold body, completion_line.
      destruct (negb (String.eqb line "")); [| discriminate].
      unfold try_except.
      destruct (completion_chunk (minted "cmpl-" w) ollama_request line
                  (after head)) as [ys [e0 | u] w'];
        [| discriminate].
      destruct (is_JSONDecodeError e0) eqn:Hcaught; [discriminate |].
      intros H. injection H as <-. exact Hcaught.
Qed.

(** ** Chunks of a stream *)

Lemma completion_line_run (request_id : string) (ollama_request model : value)
    (line : string) (d : list (string * value)) (w : world) :
  json_loads line = Some (JDict d) ->
  py_getitem ollama_request "model" = inr model ->
  let text := get_or "response" (JStr "") d in
  let done := get_or "done" (JBool false) d in
  completion_line request_id ollama_request line w =
  Run ((if py_bool text
        then [sse (json_dumps (completion_text_chunk request_id
                                 (clock w (clock_reads w)) model text))]
        else []) ++
       (if py_bool done then [DONE_frame] else []))
      (inr tt)
      (if py_bool text then ticked w else w).
Proof.
  intros Hline Hmodel text done.
  unfold completion_line. rewrite (parsed_line_not_empty _ _ Hline).
  unfold try_except, completion_chunk, loads. rewrite Hline.
  unfold bind at 1. cbn [ret].
  rewrite !py_get_dict, Hmodel. fold text. fold done.
  unfold bind, lift, ret, yield, int_time.
  destruct (py_bool text), (py_bool done); reflexivity.
Qed.

(** X12: a chunk without the key the translator reads is passed over in
    silence.  The chat stream yields nothing for an object without
    [message], whatever else it holds, [done] or an [error] of the
    backend; the completion stream yields nothing for an object that has
    neither [response] nor [done].  The stream goes on with the next
    line. *)
Theorem chunk_without_key_ignored :
  (forall (request_id : string) (ollama_request : value) (line : string)
          (d : list (string * value)) (w : world),
      json_loads line = Some (JDict d) ->
      dict_get "message" d = None ->
      chat_line request_id ollama_request line w = Run [] (inr tt) w) /\
  (forall (request_id : string) (ollama_request : value) (line : string)
          (d : list (string * value)) (w : world),
      json_loads line = Some (JDict d) ->
      dict_get "response" d = None ->
      dict_get "done" d = None ->
      completion_line request_id ollama_request line w = Run [] (inr tt) w).
Proof.
  split.
  - intros request_id ollama_request line d w Hline Hmissing.
    unfold chat_line. rewrite (parsed_line_not_empty _ _ Hline).
    unfold try_except, chat_chunk, loads. rewrite Hline.
    unfold bind at 1. cbn [ret].
    unfold py_contains, dict_mem. rewrite Hmissing. reflexivity.
  - intros request_id ollama_request line d w Hline Hresponse Hdone.
    unfold completion_line. rewrite (parsed_line_not_empty _ _ Hline).
    unfold try_except, completion_chunk, loads. rewrite Hline.
    unfold bind at 1. cbn [ret].
    unfold py_get. rewrite Hresponse, Hdone. reflexivity.
Qed.

(** X13: a chunk that bears content and is not done yields exactly one
    frame: the content as it came, under [delta.content] (chat) or [text]
    (completion), with a null finish reason and the time of one reading of
    the clock.  A chunk whose content is empty and that is not done yields
    nothing and does not read the clock. *)
Theorem content_chunk_frame :
  (forall (request_id : string) (ollama_request model : value) (line : string)
          (d m : list (string * value)) (w : world),
      json_loads line = Some (JDict d) ->
      dict_get "message" d = Some (JDict m) ->
      py_getitem ollama_request "model" = inr model ->
      py_bool (get_or "done" (JBool false) d) = false ->
      let text := get_or "content" (JStr "") m in
      let chunk := chat_content_chunk request_id (clock w (clock_reads w))
                     model text in
      at_path chunk [Key "choices"; Index 0; Key "delta"; Key "content"]
      = Some text /\
      at_path chunk [Key "choices"; Index 0; Key "finish_reason"] = Some JNull /\
      chat_line request_id ollama_request line w
      = if py_bool text
        then Run [sse (json_dumps chunk)] (inr tt) (ticked w)
        else Run [] (inr tt) w) /\
  (forall (request_id : string) (ollama_request model : value) (line : string)
          (d : list (string * value)) (w : world),
      json_loads line = Some (JDict d) ->
      py_getitem ollama_request "model" = inr model ->
      py_bool (get_or "done" (JBool false) d) = false ->
      let text := get_or "response" (JStr "") d in
      let chunk := completion_text_chunk request_id (clock w (clock_reads w))
                     model text in
      at_path chunk [Key "choices"; Index 0; Key "text"] = Some text /\
      at_path chunk [Key "choices"; Index 0; Key "finish_reason"] = Some JNull /\
      completion_line request_id ollama_request line w
      = if py_bool text
        then Run [sse (json_dumps chunk)] (inr tt) (ticked w)
        else Run [] (inr tt) w).
Proof.
  split.
  - intros request_id ollama_request model line d m w Hline Hmsg Hmodel Hdone
           text chunk.
    split; [reflexivity |]. split; [reflexivity |].
    rewrite (chat_line_run _ _ _ _ _ _ _ Hline Hmsg Hmodel), Hdone.
    fold text. destruct (py_bool text); reflexivity.
  - intros request_id ollama_request model line d w Hline Hmodel Hdone
           text chunk.
    split; [reflexivity |]. split; [reflexivity |].
    rewrite (completion_line_run _ _ _ _ _ _ Hline Hmodel), Hdone.
    fold text. destruct (py_bool text); reflexivity.
Qed.

(** X14: a chat chunk whose [message] is not an object raises an
    [AttributeError] and yields nothing, not even the terminal frames of a
    chunk that is done. *)
Theorem message_not_object_raises :
  forall (request_id : string) (ollama_request message : value) (line : string)
         (d : list (string * value)) (w : world),
    json_loads line = Some (JDict d) ->
    dict_get "message" d = Some message ->
    is_object message = false ->
    chat_line request_id ollama_request line w
    = Run [] (inl (AttributeError ("'" +++ type_name message
                                   +++ "' object has no attribute 'get'"))) w.
Proof.
  intros request_id ollama_request message line d w Hline Hmsg Hobj.
  unfold chat_line. rewrite (parsed_line_not_empty _ _ Hline).
  unfold try_except, chat_chunk, loads. rewrite Hline.
  unfold bind at 1. cbn [ret].
  rewrite (py_contains_dict _ _ _ Hmsg).
  unfold bind at 1. cbn [lift ret].
  rewrite (py_getitem_dict _ _ _ Hmsg).
  unfold bind at 1. cbn [lift ret].
  destruct message; try discriminate; reflexivity.
Qed.

(** X15: a chunk that is done does not end the stream: the translator
    returns from it as from any other chunk, and the lines after it are
    translated and their frames follow the frame [data: [DONE]]. *)
Theorem stream_goes_on_after_done :
  (forall (request_id : string) (ollama_request model : value) (line : string)
          (later : list string) (d m : list (string * value)) (w : world),
      json_loads line = Some (JDict d) ->
      dict_get "message" d = Some (JDict m) ->
      dict_get "done" d = Some (JBool true) ->
      py_getitem ollama_request "model" = inr model ->
      let body := chat_line request_id ollama_request in
      let rest := for_each later body (after (body line w)) in
      result (body line w) = inr tt /\
      (exists frames, yielded (body line w) = frames ++ [DONE_frame]) /\
      for_each (line :: later) body w
      = Run (yielded (body line w) ++ yielded rest) (result rest) (after rest)) /\
  (forall (request_id : string) (ollama_request model : value) (line : string)
          (later : list string) (d : list (string * value)) (w : world),
      json_loads line = Some (JDict d) ->
      dict_get "done" d = Some (JBool true) ->
      py_getitem ollama_request "model" = inr model ->
      let body := completion_line request_id ollama_request in
      let rest := for_each later body (after (body line w)) in
      result (body line w) = inr tt /\
      (exists frames, yielded (body line w) = frames ++ [DONE_frame]) /\
      for_each (line :: later) body w
      = Run (yielded (body line w) ++ yielded rest) (result rest) (after rest)).
Proof.
  split.
  - intros request_id ollama_request model line later d m w Hline Hmsg Hdone
           Hmodel body rest.
    pose proof (chat_line_run request_id _ _ _ _ _ w Hline Hmsg Hmodel) as R.
    rewrite (get_or_found _ _ _ _ Hdone) in R. cbn [py_bool] in R.
    subst rest body. rewrite for_each_cons.
    rewrite (bind_returns _ _ _ _ _ _ R). rewrite R. cbn [result yielded after].
    split; [reflexivity |]. split; [| reflexivity].
    destruct (py_bool (get_or "content" (JStr "") m)).
    + eexists [_; _]. reflexivity.
    + eexists [_]. reflexivity.
  - intros request_id ollama_request model line later d w Hline Hdone Hmodel
           body rest.
    pose proof (completion_line_run request_id _ _ _ _ w Hline Hmodel) as R.
    rewrite (get_or_found _ _ _ _ Hdone) in R. cbn [py_bool] in R.
    subst rest body. rewrite for_each_cons.
    rewrite (bind_returns _ _ _ _ _ _ R). rewrite R. cbn [result yielded after].
    split; [reflexivity |]. split; [| reflexivity].
    destruct (py_bool (get_or "response" (JStr "") d)).
    + eexists [_]. reflexivity.
    + exists []. reflexivity.
Qed.

(** ** A whole stream, when something fails *)

Lemma stream_result (m : prog unit) (r : response) (w : world) :
  result (m w) = inr tt ->
  result (bind m (fun _ => end_of_lines r) w)
  = match lines_end r with
    | Some e => inl e
    | None => inr tt
    end.
Proof.
  intros H. unfold bind, end_of_lines.
  destruct (m w) as [ys [e | []] w']; simpl in H; [discriminate |].
  destruct (lines_end r); reflexivity.
Qed.

(** X16: how a stream on an open client fails.  When the backend cannot be
    reached the generator yields nothing and raises the error of the
    transport.  When the transport fails after some lines, the frames of
    those lines have been yielded and the error is raised after them; no
    terminal frame is added. *)
Theorem stream_transport_failure :
  (forall (client : AsyncClient) (ollama_request : value) (w : world) (e : exn),
      is_closed client = false ->
      backend w (List.length (sent w)) = Unreachable e ->
      yielded (stream_chat_response client ollama_request w) = [] /\
      result (stream_chat_response client ollama_request w) = inl e /\
      yielded (stream_completion_response client ollama_request w) = [] /\
      result (stream_completion_response client ollama_request w) = inl e) /\
  (forall (client : AsyncClient) (ollama_request : value) (w : world)
          (r : response) (e : exn),
      is_closed client = false ->
      backend w (List.length (sent w)) = Replied r ->
      lines_end r = Some e ->
      let lines := for_each (lines_of r)
                     (chat_line (minted "chatcmpl-" w) ollama_request)
                     (opened "/api/chat" ollama_request w) in
      result lines = inr tt ->
      yielded (stream_chat_response client ollama_request w) = yielded lines /\
      result (stream_chat_response client ollama_request w) = inl e) /\
  (forall (client : AsyncClient) (ollama_request : value) (w : world)
          (r : response) (e : exn),
      is_closed client = false ->
      backend w (List.length (sent w)) = Replied r ->
      lines_end r = Some e ->
      let lines := for_each (lines_of r)
                     (completion_line (minted "cmpl-" w) ollama_request)
                     (opened "/api/generate" ollama_request w) in
      result lines = inr tt ->
      yielded (stream_completion_response client ollama_request w)
      = yielded lines /\
      result (stream_completion_response client ollama_request w) = inl e).
Proof.
  split; [| split].
  - intros client ollama_request w e Hopen H.
    rewrite (stream_chat_unreachable _ _ _ _ Hopen H).
    rewrite (stream_completion_unreachable _ _ _ _ Hopen H).
    repeat split; reflexivity.
  - intros client ollama_request w r e Hopen H Hend lines Hlines.
    rewrite (stream_chat_opened _ _ _ _ Hopen H). fold lines. split.
    + apply yielded_before_end.
    + rewrite (stream_result _ _ _ Hlines), Hend. reflexivity.
  - intros client ollama_request w r e Hopen H Hend lines Hlines.
    rewrite (stream_completion_opened _ _ _ _ Hopen H). fold lines. split.
    + apply yielded_before_end.
    + rewrite (stream_result _ _ _ Hlines), Hend. reflexivity.
Qed.

(** X17: the generator a streaming handler returns holds the client of the
    handler, closed by the time the generator starts: in any world it
    mints its id, sends nothing to the backend, yields no frame and raises
    the error of the closed client.  The media type of the response is
    [text/event-stream]. *)
Theorem streaming_generator_is_closed :
  (forall (request : ChatCompletionRequest) (w : world),
      chat_stream request = true ->
      exists generator,
        chat_completions request w
        = Run [] (inr (StreamingResponse generator "text/event-stream")) w /\
        forall w',
          yielded (generator w') = [] /\
          result (generator w') = inl client_closed_error /\
          sent (after (generator w')) = sent w' /\
          uuid_calls (after (generator w')) = S (uuid_calls w')) /\
  (forall (request : CompletionRequest) (w : world),
      cmpl_stream request = true ->
      exists generator,
        completions request w
        = Run [] (inr (StreamingResponse generator "text/event-stream")) w /\
        forall w',
          yielded (generator w') = [] /\
          result (generator w') = inl client_closed_error /\
          sent (after (generator w')) = sent w' /\
          uuid_calls (after (generator w')) = S (uuid_calls w')).
Proof.
  split.
  - intros request w Hs. unfold chat_completions. rewrite Hs.
    eexists. split; [reflexivity |]. intros w'.
    rewrite (stream_chat_closed (aclose open_client) _ w' eq_refl).
    repeat split; reflexivity.
  - intros request w Hs. unfold completions. rewrite Hs.
    eexists. split; [reflexivity |]. intros w'.
    rewrite (stream_completion_closed (aclose open_client) _ w' eq_refl).
    repeat split; reflexivity.
Qed.

(** ** What a stream sends *)

Lemma sends_nothing_ret {A} (a : A) : sends_nothing (ret a).
Proof. intros w. reflexivity. Qed.

Lemma sends_nothing_raise {A} (e : exn) : sends_nothing (@raise _ A e).
Proof. intros w. reflexivity. Qed.

Lemma sends_nothing_lift {A} (x : exn + A) : sends_nothing (lift x).
Proof. destruct x; [apply sends_nothing_raise | apply sends_nothing_ret]. Qed.

Lemma sends_nothing_int_time : sends_nothing int_time.
Proof. intros w. reflexivity. Qed.

Lemma sends_nothing_yield (s : string) : sends_nothing (yield s).
Proof. intros w. reflexivity. Qed.

Lemma sends_nothing_bind {A B} (m : prog A) (k : A -> prog B) :
  sends_nothing m -> (forall a, sends_nothing (k a)) -> sends_nothing (bind m k).
Proof.
  intros Hm Hk w. unfold bind. specialize (Hm w).
  destruct (m w) as [ys [e | a] w']; simpl in *; [exact Hm |].
  specialize (Hk a w'). destruct (k a w'); simpl in *. congruence.
Qed.

Lemma sends_nothing_try_except {A} (m : prog A) (catches : exn -> bool)
    (handler : exn -> prog A) :
  sends_nothing m -> (forall e, sends_nothing (handler e)) ->
  sends_nothing (try_except m catches handler).
Proof.
  intros Hm Hh w. unfold try_except. specialize (Hm w).
  destruct (m w) as [ys [e | a] w']; simpl in *; [| exact Hm].
  destruct (catches e); simpl; [| exact Hm].
  specialize (Hh e w'). destruct (handler e w'); simpl in *. congruence.
Qed.

Lemma sends_nothing_for_each {A} (xs : list A) (body : A -> prog unit) :
  (forall x, sends_nothing (body x)) -> sends_nothing (for_each xs body).
Proof.
  intros Hb. induction xs as [| x xs IH]; simpl.
  - apply sends_nothing_ret.
  - apply sends_nothing_bind; [apply Hb | intros _; exact IH].
Qed.

Ltac walk_sends :=
  repeat first
    [ apply sends_nothing_ret | apply sends_nothing_raise
    | apply sends_nothing_lift | apply sends_nothing_int_time
    | apply sends_nothing_yield
    | apply sends_nothing_bind; [| intros ?]
    | match goal with
      | |- context [if ?b then _ else _] => destruct b
      | |- context [match ?x with Some _ => _ | None => _ end] => destruct x
      end ].

Lemma chat_line_sends_nothing (request_id : string) (ollama_request : value)
    (line : string) :
  sends_nothing (chat_line request_id ollama_request line).
Proof.
  unfold chat_line.
  destruct (negb (String.eqb line "")); [| apply sends_nothing_ret].
  apply sends_nothing_try_except; [| intros e; apply sends_nothing_ret].
  unfold chat_chunk, loads. walk_sends.
Qed.

Lemma completion_line_sends_nothing (request_id : string)
    (ollama_request : value) (line : string) :
  sends_nothing (completion_line request_id ollama_request line).
Proof.
  unfold completion_line.
  destruct (negb (String.eqb line "")); [| apply sends_nothing_ret].
  apply sends_nothing_try_except; [| intros e; apply sends_nothing_ret].
  unfold completion_chunk, loads. walk_sends.
Qed.

Lemma sends_nothing_end_of_lines (r : response) : sends_nothing (end_of_lines r).
Proof.
  unfold end_of_lines.
  destruct (lines_end r); [apply sends_nothing_raise | apply sends_nothing_ret].
Qed.

Lemma opened_sent (path : string) (body : value) (w : world) :
  sent (opened path body w) = sent w ++ [stream_post_of w path body].
Proof.
  unfold opened, client_stream, client_request, uuid4_hex, drawn.
  cbn [after backend sent is_closed open_client].
  destruct (backend w (List.length (sent w))); reflexivity.
Qed.

(** X18: a stream on an open client sends the backend exactly one request,
    whatever the backend answers and whatever the lines hold: a POST to
    [/api/chat] (chat) or [/api/generate] (completion) on [OLLAMA_HOST],
    with the request it was given as JSON body.  No line is ever answered
    with a second request. *)
Theorem stream_sends_one_request :
  forall (client : AsyncClient) (ollama_request : value) (w : world),
    is_closed client = false ->
    sent (after (stream_chat_response client ollama_request w))
    = sent w ++ [{| sent_method := "POST";
                    sent_url := OLLAMA_HOST w +++ "/api/chat";
                    sent_json := Some ollama_request |}] /\
    sent (after (stream_completion_response client ollama_request w))
    = sent w ++ [{| sent_method := "POST";
                    sent_url := OLLAMA_HOST w +++ "/api/generate";
                    sent_json := Some ollama_request |}].
Proof.
  intros client ollama_request w Hopen.
  destruct (backend w (List.length (sent w))) as [e | r] eqn:E.
  - rewrite (stream_chat_unreachable _ _ _ _ Hopen E).
    rewrite (stream_completion_unreachable _ _ _ _ Hopen E).
    split; apply opened_sent.
  - rewrite (stream_chat_opened _ _ _ _ Hopen E).
    rewrite (stream_completion_opened _ _ _ _ Hopen E).
    split.
    + rewrite (sends_nothing_bind _ _
                 (sends_nothing_for_each _ _ (chat_line_sends_nothing _ _))
                 (fun _ => sends_nothing_end_of_lines r)).
      apply opened_sent.
    + rewrite (sends_nothing_bind _ _
                 (sends_nothing_for_each _ _ (completion_line_sends_nothing _ _))
                 (fun _ => sends_nothing_end_of_lines r)).
      apply opened_sent.
Qed.

(** ** A stream that is never done *)

Lemma for_each_emits_on (P : string -> Prop) (lines : list string)
    (body : string -> prog unit) :
  (forall line, In line lines ->
                forall w, Forall P (yielded (body line w)) /\
                          result (body line w) = inr tt) ->
  forall w, Forall P (yielded (for_each lines body w)) /\
            result (for_each lines body w) = inr tt.
Proof.
  induction lines as [| line rest IH]; intros Hbody w.
  - split; [constructor | reflexivity].
  - rewrite for_each_cons. unfold bind.
    destruct (Hbody line (or_introl eq_refl) w) as [Hy Hr].
    destruct (body line w) as [ys [e | []] w']; simpl in *; [discriminate |].
    destruct (IH (fun l Hl => Hbody l (or_intror Hl)) w') as [Hy' Hr'].
    destruct (for_each rest body w') as [ys' r' w'']; simpl in *.
    split; [apply Forall_app; split; assumption | exact Hr'].
Qed.

(** X19: when no chunk of the backend is done, as when the backend closes
    the connection early, the stream ends without any terminal frame: it
    returns normally, and every frame it has yielded is a content chunk
    with a null finish reason.  Nothing is added after the last line. *)
Theorem stream_without_done :
  (forall (request_id : string) (ollama_request model : value)
          (lines : list string) (w : world),
      py_getitem ollama_request "model" = inr model ->
      (forall line, In line lines ->
         exists d m, json_loads line = Some (JDict d) /\
                     dict_get "message" d = Some (JDict m) /\
                     py_bool (get_or "done" (JBool false) d) = false) ->
      let out := for_each lines (chat_line request_id ollama_request) w in
      result out = inr tt /\
      Forall (fun frame =>
                exists chunk,
                  frame = sse (json_dumps chunk) /\
                  at_path chunk [Key "choices"; Index 0; Key "finish_reason"]
                  = Some JNull)
             (yielded out)) /\
  (forall (request_id : string) (ollama_request model : value)
          (lines : list string) (w : world),
      py_getitem ollama_request "model" = inr model ->
      (forall line, In line lines ->
         exists d, json_loads line = Some (JDict d) /\
                   py_bool (get_or "done" (JBool false) d) = false) ->
      let out := for_each lines (completion_line request_id ollama_request) w in
      result out = inr tt /\
      Forall (fun frame =>
                exists chunk,
                  frame = sse (json_dumps chunk) /\
                  at_path chunk [Key "choices"; Index 0; Key "finish_reason"]
                  = Some JNull)
             (yielded out)).
Proof.
  split.
  - intros request_id ollama_request model lines w Hmodel Hlines out.
    subst out. apply and_comm. apply for_each_emits_on.
    intros line Hin w'. destruct (Hlines line Hin) as (d & m & Hline & Hmsg & Hdone).
    rewrite (chat_line_run _ _ _ _ _ _ _ Hline Hmsg Hmodel), Hdone.
    destruct (py_bool (get_or "content" (JStr "") m)); simpl.
    + split; [| reflexivity]. constructor; [| constructor].
      eexists. split; reflexivity.
    + split; [constructor | reflexivity].
  - intros request_id ollama_request model lines w Hmodel Hlines out.
    subst out. apply and_comm. apply for_each_emits_on.
    intros line Hin w'. destruct (Hlines line Hin) as (d & Hline & Hdone).
    rewrite (completion_line_run _ _ _ _ _ _ Hline Hmodel), Hdone.
    destruct (py_bool (get_or "response" (JStr "") d)); simpl.
    + split; [| reflexivity]. constructor; [| constructor].
      eexists. split; reflexivity.
    + split; [constructor | reflexivity].
Qed.

(** ** The clock of GET /v1/models *)

Lemma clock_reads_ticked_by (n : nat) :
  forall w, clock_reads (ticked_by n w) = (clock_reads w + n)%nat.
Proof.
  induction n as [| n IH]; intros w; simpl.
  - lia.
  - rewrite IH. simpl. lia.
Qed.

Lemma entries_of_nth (clock : nat -> Z) (names : list value) :
  forall (k i : nat) (name : value),
    nth_error names i = Some name ->
    nth_error (entries_of clock k names) i = Some (entry_of name (clock (k + i)%nat)).
Proof.
  induction names as [| n names IH]; intros k [| i] name H; simpl in *;
    try discriminate.
  - injection H as <-. rewrite Nat.add_0_r. reflexivity.
  - rewrite (IH (S k) i name H). f_equal. f_equal. f_equal. lia.
Qed.

(** X20: [GET /v1/models] reads the clock once for each model, in the
    order of the list: with [n] models the clock is read [n] times, and
    the [created] of the entry at position [i] is the reading number [i]
    after those made before the call, so that entries of one answer can
    bear different times. *)
Theorem models_read_the_clock :
  forall (w : world) (r : response) (d : list (string * value))
         (models names : list value),
    backend w (List.length (sent w)) = Replied r ->
    status_code_of r = 200 ->
    json_of r = inr (JDict d) ->
    get_or "models" (JList []) d = JList models ->
    Forall2 (fun model name => py_getitem model "name" = inr name) models names ->
    clock_reads (after (list_models w))
    = (clock_reads w + List.length models)%nat /\
    forall (i : nat) (name : value),
      nth_error names i = Some name ->
      at_path_result (result (list_models w)) [Key "data"; Index i; Key "created"]
      = Some (JInt (clock w (clock_reads w + i)%nat)) /\
      at_path_result (result (list_models w)) [Key "data"; Index i; Key "id"]
      = Some name.
Proof.
  intros w r d models names H Hstatus Hjson Hmodels Hnames.
  rewrite (list_models_answered _ _ H Hstatus), Hjson.
  unfold try_except. rewrite bind_lift, py_get_dict, bind_lift, Hmodels.
  cbn [py_iter]. rewrite bind_lift.
  rewrite (bind_quiet _ _ _ _ _ (comprehension_model_entry _ _ Hnames _)).
  cbn [ret result after at_path_result]. split.
  - rewrite clock_reads_ticked_by. reflexivity.
  - intros i name Hi.
    cbn [at_path dict_get String.eqb Ascii.eqb Bool.eqb clock clock_reads logged].
    rewrite (entries_of_nth _ _ _ _ _ Hi). split; reflexivity.
Qed.

End Further.

(* ================================================================== *)
(** * The statements at concrete inputs *)
(* ================================================================== *)

Import Reference.
#[local] Existing Instances Reference.float64 Reference.json.

Lemma done_chunk_frames_witness :
  yielded (for_each [hi_line; done_line] (chat_line "chatcmpl-deadbeef" hello_stream)
             (world_of (lines []) start)) =
  [sse (json_dumps (chat_content_chunk "chatcmpl-deadbeef" start
                      (JStr "qwen2.5:7b") (JStr "Hi")));
   sse (json_dumps (chat_final_chunk "chatcmpl-deadbeef" (start + 1)
                      (JStr "qwen2.5:7b")));
   DONE_frame].
Proof.
  apply (proj2 (proj2 done_chunk_frames)); reflexivity.
Defined.

(** The chat stream whose only line is a chunk that is done but has no
    [message] yields neither the terminal chunk nor [data: [DONE]]; the
    completion translator yields [data: [DONE]] for the same line. *)
Lemma done_without_message_yields_nothing :
  json_loads bare_done_line = Some (JDict [("done", JBool true)]) /\
  yielded (stream_chat_response open_client hello_stream
             (world_of (lines [bare_done_line]) start)) = [] /\
  yielded (completion_line "cmpl-deadbeef"
             (completion_ollama_request hello_completion_streaming) bare_done_line
             (world_of (lines [bare_done_line]) start)) = [DONE_frame].
Proof.
  split; [reflexivity |]. split.
  - apply (proj2 done_without_message_is_dropped open_client hello_stream
             (world_of (lines [bare_done_line]) start)
             (lines_response [bare_done_line] None) [] [] bare_done_line
             [("done", JBool true)]);
      reflexivity.
  - apply (proj1 done_without_message_is_dropped "cmpl-deadbeef"
             (completion_ollama_request hello_completion_streaming) (JStr "qwen2.5:7b")
             bare_done_line [("done", JBool true)]
             (world_of (lines [bare_done_line]) start));
      reflexivity.
Defined.

Lemma health_not_200_returns_none_witness :
  result (health (world_of (answer 500 JNull) start)) = inr JNull /\
  http_status (health (world_of (answer 500 JNull) start)) = 200.
Proof.
  apply (health_not_200_returns_none (world_of (answer 500 JNull) start)
           {| status_code_of := 500; json_of := inr JNull;
              lines_of := []; lines_end := None |}).
  - reflexivity.
  - simpl. lia.
Defined.

Lemma response_translation_witness :
  exists body,
    result (chat_completions hello_request
              (world_of (answer 200 (JDict hi_answer)) start))
    = inr (Body body) /\
    at_path body [Key "choices"; Index 0; Key "message"; Key "content"]
    = Some (JStr "hi") /\
    at_path body [Key "choices"; Index 0; Key "finish_reason"]
    = Some (JStr "stop") /\
    at_path body [Key "usage"; Key "total_tokens"] = Some (JInt 8).
Proof.
  apply (proj1 (proj2 (proj2 response_translation)) hello_request
           (world_of (answer 200 (JDict hi_answer)) start)
           {| status_code_of := 200; json_of := inr (JDict hi_answer);
              lines_of := []; lines_end := None |}
           hi_answer [("content", JStr "hi")] (JStr "hi") 3 5);
    reflexivity.
Defined.

Lemma missing_field_is_500_witness :
  result (chat_completions hello_request
            (world_of (answer 200 (JDict [("error", JStr "model not found")]))
               start))
  = inl (HTTPException 500 "'message'").
Proof.
  apply (proj1 missing_field_is_500 hello_request
           (world_of (answer 200 (JDict [("error", JStr "model not found")]))
              start)
           {| status_code_of := 200;
              json_of := inr (JDict [("error", JStr "model not found")]);
              lines_of := []; lines_end := None |}
           [("error", JStr "model not found")]);
    reflexivity.
Defined.

Lemma missing_content_is_500_witness :
  result (chat_completions hello_request
            (world_of (answer 200
                         (JDict [("message", JDict [("role", JStr "assistant")])]))
               start))
  = inl (HTTPException 500 "'content'").
Proof.
  apply (missing_content_is_500 hello_request
           (world_of (answer 200
                        (JDict [("message", JDict [("role", JStr "assistant")])]))
              start)
           {| status_code_of := 200;
              json_of := inr (JDict [("message",
                                      JDict [("role", JStr "assistant")])]);
              lines_of := []; lines_end := None |}
           [("message", JDict [("role", JStr "assistant")])]
           [("role", JStr "assistant")]);
    reflexivity.
Defined.

Lemma malformed_line_dropped_witness :
  for_each ([hi_line] ++ noise_line :: [done_line])
           (chat_line "chatcmpl-deadbeef" hello_stream) (world_of (lines []) start)
  = for_each ([hi_line] ++ [done_line])
             (chat_line "chatcmpl-deadbeef" hello_stream)
             (world_of (lines []) start).
Proof.
  apply (malformed_line_dropped "chatcmpl-deadbeef" hello_stream noise_line).
  reflexivity.
Defined.

Lemma frames_follow_lines_witness :
  let w := world_of (lines [hi_line; noise_line; done_line]) start in
  yielded (stream_chat_response open_client hello_stream w)
  = List.concat (frames_per_line (chat_line (minted "chatcmpl-" w) hello_stream)
                   [hi_line; noise_line; done_line]
                   (opened "/api/chat" hello_stream w)).
Proof.
  apply (proj1 frames_follow_lines open_client hello_stream
           (world_of (lines [hi_line; noise_line; done_line]) start)
           {| status_code_of := 200; json_of := inl (JSONDecodeError "Extra data");
              lines_of := [hi_line; noise_line; done_line]; lines_end := None |});
    reflexivity.
Defined.

Lemma models_are_listed_witness :
  exists entries,
    result (list_models
              (world_of (answer 200
                           (JDict [("models",
                                    JList [JDict [("name", JStr "qwen2.5:7b")];
                                           JDict [("name", JStr "llama3:8b")]])]))
                 start))
    = inr (JDict [("object", JStr "list"); ("data", JList entries)]) /\
    Forall2 (fun name entry =>
               exists created,
                 entry = JDict [("id", name); ("object", JStr "model");
                                ("created", JInt created);
                                ("owned_by", JStr "ollama")])
            [JStr "qwen2.5:7b"; JStr "llama3:8b"] entries.
Proof.
  apply (models_are_listed
           (world_of (answer 200
                        (JDict [("models",
                                 JList [JDict [("name", JStr "qwen2.5:7b")];
                                        JDict [("name", JStr "llama3:8b")]])]))
              start)
           {| status_code_of := 200;
              json_of := inr (JDict [("models",
                                      JList [JDict [("name", JStr "qwen2.5:7b")];
                                             JDict [("name", JStr "llama3:8b")]])]);
              lines_of := []; lines_end := None |}
           [("models", JList [JDict [("name", JStr "qwen2.5:7b")];
                              JDict [("name", JStr "llama3:8b")]])]
           [JDict [("name", JStr "qwen2.5:7b")]; JDict [("name", JStr "llama3:8b")]]
           [JStr "qwen2.5:7b"; JStr "llama3:8b"]);
    try reflexivity.
  repeat constructor.
Defined.

(** ** The further properties at concrete inputs *)

Lemma health_reports_backend_witness :
  result (health (world_of (Unreachable connect_error) start))
  = inl (HTTPException 503 "Ollama not available: All connection attempts failed") /\
  http_status (health (world_of (Unreachable connect_error) start)) = 503.
Proof.
  apply (proj1 health_reports_backend (world_of (Unreachable connect_error) start)
           connect_error).
  reflexivity.
Defined.

Lemma list_models_failures_witness :
  result (list_models (world_of (Replied (json_response 503 JNull)) start))
  = inr JNull /\
  http_status (list_models (world_of (Replied (json_response 503 JNull)) start))
  = 200.
Proof.
  apply (proj2 (proj2 list_models_failures)
           (world_of (Replied (json_response 503 JNull)) start)
           (json_response 503 JNull)).
  - reflexivity.
  - simpl. lia.
Defined.

Lemma list_models_without_models_witness :
  result (list_models (world_of (Replied (json_response 200 (JDict []))) start))
  = inr (JDict [("object", JStr "list"); ("data", JList [])]) /\
  clock_reads (after (list_models
                        (world_of (Replied (json_response 200 (JDict []))) start)))
  = O.
Proof.
  apply (list_models_without_models
           (world_of (Replied (json_response 200 (JDict []))) start)
           (json_response 200 (JDict [])) []);
    reflexivity.
Defined.

Lemma list_models_entry_without_name_witness :
  result (list_models
            (world_of (Replied (json_response 200 (JDict nameless_models))) start))
  = inl (HTTPException 500 "'name'").
Proof.
  apply (proj1 list_models_entry_without_name
           (world_of (Replied (json_response 200 (JDict nameless_models))) start)
           (json_response 200 (JDict nameless_models)) nameless_models
           [JDict [("name", JStr "qwen2.5:7b")]] [JStr "qwen2.5:7b"]
           [JDict [("name", JStr "phi3")]]
           (JDict [("model", JStr "llama3:8b")]) (KeyError "name"));
    try reflexivity.
  repeat constructor.
Defined.

Lemma backend_failure_is_500_witness :
  result (chat_completions hello_request (world_of (Unreachable connect_error) start))
  = inl (HTTPException 500 "All connection attempts failed").
Proof.
  apply (proj1 backend_failure_is_500 hello_request
           (world_of (Unreachable connect_error) start) connect_error);
    reflexivity.
Defined.

Lemma one_request_per_call_witness :
  uuid_calls (after (chat_completions hello_streaming
                       (world_of (Unreachable connect_error) start)))
  = O.
Proof.
  apply (proj1 (proj2 (proj2 one_request_per_call)) hello_streaming
           (world_of (Unreachable connect_error) start)).
  reflexivity.
Defined.

Lemma null_counter_is_500_witness :
  result (chat_completions hello_request
            (world_of (Replied (json_response 200 (JDict null_counter_answer)))
               start))
  = inl (HTTPException 500
           "unsupported operand type(s) for +: 'NoneType' and 'int'").
Proof.
  apply (proj1 null_counter_is_500 hello_request
           (world_of (Replied (json_response 200 (JDict null_counter_answer))) start)
           (json_response 200 (JDict null_counter_answer)) null_counter_answer
           [("content", JStr "hi")] (JStr "hi") 5);
    reflexivity.
Defined.

Lemma returned_body_fields_witness :
  let w := world_of (answer 200 (JDict hi_answer)) start in
  let body := chat_body w "qwen2.5:7b" (JStr "hi") (JInt 3) (JInt 5) (JInt 8) in
  exists token r v p c,
    hex_token token /\
    at_path body [Key "id"] = Some (JStr ("chatcmpl-" +++ token)) /\
    at_path body [Key "object"] = Some (JStr "chat.completion") /\
    at_path body [Key "created"] = Some (JInt (clock w (clock_reads w))) /\
    at_path body [Key "model"] = Some (JStr "qwen2.5:7b") /\
    at_path body [Key "choices"; Index 0; Key "index"] = Some (JInt 0) /\
    at_path body [Key "choices"; Index 0; Key "message"; Key "role"]
    = Some (JStr "assistant") /\
    at_path body [Key "choices"; Index 1] = None /\
    backend w (List.length (sent w)) = Replied r /\
    json_of r = inr v /\
    py_get v "prompt_eval_count" (JInt 0) = inr p /\
    py_get v "eval_count" (JInt 0) = inr c /\
    at_path body [Key "usage"; Key "prompt_tokens"] = Some p /\
    at_path body [Key "usage"; Key "completion_tokens"] = Some c.
Proof.
  intros w body.
  apply (proj1 returned_body_fields hello_request w body).
  reflexivity.
Defined.

Lemma request_carries_messages_witness :
  at_path (chat_ollama_request hello_request) [Key "messages"; Index 0]
  = Some (JDict [("role", JStr "user"); ("content", JStr "Hello")]).
Proof.
  apply (proj1 (proj2 (proj2 (proj2 (request_carries_messages hello_request))))
           O {| role := "user"; content := "Hello" |}).
  reflexivity.
Defined.

Lemma non_object_line_witness :
  chat_line "chatcmpl-deadbeef" hello_stream number_line (world_of (lines []) start)
  = Run [] (inl (TypeError "argument of type 'int' is not iterable"))
      (world_of (lines []) start).
Proof.
  apply (proj1 non_object_line "chatcmpl-deadbeef" hello_stream (JInt 42)
           number_line (world_of (lines []) start));
    reflexivity.
Defined.

Lemma raising_line_ends_stream_witness :
  let w := world_of (lines [hi_line; number_line; done_line]) start in
  yielded (stream_chat_response open_client hello_stream w)
  = [sse (json_dumps (chat_content_chunk "chatcmpl-deadbeef" start
                        (JStr "qwen2.5:7b") (JStr "Hi")))] /\
  result (stream_chat_response open_client hello_stream w)
  = inl (TypeError "argument of type 'int' is not iterable").
Proof.
  intros w.
  pose proof (proj1 raising_line_ends_stream open_client hello_stream w
                (lines_response [hi_line; number_line; done_line] None)
                [hi_line] [done_line] number_line
                (TypeError "argument of type 'int' is not iterable")
                eq_refl eq_refl eq_refl eq_refl eq_refl) as [H _].
  rewrite H. split; reflexivity.
Defined.

Lemma chunk_without_key_ignored_witness :
  chat_line "chatcmpl-deadbeef" hello_stream error_line (world_of (lines []) start)
  = Run [] (inr tt) (world_of (lines []) start).
Proof.
  apply (proj1 chunk_without_key_ignored "chatcmpl-deadbeef" hello_stream
           error_line [("error", JStr "model not found")]
           (world_of (lines []) start));
    reflexivity.
Defined.

Lemma content_chunk_frame_witness :
  chat_line "chatcmpl-deadbeef" hello_stream hi_line (world_of (lines []) start)
  = Run [sse (json_dumps (chat_content_chunk "chatcmpl-deadbeef" start
                            (JStr "qwen2.5:7b") (JStr "Hi")))]
      (inr tt) (ticked (world_of (lines []) start)).
Proof.
  apply (proj1 content_chunk_frame "chatcmpl-deadbeef" hello_stream
           (JStr "qwen2.5:7b") hi_line
           [("message", JDict [("content", JStr "Hi")])] [("content", JStr "Hi")]
           (world_of (lines []) start));
    reflexivity.
Defined.

Lemma message_not_object_raises_witness :
  chat_line "chatcmpl-deadbeef" hello_stream flat_message_line
    (world_of (lines []) start)
  = Run [] (inl (AttributeError "'str' object has no attribute 'get'"))
      (world_of (lines []) start).
Proof.
  apply (message_not_object_raises "chatcmpl-deadbeef" hello_stream (JStr "Hi")
           flat_message_line [("message", JStr "Hi"); ("done", JBool true)]
           (world_of (lines []) start));
    reflexivity.
Defined.

Lemma stream_goes_on_after_done_witness :
  result (chat_line "chatcmpl-deadbeef" hello_stream done_line
            (world_of (lines []) start))
  = inr tt.
Proof.
  apply (proj1 stream_goes_on_after_done "chatcmpl-deadbeef" hello_stream
           (JStr "qwen2.5:7b") done_line [hi_line]
           [("done", JBool true); ("message", JDict [("content", JStr "")])]
           [("content", JStr "")] (world_of (lines []) start));
    reflexivity.
Defined.

Lemma stream_transport_failure_witness :
  let w := world_of (Replied (lines_response [hi_line] (Some protocol_error)))
             start in
  result (stream_chat_response open_client hello_stream w) = inl protocol_error.
Proof.
  intros w.
  apply (proj1 (proj2 stream_transport_failure) open_client hello_stream w
           (lines_response [hi_line] (Some protocol_error)) protocol_error);
    reflexivity.
Defined.

Lemma streaming_generator_is_closed_witness :
  exists generator,
    chat_completions hello_streaming (world_of (lines [hi_line; done_line]) start)
    = Run [] (inr (StreamingResponse generator "text/event-stream"))
        (world_of (lines [hi_line; done_line]) start) /\
    yielded (generator (world_of (lines [hi_line; done_line]) start)) = [].
Proof.
  destruct (proj1 streaming_generator_is_closed hello_streaming
              (world_of (lines [hi_line; done_line]) start) eq_refl)
    as (generator & Hreturned & Hruns).
  exists generator. split; [exact Hreturned |].
  apply (Hruns (world_of (lines [hi_line; done_line]) start)).
Defined.

Lemma stream_sends_one_request_witness :
  List.length
    (sent (after (stream_chat_response open_client hello_stream
                    (world_of (lines [hi_line; noise_line; done_line]) start))))
  = 1%nat.
Proof.
  rewrite (proj1 (stream_sends_one_request open_client hello_stream
                    (world_of (lines [hi_line; noise_line; done_line]) start)
                    eq_refl)).
  reflexivity.
Defined.

Lemma stream_without_done_witness :
  result (for_each [hi_line; hi_line] (chat_line "chatcmpl-deadbeef" hello_stream)
            (world_of (lines []) start))
  = inr tt.
Proof.
  apply (proj1 stream_without_done "chatcmpl-deadbeef" hello_stream
           (JStr "qwen2.5:7b") [hi_line; hi_line] (world_of (lines []) start)).
  - reflexivity.
  - intros line [<- | [<- | []]];
      exists [("message", JDict [("content", JStr "Hi")])], [("content", JStr "Hi")];
      repeat split; reflexivity.
Defined.

Lemma models_read_the_clock_witness :
  clock_reads (after (list_models
                        (world_of (Replied (json_response 200 (JDict two_models)))
                           start)))
  = 2%nat.
Proof.
  apply (models_read_the_clock
           (world_of (Replied (json_response 200 (JDict two_models))) start)
           (json_response 200 (JDict two_models)) two_models
           [JDict [("name", JStr "qwen2.5:7b")]; JDict [("name", JStr "llama3:8b")]]
           [JStr "qwen2.5:7b"; JStr "llama3:8b"]);
    try reflexivity.
  repeat constructor.
Defined.
